(** * teleport-tokscope: the security-service IPC loop, the REST wrapper
      and the compose-hash tool

    A shallow embedding of

    - [tokscope-enclave/security-service/security_service_subprocess.py]
      (class [SecurityServiceSubprocess]),
    - [tokscope-enclave/security-service/main.py] (endpoints
      [generate_headers], [register_device] and [test_modules]),
    - [enclave-tools/get_compose_hash.py] ([sort_object],
      [to_deterministic_json], [get_compose_hash],
      [docker_compose_to_app_compose], [main]),

    followed by the properties of the specification stated over it.

    Conventions.

    - Python values are the JSON-shaped values the three programs
      exchange: [None], booleans, integers, floats, strings, lists and
      dicts with string keys. A [str] is a [string] holding its UTF-8
      bytes; a [dict] is an association list in insertion order, with one
      binding per key.
    - A computation that may raise returns a [Result]; a computation that
      reads the clock, draws a random token, logs, reads standard input,
      prints or calls a signing module is a function of the [World].
      Exceptions are those of class [Exception]; [KeyboardInterrupt] and
      [SystemExit] are outside the model.
    - Library functions the repository calls but does not define
      ([json.loads], [json.dumps], [repr], [time.time],
      [secrets.token_hex], [hashlib.sha256], [yaml.safe_load], [open])
      and the signing modules under [lib/] are parameters: the classes
      [Runtime], [SigningBackend], [Generators], [Encryptor],
      [HashRuntime] and [ToolRuntime]. The signing modules are taken to
      return JSON-shaped values, so [json.dumps] is total.
    - The [World] keeps the list of the calls made to the signing modules
      with their arguments. The programs never read it; the properties
      that say what a signing module is given are stated over it. *)

From Stdlib Require Import String Ascii List ZArith Bool Lia.
From Stdlib Require Import Permutation.
From Stdlib Require Import Floats.SpecFloat.
From Stdlib Require Import Numbers.DecimalString.
From Stdlib Require Import Structures.OrderedTypeEx.
From Equations Require Import Equations.
Import ListNotations.

Local Open Scope list_scope.
Local Open Scope string_scope.

(** ** Python values *)

Unset Elimination Schemes.
Inductive Value : Type :=
| VNone
| VBool (b : bool)
| VInt (n : Z)
| VFloat (f : spec_float)
| VStr (s : string)
| VList (l : list Value)
| VDict (d : list (string * Value)).
Set Elimination Schemes.

Definition Dict : Type := list (string * Value).

(** Induction over values that reaches inside lists and dicts. *)
Definition Value_ind (P : Value -> Prop)
  (HNone : P VNone)
  (HBool : forall b, P (VBool b))
  (HInt : forall n, P (VInt n))
  (HFloat : forall f, P (VFloat f))
  (HStr : forall s, P (VStr s))
  (HList : forall l, Forall P l -> P (VList l))
  (HDict : forall d, Forall (fun kv => P (snd kv)) d -> P (VDict d)) :
  forall v, P v :=
  fix go (v : Value) : P v :=
    match v with
    | VNone => HNone
    | VBool b => HBool b
    | VInt n => HInt n
    | VFloat f => HFloat f
    | VStr s => HStr s
    | VList l =>
        HList l ((fix go_list (l : list Value) : Forall P l :=
                    match l with
                    | [] => Forall_nil _
                    | x :: t => Forall_cons _ (go x) (go_list t)
                    end) l)
    | VDict d =>
        HDict d ((fix go_dict (d : Dict) : Forall (fun kv => P (snd kv)) d :=
                    match d with
                    | [] => Forall_nil _
                    | kv :: t =>
                        @Forall_cons _ (fun kv => P (snd kv)) kv t
                          (go (snd kv)) (go_dict t)
                    end) d)
    end.

(** ** Exceptions and results *)

Inductive ExcClass : Type :=
| JSONDecodeError
| KeyError
| TypeError
| AttributeError
| HTTPException
| OtherException (name : string).

(** [exc_str] is what [str(e)] returns. *)
Record PyExc : Type := mkExc { exc_class : ExcClass; exc_str : string }.

Inductive Result (A : Type) : Type :=
| Ok (a : A)
| Raise (e : PyExc).
Arguments Ok {A} a.
Arguments Raise {A} e.

Definition is_JSONDecodeError (e : PyExc) : bool :=
  match exc_class e with JSONDecodeError => true | _ => false end.

(** ** Dict operations (insertion-ordered, one binding per key) *)

Fixpoint dict_get (d : Dict) (k : string) : option Value :=
  match d with
  | [] => None
  | (k', v) :: t => if String.eqb k k' then Some v else dict_get t k
  end.

Definition dict_has (d : Dict) (k : string) : bool :=
  match dict_get d k with Some _ => true | None => false end.

(** [d[k] = v]: an existing key keeps its position, a new key goes last. *)
Fixpoint dict_set (d : Dict) (k : string) (v : Value) : Dict :=
  match d with
  | [] => [(k, v)]
  | (k', v') :: t =>
      if String.eqb k k' then (k', v) :: t else (k', v') :: dict_set t k v
  end.

(** [d.update(h)]: the bindings of [h] are stored in [h]'s order. *)
Definition dict_update (d h : Dict) : Dict :=
  fold_left (fun acc kv => dict_set acc (fst kv) (snd kv)) h d.

Definition keys (d : Dict) : list string := map fst d.

(** ** Python primitives used by the sources *)

Definition type_name (v : Value) : string :=
  match v with
  | VNone => "NoneType"
  | VBool _ => "bool"
  | VInt _ => "int"
  | VFloat _ => "float"
  | VStr _ => "str"
  | VList _ => "list"
  | VDict _ => "dict"
  end.

Definition float_is_zero (f : spec_float) : bool :=
  match f with S754_zero _ => true | _ => false end.

(** Truth value of an object in a condition. *)
Definition truthy (v : Value) : bool :=
  match v with
  | VNone => false
  | VBool b => b
  | VInt n => negb (Z.eqb n 0)
  | VFloat f => negb (float_is_zero f)
  | VStr s => negb (String.eqb s "")
  | VList l => match l with [] => false | _ => true end
  | VDict d => match d with [] => false | _ => true end
  end.

(** [v == s] for a string literal [s]. *)
Definition eq_str (v : Value) (s : string) : bool :=
  match v with VStr s' => String.eqb s' s | _ => false end.

Definition string_of_Z (n : Z) : string :=
  NilZero.string_of_int (Z.to_int n).

Fixpoint substringb (needle hay : string) : bool :=
  if String.prefix needle hay then true
  else match hay with
       | EmptyString => false
       | String _ hay' => substringb needle hay'
       end.

(** [obj.get(key, default)] *)
Definition py_get (obj : Value) (key : string) (default : Value) : Result Value :=
  match obj with
  | VDict d => Ok (match dict_get d key with Some v => v | None => default end)
  | _ => Raise (mkExc AttributeError
                  ("'" ++ type_name obj ++ "' object has no attribute 'get'"))
  end.

(** [key in obj] for a string [key] *)
Definition py_contains (key : string) (obj : Value) : Result bool :=
  match obj with
  | VDict d => Ok (dict_has d key)
  | VList l => Ok (existsb (fun x => eq_str x key) l)
  | VStr s => Ok (substringb key s)
  | _ => Raise (mkExc TypeError
                  ("argument of type '" ++ type_name obj ++ "' is not iterable"))
  end.

(** [{**obj}] *)
Definition dict_unpack (obj : Value) : Result Dict :=
  match obj with
  | VDict d => Ok d
  | _ => Raise (mkExc TypeError
                  ("'" ++ type_name obj ++ "' object is not a mapping"))
  end.

(** A continuation byte of UTF-8: it belongs to the character begun
    before it. *)
Definition is_continuation (c : ascii) : bool :=
  let n := nat_of_ascii c in Nat.leb 128 n && Nat.ltb n 192.

(** The characters of a string, each with the bytes that encode it. *)
Fixpoint chars (s : string) : list string :=
  match s with
  | EmptyString => []
  | String c s' =>
      let l := chars s' in
      match s' with
      | String c' _ =>
          if is_continuation c' then
            match l with
            | ch :: rest => String c ch :: rest
            | [] => [String c EmptyString]
            end
          else String c EmptyString :: l
      | EmptyString => String c EmptyString :: l
      end
  end.

(** [s[:n]] *)
Fixpoint str_prefix (n : nat) (s : string) : string :=
  match s with
  | EmptyString => EmptyString
  | String c s' =>
      if is_continuation c then String c (str_prefix n s')
      else match n with
           | O => EmptyString
           | S n' => String c (str_prefix n' s')
           end
  end.

(** The ASCII characters for which [str.isspace()] holds. *)
Definition is_space (c : ascii) : bool :=
  let n := nat_of_ascii c in
  (Nat.leb 9 n && Nat.leb n 13) || (Nat.leb 28 n && Nat.leb n 32).

Definition of_bytes (bytes : list nat) : string :=
  fold_right (fun n s => String (ascii_of_nat n) s) EmptyString bytes.

(** The other characters for which [str.isspace()] holds: U+0085,
    U+00A0, U+1680, U+2000 to U+200A, U+2028, U+2029, U+202F, U+205F
    and U+3000, in UTF-8. *)
Definition unicode_spaces : list string :=
  map of_bytes
    [[194; 133]; [194; 160]; [225; 154; 128];
     [226; 128; 128]; [226; 128; 129]; [226; 128; 130]; [226; 128; 131];
     [226; 128; 132]; [226; 128; 133]; [226; 128; 134]; [226; 128; 135];
     [226; 128; 136]; [226; 128; 137]; [226; 128; 138];
     [226; 128; 168]; [226; 128; 169]; [226; 128; 175];
     [226; 129; 159]; [227; 128; 128]].

(** [ch.isspace()] for one character *)
Definition is_space_char (ch : string) : bool :=
  match ch with
  | String c EmptyString => is_space c
  | _ => existsb (String.eqb ch) unicode_spaces
  end.

Fixpoint drop_spaces (l : list string) : list string :=
  match l with
  | ch :: t => if is_space_char ch then drop_spaces t else l
  | [] => []
  end.

(** [s.strip()] *)
Definition strip (s : string) : string :=
  String.concat EmptyString (rev (drop_spaces (rev (drop_spaces (chars s))))).

Definition newline : ascii := "010"%char.

(** [readline] on the text still to be read: the line up to and including
    its newline and the text after it; the empty string at end of stream. *)
Fixpoint readline (s : string) : string * string :=
  match s with
  | EmptyString => (EmptyString, EmptyString)
  | String c s' =>
      if Ascii.eqb c newline then (String c EmptyString, s')
      else let '(line, rest) := readline s' in (String c line, rest)
  end.

(** ** The runtime the programs rest on

    Library functions the repository calls but does not define.
    [json_loads] may raise [JSONDecodeError] (or, for instance, a
    [RecursionError]); [repr] is Python's [repr] on floats, strings and
    containers; [time_time k] is [int(time.time())] as the [k]-th reading
    of the clock returns it and [token_hex16 k] the [k]-th draw of
    [secrets.token_hex(16)]. *)
Class Runtime : Type := {
  json_loads : string -> Result Value;
  json_dumps : Value -> string;
  repr : Value -> string;
  time_time : nat -> Z;
  token_hex16 : nat -> string
}.

(** The three signing modules of [lib/]: black boxes that return a value
    or raise. *)
Class SigningBackend : Type := {
  (** [XGorgon.get_value(params, data=None, stub, headers_dict, timestamp)] *)
  gorgon_get_value : Value -> Value -> Value -> Value -> Result Value;
  (** [Argus.get_value(params, cookies, timestamp)] *)
  argus_get_value : Value -> Value -> Value -> Result Value;
  (** [Ladon.get_value(params)] *)
  ladon_get_value : Value -> Result Value
}.

(** [str(v)], also what an f-string field formats to. *)
Definition py_str `{Runtime} (v : Value) : string :=
  match v with
  | VStr s => s
  | VNone => "None"
  | VBool true => "True"
  | VBool false => "False"
  | VInt n => string_of_Z n
  | _ => repr v
  end.

(** [obj[key]] for a string [key] *)
Definition py_getitem `{Runtime} (obj : Value) (key : string) : Result Value :=
  match obj with
  | VDict d =>
      match dict_get d key with
      | Some v => Ok v
      | None => Raise (mkExc KeyError (repr (VStr key)))
      end
  | VList _ =>
      Raise (mkExc TypeError "list indices must be integers or slices, not str")
  | VStr _ =>
      Raise (mkExc TypeError "string indices must be integers, not 'str'")
  | _ =>
      Raise (mkExc TypeError
               ("'" ++ type_name obj ++ "' object is not subscriptable"))
  end.

(** *** [urllib.parse.urlencode] on a dict *)

Definition is_unreserved (c : ascii) : bool :=
  let n := nat_of_ascii c in
  (Nat.leb 48 n && Nat.leb n 57) || (Nat.leb 65 n && Nat.leb n 90)
  || (Nat.leb 97 n && Nat.leb n 122)
  || Nat.eqb n 95 || Nat.eqb n 46 || Nat.eqb n 45 || Nat.eqb n 126.

Definition hex_digit (n : nat) : ascii :=
  if Nat.ltb n 10 then ascii_of_nat (48 + n) else ascii_of_nat (55 + n).

Definition quote_plus_char (c : ascii) : string :=
  if is_unreserved c then String c EmptyString
  else if Ascii.eqb c " "%char then "+"
  else let n := nat_of_ascii c in
       String "%"%char
         (String (hex_digit (n / 16)) (String (hex_digit (n mod 16)) EmptyString)).

Fixpoint quote_plus (s : string) : string :=
  match s with
  | EmptyString => EmptyString
  | String c s' => quote_plus_char c ++ quote_plus s'
  end.

Definition urlencode `{Runtime} (query : Dict) : string :=
  String.concat "&"
    (map (fun kv => quote_plus (fst kv) ++ "=" ++ quote_plus (py_str (snd kv)))
       query).

(** ** Effects: the process as the code sees it *)

Inductive LogLevel : Type := INFO | ERROR.

(** A call made to a signing module, with the arguments it was given. *)
Inductive Call : Type :=
| CallGorgon (params stub headers_dict timestamp : Value)
| CallArgus (params cookies timestamp : Value)
| CallLadon (params : Value).

(** [w_stdin] is the text not yet read, [w_stdout] the lines printed so
    far (oldest first), [w_log] the records the logger sent to stderr,
    [w_clock] and [w_entropy] count the readings of the clock and the
    draws of random tokens, [w_calls] lists the calls made to the signing
    modules. *)
Record World : Type := mkWorld {
  w_stdin : string;
  w_stdout : list string;
  w_log : list (LogLevel * string);
  w_clock : nat;
  w_entropy : nat;
  w_calls : list Call
}.

Definition M (A : Type) : Type := World -> Result A * World.

Definition ret {A} (a : A) : M A := fun w => (Ok a, w).

Definition raise {A} (e : PyExc) : M A := fun w => (Raise e, w).

Definition bind {A B} (m : M A) (k : A -> M B) : M B :=
  fun w =>
    match m w with
    | (Ok a, w') => k a w'
    | (Raise e, w') => (Raise e, w')
    end.

Definition lift {A} (r : Result A) : M A := fun w => (r, w).

(** [try: body except Exception as e: handler e]; what [body] did before
    it raised stays done. *)
Definition try_except {A} (body : M A) (handler : PyExc -> M A) : M A :=
  fun w =>
    match body w with
    | (Ok a, w') => (Ok a, w')
    | (Raise e, w') => handler e w'
    end.

Declare Scope py_scope.
Delimit Scope py_scope with py.
Notation "x <- m ;; k" := (bind m (fun x => k))
  (at level 61, m at next level, right associativity) : py_scope.
Notation "m ;;; k" := (bind m (fun _ => k))
  (at level 61, right associativity) : py_scope.

Definition logger (lvl : LogLevel) (msg : string) : M unit :=
  fun w =>
    (Ok tt, mkWorld (w_stdin w) (w_stdout w) ((w_log w ++ [(lvl, msg)])%list)
              (w_clock w) (w_entropy w) (w_calls w)).

(** [print(s, flush=True)] *)
Definition print (s : string) : M unit :=
  fun w =>
    (Ok tt, mkWorld (w_stdin w) ((w_stdout w ++ [s])%list) (w_log w)
              (w_clock w) (w_entropy w) (w_calls w)).

(** [sys.stdin.readline()] *)
Definition stdin_readline : M string :=
  fun w =>
    let '(line, rest) := readline (w_stdin w) in
    (Ok line, mkWorld rest (w_stdout w) (w_log w)
                (w_clock w) (w_entropy w) (w_calls w)).

(** [int(time.time())] *)
Definition now `{Runtime} : M Value :=
  fun w =>
    (Ok (VInt (time_time (w_clock w))),
     mkWorld (w_stdin w) (w_stdout w) (w_log w)
       (S (w_clock w)) (w_entropy w) (w_calls w)).

(** [secrets.token_hex(16)] *)
Definition token_hex `{Runtime} : M Value :=
  fun w =>
    (Ok (VStr (token_hex16 (w_entropy w))),
     mkWorld (w_stdin w) (w_stdout w) (w_log w)
       (w_clock w) (S (w_entropy w)) (w_calls w)).

Definition record_call (c : Call) (w : World) : World :=
  mkWorld (w_stdin w) (w_stdout w) (w_log w)
    (w_clock w) (w_entropy w) ((w_calls w ++ [c])%list).

Definition call_gorgon `{SigningBackend}
  (params stub headers_dict timestamp : Value) : M Value :=
  fun w =>
    (gorgon_get_value params stub headers_dict timestamp,
     record_call (CallGorgon params stub headers_dict timestamp) w).

Definition call_argus `{SigningBackend}
  (params cookies timestamp : Value) : M Value :=
  fun w =>
    (argus_get_value params cookies timestamp,
     record_call (CallArgus params cookies timestamp) w).

Definition call_ladon `{SigningBackend} (params : Value) : M Value :=
  fun w => (ladon_get_value params, record_call (CallLadon params) w).

(** [[f(x) for x in l]]: left to right, stopping at the first exception. *)
Fixpoint map_result {A B} (f : A -> Result B) (l : list A) : Result (list B) :=
  match l with
  | [] => Ok []
  | x :: t =>
      match f x with
      | Raise e => Raise e
      | Ok y =>
          match map_result f t with
          | Raise e => Raise e
          | Ok ys => Ok (y :: ys)
          end
      end
  end.

Definition bindR {A B} (r : Result A) (k : A -> Result B) : Result B :=
  match r with
  | Ok a => k a
  | Raise e => Raise e
  end.

Notation "x <~ r ;; k" := (bindR r (fun x => k))
  (at level 61, r at next level, right associativity) : py_scope.

(** * [security_service_subprocess.py] *)

Module Subprocess.

Section Service.

Context {R : Runtime} {B : SigningBackend}.
Local Open Scope py_scope.

(** [SecurityServiceSubprocess.generate_headers] (lines 40-73) *)
Definition generate_headers (params cookies stub timestamp : Value) : M Dict :=
  try_except
    (let headers_dict :=
       if truthy cookies then VDict [("cookie", cookies)] else VDict [] in
     gorgon_result <- call_gorgon params stub headers_dict timestamp ;;
     argus_value <- call_argus params cookies timestamp ;;
     ladon_value <- call_ladon params ;;
     x_gorgon <- lift (py_get gorgon_result "X-Gorgon" (VStr "")) ;;
     x_khronos <- lift (py_get gorgon_result "X-Khronos" timestamp) ;;
     ret [("X-Gorgon", x_gorgon);
          ("X-Khronos", VStr (py_str x_khronos));
          ("X-Argus", argus_value);
          ("X-Ladon", ladon_value)])
    (fun e =>
       logger ERROR ("Header generation failed: " ++ exc_str e) ;;; raise e).

(** Lines 84-90 of [build_authenticated_params]: the device identifiers
    of the session are stored into [params]. *)
Definition add_device_info (session_data : Value) (params : Dict) : Result Dict :=
  has_tokens <~ py_contains "tokens" session_data ;;
  if has_tokens : bool then
    tokens <~ py_getitem session_data "tokens" ;;
    has_device_id <~ py_contains "device_id" tokens ;;
    params1 <~ (if has_device_id : bool then
                  device_id <~ py_getitem tokens "device_id" ;;
                  Ok (dict_set params "device_id" device_id)
                else Ok params) ;;
    has_install_id <~ py_contains "install_id" tokens ;;
    if has_install_id : bool then
      install_id <~ py_getitem tokens "install_id" ;;
      Ok (dict_set params1 "iid" install_id)
    else Ok params1
  else Ok params.

(** The field [f"{c['name']}={c['value']}"] of one cookie. *)
Definition cookie_pair (c : Value) : Result string :=
  name <~ py_getitem c "name" ;;
  value <~ py_getitem c "value" ;;
  Ok (py_str name ++ "=" ++ py_str value).

(** Lines 95-101 of [build_authenticated_params]: the cookie string of
    the session. *)
Definition session_cookies (session_data : Value) : Result string :=
  has_cookies <~ py_contains "cookies" session_data ;;
  if has_cookies : bool then
    cookies <~ py_getitem session_data "cookies" ;;
    if truthy cookies then
      match cookies with
      | VList l =>
          pairs <~ map_result cookie_pair l ;;
          Ok (String.concat "; " pairs)
      | VStr s => Ok s
      | _ => Ok ""
      end
    else Ok ""
  else Ok "".

(** [SecurityServiceSubprocess.build_authenticated_params] (lines 75-113) *)
Definition build_authenticated_params (base_params session_data : Value) : M Dict :=
  try_except
    (timestamp <- now ;;
     stub <- token_hex ;;
     params <- lift (dict_unpack base_params) ;;
     params <- lift (add_device_info session_data params) ;;
     let params_string := urlencode params in
     cookies <- lift (session_cookies session_data) ;;
     headers <- generate_headers (VStr params_string) (VStr cookies) stub timestamp ;;
     ret (dict_update params headers))
    (fun e =>
       logger ERROR ("buildAuthenticatedParams failed: " ++ exc_str e) ;;;
       raise e).

Definition api_config : Value :=
  VDict [("baseUrl", VStr "https://api16-normal-c-useast1a.tiktokv.com");
         ("userAgent", VStr "okhttp/3.12.13");
         ("endpoints", VDict [("feed", VStr "/aweme/v1/feed/");
                              ("recommended", VStr "/aweme/v1/feed/")])].

(** [SecurityServiceSubprocess.handle_request] (lines 115-176) *)
Definition handle_request (request : Value) : M Value :=
  action <- lift (py_get request "action" VNone) ;;
  request_id <- lift (py_get request "requestId" VNone) ;;
  if eq_str action "getApiConfig" then
    ret (VDict [("success", VBool true);
                ("requestId", request_id);
                ("config", api_config)])
  else if eq_str action "generateDeviceAuth" then
    sec_user_id <- lift (py_get request "secUserId" (VStr "")) ;;
    ret (VDict [("success", VBool true);
                ("requestId", request_id);
                ("deviceAuth", VDict [("sec_user_id", sec_user_id)])])
  else if eq_str action "buildAuthenticatedParams" then
    base_params <- lift (py_get request "baseParams" (VDict [])) ;;
    session_data <- lift (py_get request "sessionData" (VDict [])) ;;
    authenticated_params <- build_authenticated_params base_params session_data ;;
    ret (VDict [("success", VBool true);
                ("requestId", request_id);
                ("params", VDict authenticated_params)])
  else if eq_str action "generateHeaders" then
    params <- lift (py_get request "params" (VStr "")) ;;
    cookies <- lift (py_get request "cookies" (VStr "")) ;;
    fresh_stub <- token_hex ;;
    stub <- lift (py_get request "stub" fresh_stub) ;;
    current <- now ;;
    timestamp <- lift (py_get request "timestamp" current) ;;
    headers <- generate_headers params cookies stub timestamp ;;
    ret (VDict [("success", VBool true);
                ("requestId", request_id);
                ("headers", VDict headers)])
  else
    ret (VDict [("success", VBool false);
                ("requestId", request_id);
                ("error", VStr ("Unknown action: " ++ py_str action))]).

(** What one turn of [while True] tells the loop to do next. *)
Inductive Flow : Type := Continue | Break.

(** The response of the two [except] clauses of [run]. *)
Definition error_response (msg : string) : Value :=
  VDict [("success", VBool false); ("error", VStr msg)].

(** One turn of the loop of [run] (lines 183-211). *)
Definition run_iteration : M Flow :=
  try_except
    (line <- stdin_readline ;;
     if String.eqb line "" then ret Break
     else
       request <- lift (json_loads (strip line)) ;;
       response <- handle_request request ;;
       print (json_dumps response) ;;;
       ret Continue)
    (fun e =>
       if is_JSONDecodeError e then
         print (json_dumps (error_response ("Invalid JSON: " ++ exc_str e))) ;;;
         ret Continue
       else
         logger ERROR ("Request handling error: " ++ exc_str e) ;;;
         print (json_dumps (error_response (exc_str e))) ;;;
         ret Continue).

(** How a run of the loop stands: it left the loop through [break], it
    is still looping (the turns allowed are used up), or an exception
    left the loop. *)
Inductive Outcome : Type :=
| Exited
| Looping
| Crashed (e : PyExc).

Fixpoint run_loop (turns : nat) (w : World) : Outcome * World :=
  match turns with
  | O => (Looping, w)
  | S turns' =>
      match run_iteration w with
      | (Ok Break, w') => (Exited, w')
      | (Ok Continue, w') => run_loop turns' w'
      | (Raise e, w') => (Crashed e, w')
      end
  end.

(** [SecurityServiceSubprocess.run] (lines 178-211), observed for at most
    [turns] turns of its loop. *)
Definition run (turns : nat) (w : World) : Outcome * World :=
  match logger INFO
          "Security service subprocess started, waiting for requests..." w with
  | (Ok _, w') => run_loop turns w'
  | (Raise e, w') => (Crashed e, w')
  end.

End Service.

End Subprocess.

(** * [main.py]: the REST endpoint [generate_headers] *)

Module RestWrapper.

(** The pydantic model [HeaderRequest]. *)
Record HeaderRequest : Type := mkHeaderRequest {
  params : string;
  cookies : string;
  stub : option string;
  timestamp : option Z;
  device_id : option string;
  install_id : option string
}.

(** The generator classes of [lib/] as [main.py] uses them: the three
    constructors and the method called on each instance. *)
Class Generators : Type := {
  (** [XGorgon()], [XArgus()], [XLadon()] *)
  XGorgon_new : Result unit;
  XArgus_new : Result unit;
  XLadon_new : Result unit;
  (** [gorgon_gen.calculate(params=, headers=)] *)
  gorgon_calculate : string -> Dict -> Result Value;
  (** [argus_gen.get_sign(params=, stub=, timestamp=)] *)
  argus_get_sign : string -> string -> Z -> Result Value;
  (** [ladon_gen.encrypt(timestamp)] *)
  ladon_encrypt : Z -> Result Value
}.

Definition gorgon_fallback : string := "0404000000000000000000000000000000000000".
Definition argus_placeholder : string := "placeholder_argus_value".
Definition ladon_placeholder : string := "placeholder_ladon_value".

Section Endpoint.

Context {R : Runtime} {G : Generators}.
Local Open Scope py_scope.

(** [int(time.time())] as an integer *)
Definition epoch_seconds : M Z :=
  fun w =>
    (Ok (time_time (w_clock w)),
     mkWorld (w_stdin w) (w_stdout w) (w_log w)
       (S (w_clock w)) (w_entropy w) (w_calls w)).

(** [request.timestamp or int(time.time())] *)
Definition request_timestamp (request : HeaderRequest) : M Z :=
  match timestamp request with
  | Some t => if Z.eqb t 0 then epoch_seconds else ret t
  | None => epoch_seconds
  end.

(** The headers given to [calculate] (lines 98-102). *)
Definition gorgon_headers (request : HeaderRequest) : Dict :=
  let headers_dict := [] in
  let headers_dict :=
    if negb (String.eqb (cookies request) "")
    then dict_set headers_dict "cookie" (VStr (cookies request))
    else headers_dict in
  match stub request with
  | Some s =>
      if negb (String.eqb s "")
      then dict_set headers_dict "x-ss-stub" (VStr s)
      else headers_dict
  | None => headers_dict
  end.

(** Lines 95-121: X-Gorgon and X-Khronos. *)
Definition gorgon_part (request : HeaderRequest) (ts : Z) : M (Value * Value) :=
  try_except
    (gorgon_result <- lift (gorgon_calculate (params request) (gorgon_headers request)) ;;
     match gorgon_result with
     | VDict d =>
         x_gorgon <- lift (py_get gorgon_result "X-Gorgon" (VStr gorgon_fallback)) ;;
         x_khronos <- lift (py_get gorgon_result "X-Khronos" (VStr (string_of_Z ts))) ;;
         ret (x_gorgon, x_khronos)
     | _ => ret (VStr (py_str gorgon_result), VStr (string_of_Z ts))
     end)
    (fun e =>
       logger ERROR ("X-Gorgon generation failed: " ++ exc_str e) ;;;
       ret (VStr gorgon_fallback, VStr (string_of_Z ts))).

(** Lines 123-134: X-Argus. *)
Definition argus_part (request : HeaderRequest) (ts : Z) : M Value :=
  try_except
    (x_argus <- lift (argus_get_sign (params request)
                        (match stub request with Some s => s | None => "" end) ts) ;;
     if negb (truthy x_argus) then ret (VStr argus_placeholder) else ret x_argus)
    (fun e =>
       logger ERROR ("X-Argus generation failed: " ++ exc_str e) ;;;
       ret (VStr argus_placeholder)).

(** Lines 136-143: X-Ladon. *)
Definition ladon_part (ts : Z) : M Value :=
  try_except
    (x_ladon <- lift (ladon_encrypt ts) ;;
     if negb (truthy x_ladon) then ret (VStr ladon_placeholder) else ret x_ladon)
    (fun e =>
       logger ERROR ("X-Ladon generation failed: " ++ exc_str e) ;;;
       ret (VStr ladon_placeholder)).

(** [generate_headers] (lines 80-162); an [HTTPException] carries the
    detail of the 500 response. *)
Definition generate_headers (request : HeaderRequest) : M Value :=
  try_except
    (ts <- request_timestamp request ;;
     logger INFO ("Generating headers for params: "
                  ++ str_prefix 50 (params request) ++ "...") ;;;
     gorgon_gen <- lift XGorgon_new ;;
     argus_gen <- lift XArgus_new ;;
     ladon_gen <- lift XLadon_new ;;
     gk <- gorgon_part request ts ;;
     x_argus <- argus_part request ts ;;
     x_ladon <- ladon_part ts ;;
     let headers := VDict [("X-Gorgon", fst gk);
                           ("X-Khronos", snd gk);
                           ("X-Argus", x_argus);
                           ("X-Ladon", x_ladon)] in
     logger INFO "Headers generated successfully" ;;;
     ret (VDict [("success", VBool true);
                 ("headers", headers);
                 ("timestamp", VInt ts)]))
    (fun e =>
       logger ERROR ("Header generation failed: " ++ exc_str e) ;;;
       raise (mkExc HTTPException (exc_str e))).

End Endpoint.

End RestWrapper.

(** * [get_compose_hash.py] *)

Module ComposeHash.

(** [json.dumps(_, separators=(",", ":"), ensure_ascii=False)] and
    [hashlib.sha256(_.encode("utf-8")).hexdigest()]. *)
Class HashRuntime : Type := {
  json_dumps_compact : Value -> string;
  sha256_hexdigest : string -> string
}.

(** [(k1, v1) < (k2, v2)] on the items of one dict: its keys are pairwise
    different, so the keys decide. Python orders strings by code point,
    which is the order of their UTF-8 bytes. *)
Definition item_lt (a b : string * Value) : bool := String.ltb (fst a) (fst b).

Fixpoint insert_item (x : string * Value) (l : Dict) : Dict :=
  match l with
  | [] => [x]
  | y :: t => if item_lt y x then y :: insert_item x t else x :: y :: t
  end.

(** [sorted(obj.items())] *)
Fixpoint sorted_items (d : Dict) : Dict :=
  match d with
  | [] => []
  | x :: t => insert_item x (sorted_items t)
  end.

Fixpoint vsize (v : Value) : nat :=
  match v with
  | VList l => S (list_sum (map vsize l))
  | VDict d => S (list_sum (map (fun kv => vsize (snd kv)) d))
  | _ => 1
  end.

(** [map] with the membership of each element at hand. *)
Fixpoint map_in {A B} (l : list A) : (forall x, In x l -> B) -> list B :=
  match l with
  | [] => fun _ => []
  | x :: t => fun f =>
      f x (or_introl eq_refl) :: map_in t (fun y Hy => f y (or_intror Hy))
  end.

Lemma vsize_item (l : list Value) (x : Value) :
  In x l -> vsize x < vsize (VList l).
Proof.
  induction l as [|y t IH]; simpl; intros Hin; [contradiction|].
  destruct Hin as [->|Hin]; [lia|]. specialize (IH Hin). simpl in IH. lia.
Qed.

Lemma vsize_value (d : Dict) (kv : string * Value) :
  In kv d -> vsize (snd kv) < vsize (VDict d).
Proof.
  induction d as [|y t IH]; simpl; intros Hin; [contradiction|].
  destruct Hin as [->|Hin]; [lia|]. specialize (IH Hin). simpl in IH. lia.
Qed.

Lemma insert_item_In (x y : string * Value) (l : Dict) :
  In y (insert_item x l) -> y = x \/ In y l.
Proof.
  induction l as [|z t IH]; simpl.
  - intros [->|[]]. now left.
  - destruct (item_lt z x); simpl.
    + intros [->|H]; [right; now left|]. destruct (IH H); auto.
    + intros [->|[->|H]]; auto.
Qed.

Lemma sorted_items_In (d : Dict) (y : string * Value) :
  In y (sorted_items d) -> In y d.
Proof.
  induction d as [|x t IH]; simpl; [auto|].
  intros H. apply insert_item_In in H. destruct H as [->|H]; auto.
Qed.

(** [sort_object] (lines 13-22) *)
Equations sort_object (obj : Value) : Value by wf (vsize obj) lt :=
  sort_object VNone := VNone;
  sort_object (VList l) := VList (map_in l (fun item Hin => sort_object item));
  sort_object (VDict d) :=
    VDict (map_in (sorted_items d)
             (fun kv Hin => (fst kv, sort_object (snd kv))));
  sort_object obj := obj.
Next Obligation. apply vsize_item; assumption. Qed.
Next Obligation.
  match goal with
  | Hin : In ?kv (sorted_items ?d) |- _ =>
      exact (vsize_value d kv (sorted_items_In d kv Hin))
  end.
Qed.

(** [convert_special_values] (lines 27-34) *)
Definition convert_special_values (obj : Value) : Value :=
  match obj with
  | VFloat S754_nan => VNone
  | VFloat (S754_infinity _) => VNone
  | _ => obj
  end.

(** [process_data] (lines 36-42) *)
Fixpoint process_data (obj : Value) : Value :=
  match obj with
  | VDict d => VDict (map (fun kv => (fst kv, process_data (snd kv))) d)
  | VList l => VList (map process_data l)
  | _ => convert_special_values obj
  end.

Section Hashing.

Context {H : HashRuntime}.

(** [to_deterministic_json] (lines 25-46) *)
Definition to_deterministic_json (data : Value) : string :=
  let sorted_data := sort_object data in
  let processed_data := process_data sorted_data in
  json_dumps_compact processed_data.

(** [get_compose_hash] (lines 49-52) *)
Definition get_compose_hash (app_compose_data : Value) : string :=
  let manifest_str := to_deterministic_json app_compose_data in
  sha256_hexdigest manifest_str.

End Hashing.

End ComposeHash.

(** * [main.py]: the endpoints [register_device] and [test_modules] *)

Module DeviceEndpoints.

Import RestWrapper.

(** The pydantic model [DeviceRegistrationRequest]. *)
Record DeviceRegistrationRequest : Type := mkDeviceRegistrationRequest {
  device_id : option string;
  install_id : option string
}.

(** The class [TT] of [lib/TTEncrypt], imported as [TTEncrypt]: its
    constructor and the method [main.py] calls on an instance. *)
Class Encryptor : Type := {
  (** [TTEncrypt()] *)
  TTEncrypt_new : Result unit;
  (** [tt_encrypt.register_device(device_id=, install_id=)] *)
  tt_register_device : option string -> option string -> Result Value
}.

Section Endpoints.

Context {G : Generators} {E : Encryptor}.
Local Open Scope py_scope.

(** [register_device] (lines 164-185) *)
Definition register_device (request : DeviceRegistrationRequest) : M Value :=
  try_except
    (tt_encrypt <- lift TTEncrypt_new ;;
     result <- lift (tt_register_device (device_id request) (install_id request)) ;;
     ret (VDict [("success", VBool true);
                 ("device", result)]))
    (fun e =>
       logger ERROR ("Device registration failed: " ++ exc_str e) ;;;
       raise (mkExc HTTPException (exc_str e))).

(** [test_modules] (lines 187-232) *)
Definition test_modules : M Value :=
  try_except
    (let results := [] in
     results <-
       try_except
         (gorgon <- lift XGorgon_new ;;
          ret (dict_set results "XGorgon" (VStr "✅ Loaded")))
         (fun e =>
            ret (dict_set results "XGorgon" (VStr ("❌ Failed: " ++ exc_str e)))) ;;
     results <-
       try_except
         (argus <- lift XArgus_new ;;
          ret (dict_set results "XArgus" (VStr "✅ Loaded")))
         (fun e =>
            ret (dict_set results "XArgus" (VStr ("❌ Failed: " ++ exc_str e)))) ;;
     results <-
       try_except
         (ladon <- lift XLadon_new ;;
          ret (dict_set results "XLadon" (VStr "✅ Loaded")))
         (fun e =>
            ret (dict_set results "XLadon" (VStr ("❌ Failed: " ++ exc_str e)))) ;;
     results <-
       try_except
         (tt <- lift TTEncrypt_new ;;
          ret (dict_set results "TTEncrypt" (VStr "✅ Loaded")))
         (fun e =>
            ret (dict_set results "TTEncrypt" (VStr ("❌ Failed: " ++ exc_str e)))) ;;
     ret (VDict [("status", VStr "test_complete");
                 ("modules", VDict results)]))
    (fun e =>
       ret (VDict [("status", VStr "error");
                   ("error", VStr (exc_str e))])).

End Endpoints.

End DeviceEndpoints.

(** * [get_compose_hash.py]: from the compose file to the hash *)

Module ComposeTool.

Import ComposeHash.

(** What the tool takes from outside: [yaml.safe_load] applied to the
    file at a path opened for reading (the parsed document, taken to be
    JSON-shaped as compose files are, or the exception of [open] or of
    the parser), the text that [json.dump(_, f, indent=2)] writes, and
    [open(name, "w")], which may raise. *)
Class ToolRuntime : Type := {
  yaml_safe_load_file : string -> Result Value;
  json_dump_indent2 : Value -> string;
  open_for_writing : string -> Result unit
}.

(** The files the tool has written, by name, and the texts it has
    printed, oldest first. *)
Record Disk : Type := mkDisk {
  files : list (string * string);
  printed : list string
}.

Fixpoint file_content (fs : list (string * string)) (name : string) : option string :=
  match fs with
  | [] => None
  | (n, c) :: t => if String.eqb name n then Some c else file_content t name
  end.

(** The files after [name] was opened with mode [w] and [content]
    written to it. *)
Fixpoint store_file (fs : list (string * string)) (name content : string)
  : list (string * string) :=
  match fs with
  | [] => [(name, content)]
  | (n, c) :: t =>
      if String.eqb name n then (n, content) :: t
      else (n, c) :: store_file t name content
  end.

Definition Tool (A : Type) : Type := Disk -> Result A * Disk.

Definition tool_ret {A} (a : A) : Tool A := fun d => (Ok a, d).

Definition tool_bind {A B} (m : Tool A) (k : A -> Tool B) : Tool B :=
  fun d =>
    match m d with
    | (Ok a, d') => k a d'
    | (Raise e, d') => (Raise e, d')
    end.

Definition tool_lift {A} (r : Result A) : Tool A := fun d => (r, d).

Declare Scope tool_scope.
Delimit Scope tool_scope with tool.
Notation "x <- m ;; k" := (tool_bind m (fun x => k))
  (at level 61, m at next level, right associativity) : tool_scope.
Notation "m ;;; k" := (tool_bind m (fun _ => k))
  (at level 61, right associativity) : tool_scope.

(** [print(s)] *)
Definition tool_print (s : string) : Tool unit :=
  fun d => (Ok tt, mkDisk (files d) (printed d ++ [s])%list).

(** [len(s)] of a string: its number of characters. *)
Fixpoint str_len (s : string) : nat :=
  match s with
  | EmptyString => 0
  | String c s' => if is_continuation c then str_len s' else S (str_len s')
  end.

(** [list(obj.keys())] *)
Definition py_keys (obj : Value) : Result (list string) :=
  match obj with
  | VDict d => Ok (keys d)
  | _ => Raise (mkExc AttributeError
                  ("'" ++ type_name obj ++ "' object has no attribute 'keys'"))
  end.

(** [len(obj)] *)
Definition py_len (obj : Value) : Result Z :=
  match obj with
  | VDict d => Ok (Z.of_nat (length d))
  | VList l => Ok (Z.of_nat (length l))
  | VStr s => Ok (Z.of_nat (str_len s))
  | _ => Raise (mkExc TypeError
                  ("object of type '" ++ type_name obj ++ "' has no len()"))
  end.

(** [l[0]] *)
Definition first_item (l : list string) : Result string :=
  match l with
  | k :: _ => Ok k
  | [] => Raise (mkExc (OtherException "IndexError") "list index out of range")
  end.

Section Tool.

Context {R : Runtime} {H : HashRuntime} {T : ToolRuntime}.

(** Lines 60-98 of [docker_compose_to_app_compose]: the manifest for
    the parsed compose file [docker_config]. The entries of a dict
    display are evaluated from first to last. *)
Definition app_compose_of (docker_compose_path : string) (docker_config : Value)
  : Result Value :=
  (services <~ py_get docker_config "services" (VDict []) ;;
   if negb (truthy services) then
     Raise (mkExc (OtherException "ValueError")
              "No services found in docker-compose.yml")
   else
     names <~ py_keys services ;;
     primary_service <~ first_item names ;;
     primary_config <~ py_getitem services primary_service ;;
     build <~ py_get primary_config "build" (VDict []) ;;
     dockerfile <~ py_get build "dockerfile" VNone ;;
     build <~ py_get primary_config "build" (VDict []) ;;
     context <~ py_get build "context" VNone ;;
     ports <~ py_get primary_config "ports" (VList []) ;;
     environment <~ py_get primary_config "environment" (VList []) ;;
     volumes <~ py_get primary_config "volumes" (VList []) ;;
     networks <~ py_get docker_config "networks" (VDict []) ;;
     networks <~ py_keys networks ;;
     services_count <~ py_len services ;;
     service_names <~ py_keys services ;;
     Ok (VDict
           [("runner", VStr "docker-compose");
            ("manifest_version", VInt 1);
            ("name", VStr ("xordi-audit-" ++ primary_service));
            ("docker_compose_file", VStr docker_compose_path);
            ("public_logs", VBool false);
            ("public_sysinfo", VBool false);
            ("public_tcbinfo", VBool true);
            ("kms_enabled", VBool true);
            ("gateway_enabled", VBool true);
            ("key_provider", VStr "kms");
            ("key_provider_id", VStr "kms-base-prod7");
            ("no_instance_id", VBool false);
            ("secure_time", VBool true);
            ("allowed_envs", VList [VStr "BROWSER_MANAGER_URL"; VStr "DOCKER_HOST"]);
            ("_audit_metadata",
             VDict [("dockerfile", dockerfile);
                    ("context", context);
                    ("ports", ports);
                    ("environment", environment);
                    ("volumes", volumes);
                    ("networks", VList (map VStr networks));
                    ("services_count", VInt services_count);
                    ("service_names", VList (map VStr service_names))])]))%py.

(** [docker_compose_to_app_compose] (lines 55-98) *)
Definition docker_compose_to_app_compose (docker_compose_path : string)
  : Result Value :=
  (docker_config <~ yaml_safe_load_file docker_compose_path ;;
   app_compose_of docker_compose_path docker_config)%py.

Local Open Scope tool_scope.

(** [with open(name, "w") as f: f.write(content)] *)
Definition write_file (name content : string) : Tool unit :=
  fun d =>
    match open_for_writing name with
    | Ok _ => (Ok tt, mkDisk (store_file (files d) name content) (printed d))
    | Raise e => (Raise e, d)
    end.

(** [main] (lines 101-133) *)
Definition main : Tool string :=
  let docker_compose_path := "../docker-compose-audit.yml" in
  tool_print "=== Generating App Compose Hash ===" ;;;
  app_compose_data <- tool_lift (docker_compose_to_app_compose docker_compose_path) ;;
  write_file "app-compose.json" (json_dump_indent2 app_compose_data) ;;;
  let deterministic_json := to_deterministic_json app_compose_data in
  write_file "app-compose-deterministic.json" deterministic_json ;;;
  let compose_hash := get_compose_hash app_compose_data in
  tool_print ("App Compose Hash: " ++ compose_hash) ;;;
  tool_print ("Hash (first 40 chars): " ++ str_prefix 40 compose_hash) ;;;
  write_file "compose-hash.txt" compose_hash ;;;
  tool_print (String newline "=== Files Generated ===") ;;;
  tool_print "- app-compose.json: Human-readable app compose configuration" ;;;
  tool_print "- app-compose-deterministic.json: Deterministic JSON used for hashing" ;;;
  tool_print "- compose-hash.txt: The SHA256 hash" ;;;
  tool_ret compose_hash.

End Tool.

End ComposeTool.

(** * Test doubles

    Stand-ins for the runtime and for the signing modules, used to run the
    model on concrete inputs. *)

Module Doubles.

Definition dquote : string := String (ascii_of_nat 34) EmptyString.
Definition backslash : ascii := ascii_of_nat 92.

Fixpoint json_escape (s : string) : string :=
  match s with
  | EmptyString => EmptyString
  | String c s' =>
      (if Ascii.eqb c (ascii_of_nat 34) then String backslash dquote
       else if Ascii.eqb c backslash then String backslash (String backslash EmptyString)
       else if Ascii.eqb c newline then String backslash "n"
       else String c EmptyString) ++ json_escape s'
  end.

Definition float_text (f : spec_float) : string :=
  match f with
  | S754_nan => "NaN"
  | S754_infinity false => "Infinity"
  | S754_infinity true => "-Infinity"
  | S754_zero false => "0.0"
  | S754_zero true => "-0.0"
  | S754_finite s m e =>
      (if s then "-" else "") ++ string_of_Z (Z.pos m) ++ "e2^" ++ string_of_Z e
  end.

(** A JSON writer for ASCII text; [item_sep] and [key_sep] are the two
    separators of [json.dumps]. *)
Fixpoint dumps_with (item_sep key_sep : string) (v : Value) : string :=
  match v with
  | VNone => "null"
  | VBool true => "true"
  | VBool false => "false"
  | VInt n => string_of_Z n
  | VFloat f => float_text f
  | VStr s => dquote ++ json_escape s ++ dquote
  | VList l => "[" ++ String.concat item_sep (map (dumps_with item_sep key_sep) l) ++ "]"
  | VDict d =>
      "{" ++ String.concat item_sep
               (map (fun kv => dquote ++ json_escape (fst kv) ++ dquote ++ key_sep
                               ++ dumps_with item_sep key_sep (snd kv)) d)
      ++ "}"
  end.

Fixpoint repr_double (v : Value) : string :=
  match v with
  | VNone => "None"
  | VBool true => "True"
  | VBool false => "False"
  | VInt n => string_of_Z n
  | VFloat f => float_text f
  | VStr s => "'" ++ s ++ "'"
  | VList l => "[" ++ String.concat ", " (map repr_double l) ++ "]"
  | VDict d =>
      "{" ++ String.concat ", "
               (map (fun kv => "'" ++ fst kv ++ "': " ++ repr_double (snd kv)) d)
      ++ "}"
  end.

(** A parser that knows the lines of [table] and rejects every other
    text the way [json.loads] rejects text that is not JSON. *)
Fixpoint table_loads (table : list (string * Value)) (s : string) : Result Value :=
  match table with
  | [] => Raise (mkExc JSONDecodeError "Expecting value: line 1 column 1 (char 0)")
  | (text, v) :: t => if String.eqb s text then Ok v else table_loads t s
  end.

Definition runtime (table : list (string * Value)) : Runtime :=
  {| json_loads := table_loads table;
     json_dumps := dumps_with ", " ": ";
     repr := repr_double;
     time_time := fun k => (1700000000 + Z.of_nat k)%Z;
     token_hex16 := fun _ => "000102030405060708090a0b0c0d0e0f" |}.

(** Signing modules that always answer. *)
Definition backend_ok : SigningBackend :=
  {| gorgon_get_value := fun _ _ _ timestamp =>
       Ok (VDict [("X-Gorgon", VStr "8404c0a10000"); ("X-Khronos", timestamp)]);
     argus_get_value := fun _ _ _ => Ok (VStr "argus-signature");
     ladon_get_value := fun _ => Ok (VStr "ladon-token") |}.

(** Signing modules whose Argus computation raises. *)
Definition backend_argus_fails : SigningBackend :=
  {| gorgon_get_value := fun _ _ _ timestamp =>
       Ok (VDict [("X-Gorgon", VStr "8404c0a10000"); ("X-Khronos", timestamp)]);
     argus_get_value := fun _ _ _ =>
       Raise (mkExc (OtherException "ValueError") "sign failed");
     ladon_get_value := fun _ => Ok (VStr "ladon-token") |}.

Definition world0 (input : string) : World := mkWorld input [] [] 0 0 [].

End Doubles.

(** * The vocabulary of the properties

    The notions the statements below are written with, and the concrete
    inputs they are run on. *)

Module SubprocessSpec.

Import Subprocess.

(** The line terminator. *)
Definition nl : string := String newline EmptyString.

(** [s] holds no newline: it is the body of one line. *)
Fixpoint no_newline (s : string) : bool :=
  match s with
  | EmptyString => true
  | String c s' => negb (Ascii.eqb c newline) && no_newline s'
  end.

(** The text of a stream that holds the lines [bodies], each ended by a
    newline. *)
Fixpoint feed (bodies : list string) : string :=
  match bodies with
  | [] => EmptyString
  | b :: t => b ++ nl ++ feed t
  end.

(** The lines of a text, each with its newline; the last one may lack
    it. *)
Fixpoint text_lines (s : string) : list string :=
  match s with
  | EmptyString => []
  | String c s' =>
      if Ascii.eqb c newline then String c EmptyString :: text_lines s'
      else match text_lines s' with
           | [] => [String c EmptyString]
           | l :: ls => String c l :: ls
           end
  end.

(** The line with body [body]. *)
Definition line_of (body : string) : string := body ++ nl.

(** [w'] has the input still to read and the output of [w]. *)
Definition same_io (w w' : World) : Prop :=
  w_stdin w' = w_stdin w /\ w_stdout w' = w_stdout w.

(** [m] neither reads standard input nor prints. *)
Definition keeps_io {A} (m : M A) : Prop := forall w, same_io w (snd (m w)).

(** The world after a line was read, with [rest] left to read. *)
Definition read_to (rest : string) (w : World) : World :=
  mkWorld rest (w_stdout w) (w_log w) (w_clock w) (w_entropy w) (w_calls w).

(** The world after the clock and the token source were read once. *)
Definition ticked (w : World) : World :=
  mkWorld (w_stdin w) (w_stdout w) (w_log w)
    (S (w_clock w)) (S (w_entropy w)) (w_calls w).

(** The four action names [handle_request] knows. *)
Definition known_actions : list string :=
  ["getApiConfig"; "generateDeviceAuth"; "buildAuthenticatedParams";
   "generateHeaders"].

(** [request.get(key)] on a dict *)
Definition field (request : Dict) (key : string) : Value :=
  match dict_get request key with Some v => v | None => VNone end.

(** The keys of the mapping [generate_headers] returns. *)
Definition header_names : list string :=
  ["X-Gorgon"; "X-Khronos"; "X-Argus"; "X-Ladon"].

(** The calls a computation makes to the signing modules. *)
Definition calls_made {A} (m : M A) (w : World) : list Call :=
  skipn (length (w_calls w)) (w_calls (snd (m w))).


(** The cookie material a signing call was given. *)
Definition cookie_seen (call : Call) : option Value :=
  match call with
  | CallArgus _ c _ => Some c
  | CallGorgon _ _ (VDict h) _ => dict_get h "cookie"
  | _ => None
  end.

(** [c] is a cookie whose name and value are [fst nv] and [snd nv]. *)
Definition cookie_named (c : Value) (nv : Value * Value) : Prop :=
  exists fields,
    c = VDict fields
    /\ dict_get fields "name" = Some (fst nv)
    /\ dict_get fields "value" = Some (snd nv).

(** The message of a response written by an [except] clause of [run]. *)
Definition failure_text (e : PyExc) : string :=
  if is_JSONDecodeError e then "Invalid JSON: " ++ exc_str e else exc_str e.

(** The world after [build_authenticated_params] logged the failure [e]. *)
Definition logged_failure (e : PyExc) (w : World) : World :=
  snd (logger ERROR ("buildAuthenticatedParams failed: " ++ exc_str e) w).

Section Service.

Context {R : Runtime} {B : SigningBackend}.

(** [out] is a response to [line]: the serialized answer of
    [handle_request] to the request parsed from [line], or the error
    response for the exception that parsing or handling raised. *)
Definition answers (line out : string) : Prop :=
  match json_loads (strip line) with
  | Raise e => out = json_dumps (error_response (failure_text e))
  | Ok request =>
      exists w0,
        match fst (handle_request request w0) with
        | Ok response => out = json_dumps response
        | Raise e => out = json_dumps (error_response (failure_text e))
        end
  end.

(** The [except] clauses of [run], applied to [e] in world [w]. *)
Definition handled (e : PyExc) (w : World) : World :=
  if is_JSONDecodeError e then
    snd (print (json_dumps (error_response ("Invalid JSON: " ++ exc_str e))) w)
  else
    snd (print (json_dumps (error_response (exc_str e)))
           (snd (logger ERROR ("Request handling error: " ++ exc_str e) w))).

(** Steps 1 and 2 of the assembler: the copy of the base parameters with
    the device identifiers of the session stored in it. *)
Definition assembled (base session : Value) : Result Dict :=
  bindR (dict_unpack base) (fun params => add_device_info session params).

(** The pairs written [name=value] and joined by a semicolon and a
    space. *)
Definition joined (pairs : list (Value * Value)) : string :=
  String.concat "; " (map (fun nv => py_str (fst nv) ++ "=" ++ py_str (snd nv)) pairs).

(** C4 as the specification words it: the error that reaches the caller
    is named "buildAuthenticatedParams failed: " followed by the cause. *)
Definition failure_is_named (base session : Value) (w : World) : Prop :=
  forall params c e w2,
    assembled base session = Ok params ->
    session_cookies session = Ok c ->
    generate_headers (VStr (urlencode params)) (VStr c)
      (VStr (token_hex16 (w_entropy w))) (VInt (time_time (w_clock w)))
      (ticked w) = (Raise e, w2) ->
    exists e' w',
      build_authenticated_params base session w = (Raise e', w')
      /\ exc_str e' = "buildAuthenticatedParams failed: " ++ exc_str e.

End Service.

(** *** Concrete inputs *)

(** [json.dumps] of the doubles, with its default separators. *)
Definition dumps : Value -> string := Doubles.dumps_with ", " ": ".

(** A parser double that reads back the requests of [requests]. *)
Definition runtime_for (requests : list Value) : Runtime :=
  Doubles.runtime (map (fun r => (dumps r, r)) requests).

Definition config_fields : Dict :=
  [("action", VStr "getApiConfig"); ("requestId", VInt 1)].

Definition bogus_fields : Dict :=
  [("action", VStr "bogus"); ("requestId", VInt 7)].

Definition headers_fields : Dict :=
  [("action", VStr "generateHeaders"); ("requestId", VInt 7);
   ("params", VStr "aid=1233"); ("cookies", VStr "")].

Definition session_with_ids : Dict :=
  [("tokens", VDict [("device_id", VStr "7001"); ("install_id", VStr "7002")]);
   ("cookies", VList [VDict [("name", VStr "a"); ("value", VStr "1")];
                      VDict [("name", VStr "b"); ("value", VStr "2")]])].

Definition base_with_header : Dict :=
  [("aid", VStr "1233"); ("X-Gorgon", VStr "stale")].

Definition assembled_params : Dict :=
  [("aid", VStr "1233"); ("X-Gorgon", VStr "stale");
   ("device_id", VStr "7001"); ("iid", VStr "7002")].

Definition computed_headers : Dict :=
  [("X-Gorgon", VStr "8404c0a10000"); ("X-Khronos", VStr "1700000000");
   ("X-Argus", VStr "argus-signature"); ("X-Ladon", VStr "ladon-token")].

Definition sign_failed : PyExc := mkExc (OtherException "ValueError") "sign failed".

Definition not_json : PyExc :=
  mkExc JSONDecodeError "Expecting value: line 1 column 1 (char 0)".

Definition three_lines : list string :=
  ["not json"; dumps (VDict config_fields); dumps (VDict bogus_fields)].

Definition three_lines_runtime : Runtime :=
  runtime_for [VDict config_fields; VDict bogus_fields].

Definition after_failed_signing : World :=
  snd (@generate_headers (runtime_for []) Doubles.backend_argus_fails
         (VStr (@urlencode (runtime_for []) assembled_params)) (VStr "a=1; b=2")
         (VStr (@token_hex16 (runtime_for []) (w_entropy (Doubles.world0 ""))))
         (VInt (@time_time (runtime_for []) (w_clock (Doubles.world0 ""))))
         (ticked (Doubles.world0 ""))).

Definition bad_then_config : string :=
  "not json" ++ nl ++ dumps (VDict config_fields) ++ nl.

Definition headers_line : string := dumps (VDict headers_fields).

Definition after_failed_request : World :=
  snd (@handle_request (runtime_for [VDict headers_fields])
         Doubles.backend_argus_fails (VDict headers_fields)
         (read_to "" (Doubles.world0 (headers_line ++ nl)))).

End SubprocessSpec.

Module RestWrapperSpec.

Import RestWrapper.

(** [request.stub or ""] *)
Definition stub_or_empty (request : HeaderRequest) : string :=
  match stub request with Some s => s | None => "" end.

Section Endpoint.

Context {R : Runtime} {G : Generators}.

(** The timestamp the endpoint works with: the request's when it has a
    non-zero one, the clock's otherwise. *)
Definition resolved_timestamp (request : HeaderRequest) (w : World) : Z :=
  match timestamp request with
  | Some t => if Z.eqb t 0 then time_time (w_clock w) else t
  | None => time_time (w_clock w)
  end.

(** [XGorgon()], [XArgus()] and [XLadon()] in turn: the first exception
    among them, if any. *)
Definition construction : Result unit :=
  bindR XGorgon_new (fun _ => bindR XArgus_new (fun _ => XLadon_new)).

(** X-Gorgon and X-Khronos as read from what [calculate] returned. *)
Definition gorgon_pair (result : Value) (ts : Z) : Value * Value :=
  match result with
  | VDict d =>
      (match dict_get d "X-Gorgon" with
       | Some g => g
       | None => VStr gorgon_fallback
       end,
       match dict_get d "X-Khronos" with
       | Some k => k
       | None => VStr (string_of_Z ts)
       end)
  | _ => (VStr (py_str result), VStr (string_of_Z ts))
  end.

(** [value], or the placeholder when [value] is empty, null or zero. *)
Definition or_placeholder (value : Value) (placeholder : string) : Value :=
  if truthy value then value else VStr placeholder.

(** The header returned for a signing computation that ended as
    [computed]: what it returned, or the placeholder when it raised. *)
Definition masked (computed : Result Value) (placeholder : string) : Value :=
  match computed with
  | Ok value => or_placeholder value placeholder
  | Raise _ => VStr placeholder
  end.

(** X-Gorgon and X-Khronos for a Gorgon computation that ended as
    [computed]: read from what it returned, or the fallback value and
    the timestamp when it raised. *)
Definition gorgon_masked (computed : Result Value) (ts : Z) : Value * Value :=
  match computed with
  | Ok result => gorgon_pair result ts
  | Raise _ => (VStr gorgon_fallback, VStr (string_of_Z ts))
  end.

(** C9 as the specification words it: whatever the input, the request
    does not fail as a whole; the endpoint returns the four header
    keys, with the placeholder for each computation that failed. *)
Definition failures_never_fail_the_request
  (request : HeaderRequest) (w : World) : Prop :=
  exists headers ts w',
    generate_headers request w
    = (Ok (VDict [("success", VBool true);
                  ("headers", VDict headers);
                  ("timestamp", VInt ts)]), w')
    /\ keys headers = ["X-Gorgon"; "X-Khronos"; "X-Argus"; "X-Ladon"]
    /\ (forall e,
          gorgon_calculate (params request) (gorgon_headers request) = Raise e ->
          dict_get headers "X-Gorgon" = Some (VStr gorgon_fallback))
    /\ (forall e,
          argus_get_sign (params request) (stub_or_empty request) ts = Raise e ->
          dict_get headers "X-Argus" = Some (VStr argus_placeholder))
    /\ (forall e,
          ladon_encrypt ts = Raise e ->
          dict_get headers "X-Ladon" = Some (VStr ladon_placeholder)).

End Endpoint.

(** Generators where [XGorgon()] raises. *)
Definition gorgon_unavailable : Generators :=
  {| XGorgon_new := Raise (mkExc (OtherException "OSError")
                             "libgorgon.so: cannot open shared object file");
     XArgus_new := Ok tt;
     XLadon_new := Ok tt;
     gorgon_calculate := fun _ _ =>
       Ok (VDict [("X-Gorgon", VStr "8404c0a10000"); ("X-Khronos", VStr "1700000123")]);
     argus_get_sign := fun _ _ _ => Ok (VStr "argus-signature");
     ladon_encrypt := fun _ => Ok (VStr "ladon-token") |}.

(** Generators whose Argus and Ladon computations raise. *)
Definition two_fail : Generators :=
  {| XGorgon_new := Ok tt;
     XArgus_new := Ok tt;
     XLadon_new := Ok tt;
     gorgon_calculate := fun _ _ =>
       Ok (VDict [("X-Gorgon", VStr "8404c0a10000"); ("X-Khronos", VStr "1700000123")]);
     argus_get_sign := fun _ _ _ =>
       Raise (mkExc (OtherException "ValueError") "sign failed");
     ladon_encrypt := fun _ =>
       Raise (mkExc (OtherException "RuntimeError") "no key") |}.

Definition sample_request : HeaderRequest :=
  mkHeaderRequest "aid=1233" "sid=abc" None (Some 1700000123%Z) None None.

End RestWrapperSpec.

Module ComposeHashSpec.

Import ComposeHash.

Local Unset Elimination Schemes.

(** Python keeps one binding per key in a dict, at every depth. *)
Inductive py_value : Value -> Prop :=
| py_none : py_value VNone
| py_bool b : py_value (VBool b)
| py_int n : py_value (VInt n)
| py_float f : py_value (VFloat f)
| py_string s : py_value (VStr s)
| py_list l : Forall py_value l -> py_value (VList l)
| py_dict d :
    NoDup (keys d) -> Forall (fun kv => py_value (snd kv)) d ->
    py_value (VDict d).

(** Two lookups agree: both miss, or both hit on related values. *)
Inductive option_rel {A} (R : A -> A -> Prop) : option A -> option A -> Prop :=
| both_none : option_rel R None None
| both_some a b : R a b -> option_rel R (Some a) (Some b).

(** Equality as maps: the same scalars, lists equal item by item, dicts
    that bind the same keys to values equal as maps, whatever the order
    the keys were inserted in. *)
Inductive same_map : Value -> Value -> Prop :=
| same_none : same_map VNone VNone
| same_bool b : same_map (VBool b) (VBool b)
| same_int n : same_map (VInt n) (VInt n)
| same_float f : same_map (VFloat f) (VFloat f)
| same_str s : same_map (VStr s) (VStr s)
| same_list l1 l2 :
    Forall2 same_map l1 l2 -> same_map (VList l1) (VList l2)
| same_dict d1 d2 :
    (forall k, option_rel same_map (dict_get d1 k) (dict_get d2 k)) ->
    same_map (VDict d1) (VDict d2).

Local Set Elimination Schemes.

(** The key of [y] comes after [k]. *)
Definition above (k : string) (y : string * Value) : Prop :=
  String.ltb k (fst y) = true.

(** The keys of the items increase strictly along the list. *)
Inductive increasing : Dict -> Prop :=
| inc_nil : increasing []
| inc_cons x l : Forall (above (fst x)) l -> increasing l -> increasing (x :: l).

(** A stand-in for the two library calls: the compact JSON writer of the
    doubles, and a digest that is the text itself. *)
Definition hash_double : HashRuntime :=
  {| json_dumps_compact := Doubles.dumps_with "," ":";
     sha256_hexdigest := fun s => s |}.

Definition manifest_a : Dict :=
  [("runner", VStr "docker-compose");
   ("_audit_metadata", VDict [("ports", VList [VDict [("target", VInt 8100);
                                                      ("published", VInt 80)]]);
                              ("context", VNone)])].

Definition manifest_b : Dict :=
  [("_audit_metadata", VDict [("context", VNone);
                              ("ports", VList [VDict [("published", VInt 80);
                                                      ("target", VInt 8100)]])]);
   ("runner", VStr "docker-compose")].

End ComposeHashSpec.

Module CanonicalSpec.

Import ComposeHash.

(** No item of the list is followed by an item with a smaller key. *)
Inductive keys_ordered : Dict -> Prop :=
| ordered_nil : keys_ordered []
| ordered_cons x l :
    Forall (fun y => String.ltb (fst y) (fst x) = false) l ->
    keys_ordered l -> keys_ordered (x :: l).

Local Unset Elimination Schemes.

(** Every dict of the value, at every depth, has its keys in order. *)
Inductive canonical : Value -> Prop :=
| canonical_none : canonical VNone
| canonical_bool b : canonical (VBool b)
| canonical_int n : canonical (VInt n)
| canonical_float f : canonical (VFloat f)
| canonical_str s : canonical (VStr s)
| canonical_list l : Forall canonical l -> canonical (VList l)
| canonical_dict d :
    keys_ordered d -> Forall (fun kv => canonical (snd kv)) d ->
    canonical (VDict d).

(** [v'] is [v] with the items of its dicts put in another order:
    a scalar is itself, a list has its items in place, each reordered
    inside, and a dict holds the same items, each value reordered
    inside, in some order. *)
Inductive reordered : Value -> Value -> Prop :=
| reordered_none : reordered VNone VNone
| reordered_bool b : reordered (VBool b) (VBool b)
| reordered_int n : reordered (VInt n) (VInt n)
| reordered_float f : reordered (VFloat f) (VFloat f)
| reordered_str s : reordered (VStr s) (VStr s)
| reordered_list l l' :
    Forall2 reordered l l' -> reordered (VList l) (VList l')
| reordered_dict d p d' :
    Permutation d p ->
    Forall2 (fun kv kv' => fst kv = fst kv' /\ reordered (snd kv) (snd kv')) p d' ->
    reordered (VDict d) (VDict d').

Local Set Elimination Schemes.

(** The value holds no NaN and no infinity, at any depth. *)
Fixpoint special_free (v : Value) : bool :=
  match v with
  | VFloat S754_nan => false
  | VFloat (S754_infinity _) => false
  | VList l => forallb special_free l
  | VDict d => forallb (fun kv => special_free (snd kv)) d
  | _ => true
  end.

Local Unset Elimination Schemes.

(** [v'] is [v] with [None] in the place of each NaN and each infinity:
    every other scalar is itself, and lists and dicts keep their items
    and keys where they are. *)
Inductive nulled : Value -> Value -> Prop :=
| nulled_nan : nulled (VFloat S754_nan) VNone
| nulled_infinity sign : nulled (VFloat (S754_infinity sign)) VNone
| nulled_float f : special_free (VFloat f) = true -> nulled (VFloat f) (VFloat f)
| nulled_none : nulled VNone VNone
| nulled_bool b : nulled (VBool b) (VBool b)
| nulled_int n : nulled (VInt n) (VInt n)
| nulled_str s : nulled (VStr s) (VStr s)
| nulled_list l l' : Forall2 nulled l l' -> nulled (VList l) (VList l')
| nulled_dict d d' :
    Forall2 (fun kv kv' => fst kv = fst kv' /\ nulled (snd kv) (snd kv')) d d' ->
    nulled (VDict d) (VDict d').

Local Set Elimination Schemes.

(** A manifest with its keys out of order and special floats in it. *)
Definition raw_manifest : Dict :=
  [("runner", VStr "docker-compose");
   ("limits", VDict [("memory", VFloat (S754_infinity false));
                     ("cpu", VFloat S754_nan);
                     ("burst", VFloat (S754_finite false 3 (-1)))]);
   ("allowed_envs", VList [VStr "DOCKER_HOST"; VStr "BROWSER_MANAGER_URL"])].

End CanonicalSpec.

Module SubprocessEdgesSpec.

Import Subprocess SubprocessSpec.

(** [action] is one of the four names [handle_request] knows. *)
Definition is_known (action : Value) : bool :=
  existsb (eq_str action) known_actions.

(** [request.get(key, default)] on a dict *)
Definition field_or (request : Dict) (key : string) (default : Value) : Value :=
  match dict_get request key with Some v => v | None => default end.

(** The three calls of the signing adapter, in the order it makes them. *)
Definition signing_calls (params cookies stub timestamp : Value) : list Call :=
  [CallGorgon params stub
     (if truthy cookies then VDict [("cookie", cookies)] else VDict [])
     timestamp;
   CallArgus params cookies timestamp;
   CallLadon params].

(** The records a computation sends to the log. *)
Definition logged {A} (m : M A) (w : World) : list (LogLevel * string) :=
  skipn (length (w_log w)) (w_log (snd (m w))).

(** Position and exception of the first answer that is an exception. *)
Fixpoint first_raise (answers : list (Result Value)) : option (nat * PyExc) :=
  match answers with
  | [] => None
  | Raise e :: _ => Some (0, e)
  | Ok _ :: t =>
      match first_raise t with
      | Some (n, e) => Some (S n, e)
      | None => None
      end
  end.

(** [action] names one of the two requests that are signed. *)
Definition signs (action : Value) : bool :=
  eq_str action "buildAuthenticatedParams" || eq_str action "generateHeaders".

Definition is_dict (v : Value) : bool :=
  match v with VDict _ => true | _ => false end.

(** The key a cookie lacks: its name or, when it has a name, its
    value. *)
Definition missing_key (c : Value) : option string :=
  match c with
  | VDict fields =>
      if dict_has fields "name" then
        if dict_has fields "value" then None else Some "value"
      else Some "name"
  | _ => None
  end.

(** The key that the first incomplete cookie of the list lacks. *)
Fixpoint first_missing_key (l : list Value) : option string :=
  match l with
  | [] => None
  | c :: t =>
      match missing_key c with
      | Some key => Some key
      | None => first_missing_key t
      end
  end.

(** The keys that the session's tokens add to the parameters:
    [device_id] for a [device_id] token and [iid] for an [install_id]
    token. *)
Definition injected_keys (session : Value) : list string :=
  match session with
  | VDict fields =>
      match dict_get fields "tokens" with
      | Some (VDict tokens) =>
          ((if dict_has tokens "device_id" then ["device_id"] else [])
           ++ (if dict_has tokens "install_id" then ["iid"] else []))%list
      | _ => []
      end
  | _ => []
  end.

Section Service.

Context {R : Runtime} {B : SigningBackend}.

(** What the three signing modules answer to the calls of the adapter. *)
Definition signing_answers (params cookies stub timestamp : Value)
  : list (Result Value) :=
  [gorgon_get_value params stub
     (if truthy cookies then VDict [("cookie", cookies)] else VDict [])
     timestamp;
   argus_get_value params cookies timestamp;
   ladon_get_value params].

End Service.

(** *** Concrete inputs *)

Definition device_auth_fields : Dict :=
  [("requestId", VStr "r-3"); ("action", VStr "generateDeviceAuth");
   ("secUserId", VStr "MS4wLjABAAAA")].

Definition headers_with_null_stub : Dict :=
  [("action", VStr "generateHeaders"); ("requestId", VInt 9);
   ("params", VStr "aid=1233"); ("cookies", VStr "sid=abc");
   ("stub", VNone); ("timestamp", VInt 1650000000)].

Definition session_with_bad_cookie : Dict :=
  [("cookies", VList [VDict [("name", VStr "a"); ("value", VStr "1")];
                      VDict [("name", VStr "b")]])].

(** Signing modules whose Gorgon computation returns a bare string. *)
Definition backend_gorgon_string : SigningBackend :=
  {| gorgon_get_value := fun _ _ _ _ => Ok (VStr "8404c0a10000");
     argus_get_value := fun _ _ _ => Ok (VStr "argus-signature");
     ladon_get_value := fun _ => Ok (VStr "ladon-token") |}.

(** Signing modules whose Gorgon result has no X-Khronos and whose Argus
    result is empty. *)
Definition backend_sparse : SigningBackend :=
  {| gorgon_get_value := fun _ _ _ _ => Ok (VDict [("X-Gorgon", VStr "8404c0a10000")]);
     argus_get_value := fun _ _ _ => Ok (VStr "");
     ladon_get_value := fun _ => Ok VNone |}.

Definition base_with_iid : Dict :=
  [("iid", VStr "old"); ("aid", VStr "1233"); ("X-Ladon", VStr "stale")].

(** Signing modules whose Ladon computation fails on JSON of its own. *)
Definition backend_ladon_decode_error : SigningBackend :=
  {| gorgon_get_value := fun _ _ _ timestamp =>
       Ok (VDict [("X-Gorgon", VStr "8404c0a10000"); ("X-Khronos", timestamp)]);
     argus_get_value := fun _ _ _ => Ok (VStr "argus-signature");
     ladon_get_value := fun _ =>
       Raise (mkExc JSONDecodeError "Expecting value: line 1 column 1 (char 0)") |}.

Definition build_fields : Dict :=
  [("action", VStr "buildAuthenticatedParams"); ("requestId", VInt 11);
   ("baseParams", VDict base_with_header);
   ("sessionData", VDict session_with_ids)].

Definition build_line : string := dumps (VDict build_fields).

Definition list_line : string := dumps (VList [VInt 1; VInt 2]).

(** A runtime whose parser knows no line. *)
Definition quiet : Runtime := runtime_for [].

Definition sparse_headers : Dict :=
  [("X-Gorgon", VStr "8404c0a10000"); ("X-Khronos", VStr "1700000000");
   ("X-Argus", VStr ""); ("X-Ladon", VNone)].

Definition after_sparse_signing : World :=
  snd (@generate_headers quiet backend_sparse (VStr "aid=1233") (VStr "")
         (VStr "00ff") (VInt 1700000000) (Doubles.world0 "")).

Definition not_a_mapping : PyExc :=
  mkExc TypeError ("'" ++ type_name VNone ++ "' object is not a mapping").

Definition ordered_result : Dict :=
  [("iid", VStr "7002"); ("aid", VStr "1233"); ("X-Ladon", VStr "ladon-token");
   ("device_id", VStr "7001"); ("X-Gorgon", VStr "8404c0a10000");
   ("X-Khronos", VStr "1700000000"); ("X-Argus", VStr "argus-signature")].

Definition after_ordered_call : World :=
  snd (@build_authenticated_params quiet Doubles.backend_ok
         (VDict base_with_iid) (VDict session_with_ids) (Doubles.world0 "")).

Definition build_runtime : Runtime := runtime_for [VDict build_fields].

Definition headers_runtime : Runtime := runtime_for [VDict headers_fields].

Definition after_decode_error : World :=
  snd (@handle_request headers_runtime backend_ladon_decode_error
         (VDict headers_fields)
         (read_to "" (Doubles.world0 (headers_line ++ nl)))).

Definition list_runtime : Runtime := runtime_for [VList [VInt 1; VInt 2]].

End SubprocessEdgesSpec.

Module RestEdgesSpec.

Import RestWrapper RestWrapperSpec.

(** The request as the endpoint uses it: an empty stub and a zero
    timestamp count as absent, and the device fields are left out. *)
Definition effective (request : HeaderRequest) : HeaderRequest :=
  mkHeaderRequest (params request) (cookies request)
    (match stub request with
     | Some s => if String.eqb s "" then None else Some s
     | None => None
     end)
    (match timestamp request with
     | Some t => if Z.eqb t 0 then None else Some t
     | None => None
     end)
    None None.

(** The line of [test_modules] for a module whose constructor ended as
    [constructed]. *)
Definition module_report (constructed : Result unit) : Value :=
  match constructed with
  | Ok _ => VStr "✅ Loaded"
  | Raise e => VStr ("❌ Failed: " ++ exc_str e)
  end.

(** The first record the endpoint logs for a request. *)
Definition announcement (request : HeaderRequest) : LogLevel * string :=
  (INFO, "Generating headers for params: "
         ++ str_prefix 50 (params request) ++ "...").

(** *** Concrete inputs *)

(** Generators where [XArgus()] raises. *)
Definition argus_missing : Generators :=
  {| XGorgon_new := Ok tt;
     XArgus_new := Raise (mkExc (OtherException "FileNotFoundError")
                            "libargus.so not found");
     XLadon_new := Ok tt;
     gorgon_calculate := fun _ _ => Ok (VStr "8404c0a10000");
     argus_get_sign := fun _ _ _ => Ok (VStr "argus-signature");
     ladon_encrypt := fun _ => Ok (VStr "ladon-token") |}.

(** Generators that answer with a bare string, an empty string and
    null. *)
Definition quiet_generators : Generators :=
  {| XGorgon_new := Ok tt;
     XArgus_new := Ok tt;
     XLadon_new := Ok tt;
     gorgon_calculate := fun _ _ => Ok (VStr "8404c0a10000");
     argus_get_sign := fun _ _ _ => Ok (VStr "");
     ladon_encrypt := fun _ => Ok VNone |}.

Definition registration_fails : DeviceEndpoints.Encryptor :=
  {| DeviceEndpoints.TTEncrypt_new := Ok tt;
     DeviceEndpoints.tt_register_device := fun _ _ =>
       Raise (mkExc (OtherException "ConnectionError") "log-va.tiktokv.com unreachable") |}.

Definition zero_request : HeaderRequest :=
  mkHeaderRequest "aid=1233" "" (Some "") (Some 0%Z) (Some "7001") (Some "7002").

End RestEdgesSpec.

Module ComposeToolSpec.

Import ComposeHash ComposeTool.

(** The path [main] reads the compose file from. *)
Definition compose_path : string := "../docker-compose-audit.yml".

(** The keys of the primary service that the manifest reads. *)
Definition audited_keys : list string :=
  ["build"; "ports"; "environment"; "volumes"].

(** The entry of a dict under a key; nothing for other values. *)
Definition entry (v : Value) (k : string) : option Value :=
  match v with
  | VDict d => dict_get d k
  | _ => None
  end.

Definition no_services : PyExc :=
  mkExc (OtherException "ValueError") "No services found in docker-compose.yml".

(** The texts a successful run of [main] prints for the hash [h]. *)
Definition report (h : string) : list string :=
  ["=== Generating App Compose Hash ===";
   "App Compose Hash: " ++ h;
   "Hash (first 40 chars): " ++ str_prefix 40 h;
   String newline "=== Files Generated ===";
   "- app-compose.json: Human-readable app compose configuration";
   "- app-compose-deterministic.json: Deterministic JSON used for hashing";
   "- compose-hash.txt: The SHA256 hash"].

(** The three files of a successful run of [main], written over [fs]. *)
Definition outputs (fs : list (string * string)) (pretty canonical h : string)
  : list (string * string) :=
  store_file
    (store_file (store_file fs "app-compose.json" pretty)
       "app-compose-deterministic.json" canonical)
    "compose-hash.txt" h.

(** *** Concrete inputs *)

(** A tool runtime whose compose file parses to [document]; the writer
    is a stand-in that puts the JSON on one line, and every file can be
    opened for writing. *)
Definition tool_double (document : Result Value) : ToolRuntime :=
  {| yaml_safe_load_file := fun path =>
       if String.eqb path compose_path then document
       else Raise (mkExc (OtherException "FileNotFoundError")
                     "No such file or directory");
     json_dump_indent2 := Doubles.dumps_with ", " ": ";
     open_for_writing := fun _ => Ok tt |}.

Definition enclave_service : Dict :=
  [("build", VDict [("context", VStr "."); ("dockerfile", VStr "Dockerfile.enclave")]);
   ("image", VStr "tokscope-enclave:audit");
   ("ports", VList [VStr "3000:3000"]);
   ("environment", VList [VStr "NODE_ENV=production"])].

Definition browser_service : Dict :=
  [("image", VStr "browser-manager:1.0"); ("privileged", VBool false)].

Definition audit_compose : Dict :=
  [("services", VDict [("tokscope-enclave", VDict enclave_service);
                       ("browser-manager", VDict browser_service)]);
   ("networks", VDict [("enclave-net", VNone)])].

(** The same services with other images, another command and more
    privileges. *)
Definition altered_enclave_service : Dict :=
  [("build", VDict [("context", VStr "."); ("dockerfile", VStr "Dockerfile.enclave")]);
   ("image", VStr "unreviewed/enclave:latest");
   ("command", VStr "node unreviewed.js");
   ("ports", VList [VStr "3000:3000"]);
   ("environment", VList [VStr "NODE_ENV=production"])].

Definition altered_browser_service : Dict :=
  [("image", VStr "unreviewed/browser:latest"); ("privileged", VBool true)].

Definition altered_compose : Dict :=
  [("services", VDict [("tokscope-enclave", VDict altered_enclave_service);
                       ("browser-manager", VDict altered_browser_service)]);
   ("networks", VDict [("enclave-net", VNone)])].

(** The same file with the two services listed in the other order. *)
Definition reordered_compose : Dict :=
  [("services", VDict [("browser-manager", VDict browser_service);
                       ("tokscope-enclave", VDict enclave_service)]);
   ("networks", VDict [("enclave-net", VNone)])].

(** A compose file whose service gives [build] in its short form. *)
Definition short_build_compose : Dict :=
  [("services", VDict [("tokscope-enclave", VDict [("build", VStr ".")])])].

Definition empty_compose : Dict := [("version", VStr "3.8"); ("services", VNone)].

Definition disk0 : Disk := mkDisk [("compose-hash.txt", "stale")] [].

(** The manifest named after [primary] with the audit metadata
    [metadata]. *)
Definition manifest_with (primary : string) (metadata : Dict) : Value :=
  VDict
    [("runner", VStr "docker-compose");
     ("manifest_version", VInt 1);
     ("name", VStr ("xordi-audit-" ++ primary));
     ("docker_compose_file", VStr compose_path);
     ("public_logs", VBool false);
     ("public_sysinfo", VBool false);
     ("public_tcbinfo", VBool true);
     ("kms_enabled", VBool true);
     ("gateway_enabled", VBool true);
     ("key_provider", VStr "kms");
     ("key_provider_id", VStr "kms-base-prod7");
     ("no_instance_id", VBool false);
     ("secure_time", VBool true);
     ("allowed_envs", VList [VStr "BROWSER_MANAGER_URL"; VStr "DOCKER_HOST"]);
     ("_audit_metadata", VDict metadata)].

(** The manifest of [audit_compose]. *)
Definition audit_manifest : Value :=
  manifest_with "tokscope-enclave"
    [("dockerfile", VStr "Dockerfile.enclave");
     ("context", VStr ".");
     ("ports", VList [VStr "3000:3000"]);
     ("environment", VList [VStr "NODE_ENV=production"]);
     ("volumes", VList []);
     ("networks", VList [VStr "enclave-net"]);
     ("services_count", VInt 2);
     ("service_names", VList [VStr "tokscope-enclave"; VStr "browser-manager"])].

(** The manifest of [reordered_compose]. *)
Definition reordered_manifest : Value :=
  manifest_with "browser-manager"
    [("dockerfile", VNone);
     ("context", VNone);
     ("ports", VList []);
     ("environment", VList []);
     ("volumes", VList []);
     ("networks", VList [VStr "enclave-net"]);
     ("services_count", VInt 2);
     ("service_names", VList [VStr "browser-manager"; VStr "tokscope-enclave"])].

(** [main] run on [audit_compose]. *)
Definition audit_run : Tool string :=
  @main (Doubles.runtime []) ComposeHashSpec.hash_double
    (tool_double (Ok (VDict audit_compose))).

End ComposeToolSpec.

(** * Facts about dicts *)

Module DictFacts.

Lemma dict_get_In (d : Dict) (k : string) (v : Value) :
  dict_get d k = Some v -> In (k, v) d.
Proof.
  induction d as [|[k' v'] t IH]; simpl; [discriminate|].
  destruct (String.eqb k k') eqn:E.
  - apply String.eqb_eq in E. intros [= ->]. subst. now left.
  - intros Hget. right. auto.
Qed.

Lemma In_dict_get (d : Dict) (k : string) (v : Value) :
  NoDup (keys d) -> In (k, v) d -> dict_get d k = Some v.
Proof.
  induction d as [|[k' v'] t IH]; simpl; [contradiction|].
  intros Hnd Hin. inversion Hnd as [|? ? Hnotin Hnd']; subst.
  destruct Hin as [[= -> ->]|Hin].
  - now rewrite String.eqb_refl.
  - destruct (String.eqb k k') eqn:E; [|auto].
    apply String.eqb_eq in E. subst. exfalso. apply Hnotin.
    unfold keys. change k' with (fst (k', v)). now apply in_map.
Qed.

Lemma dict_get_perm (d1 d2 : Dict) (k : string) :
  NoDup (keys d1) -> Permutation d1 d2 -> dict_get d1 k = dict_get d2 k.
Proof.
  intros Hnd Hperm.
  assert (Hnd2 : NoDup (keys d2)).
  { eapply Permutation_NoDup; [|exact Hnd]. unfold keys. now apply Permutation_map. }
  destruct (dict_get d1 k) as [v|] eqn:E1.
  - symmetry. apply In_dict_get; [assumption|].
    eapply Permutation_in; [exact Hperm|]. now apply dict_get_In.
  - destruct (dict_get d2 k) as [v|] eqn:E2; [|reflexivity].
    apply dict_get_In in E2. apply Permutation_sym in Hperm.
    eapply Permutation_in in E2; [|exact Hperm].
    apply In_dict_get in E2; [congruence|assumption].
Qed.

Lemma dict_get_absent (d : Dict) (k : string) :
  ~ In k (keys d) -> dict_get d k = None.
Proof.
  intros Hnotin. destruct (dict_get d k) as [v|] eqn:E; [|reflexivity].
  exfalso. apply Hnotin. apply dict_get_In in E.
  unfold keys. change k with (fst (k, v)). now apply in_map.
Qed.

Lemma dict_get_set_same (d : Dict) (k : string) (v : Value) :
  dict_get (dict_set d k v) k = Some v.
Proof.
  induction d as [|[k' v'] t IH]; simpl.
  - now rewrite String.eqb_refl.
  - destruct (String.eqb k k') eqn:E; simpl; rewrite E; [reflexivity|exact IH].
Qed.

Lemma dict_get_set_other (d : Dict) (k k' : string) (v : Value) :
  k' <> k -> dict_get (dict_set d k v) k' = dict_get d k'.
Proof.
  intros Hne. induction d as [|[k0 v0] t IH]; simpl.
  - apply String.eqb_neq in Hne. now rewrite Hne.
  - destruct (String.eqb k k0) eqn:E; simpl.
    + apply String.eqb_eq in E. subst k0.
      apply String.eqb_neq in Hne. now rewrite Hne.
    + now rewrite IH.
Qed.

Lemma dict_get_update_absent (h d : Dict) (k : string) :
  dict_get h k = None -> dict_get (dict_update d h) k = dict_get d k.
Proof.
  unfold dict_update. revert d.
  induction h as [|[k1 v1] t IH]; simpl; intros d Hget; [reflexivity|].
  destruct (String.eqb k k1) eqn:E; [discriminate|].
  rewrite (IH _ Hget). apply dict_get_set_other.
  now apply String.eqb_neq.
Qed.

Lemma dict_get_update_present (h d : Dict) (k : string) (v : Value) :
  NoDup (keys h) -> dict_get h k = Some v ->
  dict_get (dict_update d h) k = Some v.
Proof.
  unfold dict_update. revert d.
  induction h as [|[k1 v1] t IH]; simpl; intros d Hnd Hget; [discriminate|].
  inversion Hnd as [|? ? Hfresh Hnd']; subst.
  destruct (String.eqb k k1) eqn:E.
  - apply String.eqb_eq in E. subst k1. injection Hget as ->.
    change (dict_get (dict_update (dict_set d k v) t) k = Some v).
    rewrite dict_get_update_absent by now apply dict_get_absent.
    apply dict_get_set_same.
  - now apply IH.
Qed.

End DictFacts.

(** * Properties of [security_service_subprocess.py] *)

Module SubprocessProofs.

Import Subprocess SubprocessSpec DictFacts.

(** ** Lines of input *)

Lemma readline_line (body rest : string) :
  no_newline body = true ->
  readline (body ++ nl ++ rest) = (body ++ nl, rest).
Proof.
  change (nl ++ rest) with (String newline rest).
  induction body as [|c b IH]; simpl; intros Hb.
  - reflexivity.
  - apply andb_true_iff in Hb. destruct Hb as [Hc Hb].
    apply negb_true_iff in Hc. rewrite Hc, (IH Hb). reflexivity.
Qed.

Lemma line_not_empty (body : string) : String.eqb (body ++ nl) "" = false.
Proof. destruct body; reflexivity. Qed.

Lemma text_lines_feed (bodies : list string) :
  Forall (fun b => no_newline b = true) bodies ->
  text_lines (feed bodies) = map line_of bodies.
Proof.
  induction 1 as [|b t Hb _ IH]; [reflexivity|].
  simpl feed. change (nl ++ feed t) with (String newline (feed t)).
  simpl map. rewrite <- IH. clear IH. unfold line_of.
  induction b as [|c b IHb]; simpl.
  - reflexivity.
  - simpl in Hb. apply andb_true_iff in Hb. destruct Hb as [Hc Hb].
    apply negb_true_iff in Hc. rewrite Hc, (IHb Hb).
    destruct b; reflexivity.
Qed.

Lemma text_lines_nil (s : string) : text_lines s = [] -> s = "".
Proof.
  destruct s as [|c s']; [reflexivity|]. simpl.
  destruct (Ascii.eqb c newline); [discriminate|].
  destruct (text_lines s'); discriminate.
Qed.

(** [readline] returns the first line of the text and leaves the text of
    the other lines. *)
Lemma text_lines_readline (s : string) :
  forall l ls,
    text_lines s = l :: ls ->
    String.eqb l "" = false
    /\ exists rest, readline s = (l, rest) /\ text_lines rest = ls.
Proof.
  induction s as [|c s' IH]; intros l ls; simpl; [discriminate|].
  destruct (Ascii.eqb c newline) eqn:Ec.
  - intros [= <- <-]. split; [reflexivity|]. now exists s'.
  - destruct (text_lines s') as [|l' ls'] eqn:El.
    + intros [= <- <-]. split; [reflexivity|].
      apply text_lines_nil in El. subst s'. now exists "".
    + intros [= <- <-]. split; [reflexivity|].
      destruct (IH l' ls' eq_refl) as [_ (rest & Hr & Hls)].
      rewrite Hr. now exists rest.
Qed.

Lemma firstn_In {A} (n : nat) (l : list A) (x : A) :
  In x (firstn n l) -> In x l.
Proof.
  revert l. induction n as [|n IH]; intros [|y t]; simpl; try tauto.
  intros [->|Hin]; auto.
Qed.

(** ** What the handlers leave alone

    Handling a request neither reads the input stream nor prints. *)

Lemma keeps_io_ret {A} (a : A) : keeps_io (ret a).
Proof. intros w. split; reflexivity. Qed.

Lemma keeps_io_raise {A} (e : PyExc) : keeps_io (@raise A e).
Proof. intros w. split; reflexivity. Qed.

Lemma keeps_io_lift {A} (r : Result A) : keeps_io (lift r).
Proof. intros w. split; reflexivity. Qed.

Lemma keeps_io_logger (lvl : LogLevel) (msg : string) : keeps_io (logger lvl msg).
Proof. intros w. split; reflexivity. Qed.

Lemma keeps_io_bind {A B} (m : M A) (k : A -> M B) :
  keeps_io m -> (forall a, keeps_io (k a)) -> keeps_io (bind m k).
Proof.
  intros Hm Hk w. unfold bind. specialize (Hm w).
  destruct (m w) as [[a|e] w1]; simpl in *; [|assumption].
  destruct (Hk a w1) as [H1 H2]. destruct Hm as [H3 H4].
  split; congruence.
Qed.

Lemma keeps_io_try {A} (m : M A) (h : PyExc -> M A) :
  keeps_io m -> (forall e, keeps_io (h e)) -> keeps_io (try_except m h).
Proof.
  intros Hm Hh w. unfold try_except. specialize (Hm w).
  destruct (m w) as [[a|e] w1]; simpl in *; [assumption|].
  destruct (Hh e w1) as [H1 H2]. destruct Hm as [H3 H4].
  split; congruence.
Qed.

Section Loop.

Context {R : Runtime} {B : SigningBackend}.

Lemma keeps_io_now : keeps_io now.
Proof. intros w. split; reflexivity. Qed.

Lemma keeps_io_token_hex : keeps_io token_hex.
Proof. intros w. split; reflexivity. Qed.

Lemma keeps_io_call_gorgon (p s h t : Value) : keeps_io (call_gorgon p s h t).
Proof. intros w. split; reflexivity. Qed.

Lemma keeps_io_call_argus (p c t : Value) : keeps_io (call_argus p c t).
Proof. intros w. split; reflexivity. Qed.

Lemma keeps_io_call_ladon (p : Value) : keeps_io (call_ladon p).
Proof. intros w. split; reflexivity. Qed.

Ltac keeps_io_step :=
  first
    [ apply keeps_io_ret | apply keeps_io_raise | apply keeps_io_lift
    | apply keeps_io_logger | apply keeps_io_now | apply keeps_io_token_hex
    | apply keeps_io_call_gorgon | apply keeps_io_call_argus
    | apply keeps_io_call_ladon
    | apply keeps_io_bind; [|intro]
    | apply keeps_io_try; [|intro]
    | match goal with
      | |- keeps_io (if ?c then _ else _) => destruct c
      end ].

Lemma keeps_io_generate_headers (p c s t : Value) :
  keeps_io (generate_headers p c s t).
Proof. unfold generate_headers. repeat keeps_io_step. Qed.

Lemma keeps_io_build_authenticated_params (base session : Value) :
  keeps_io (build_authenticated_params base session).
Proof.
  unfold build_authenticated_params.
  repeat first [apply keeps_io_generate_headers | keeps_io_step].
Qed.

Lemma keeps_io_handle_request (request : Value) :
  keeps_io (handle_request request).
Proof.
  unfold handle_request.
  repeat first [ apply keeps_io_generate_headers
               | apply keeps_io_build_authenticated_params
               | keeps_io_step ].
Qed.

(** ** One turn of the loop *)

Lemma handled_io (e : PyExc) (w : World) :
  w_stdin (handled e w) = w_stdin w
  /\ w_stdout (handled e w)
     = (w_stdout w ++ [json_dumps (error_response (failure_text e))])%list.
Proof.
  unfold handled, failure_text. destruct (is_JSONDecodeError e); split; reflexivity.
Qed.

(** A turn that reads a line: what [run_iteration] does with it. *)
Lemma run_iteration_read (line rest : string) (w : World) :
  readline (w_stdin w) = (line, rest) ->
  String.eqb line "" = false ->
  run_iteration w =
  match json_loads (strip line) with
  | Raise e => (Ok Continue, handled e (read_to rest w))
  | Ok request =>
      match handle_request request (read_to rest w) with
      | (Ok response, w1) => (Ok Continue, snd (print (json_dumps response) w1))
      | (Raise e, w1) => (Ok Continue, handled e w1)
      end
  end.
Proof.
  intros Hread Hline. unfold run_iteration, try_except, bind at 1.
  unfold stdin_readline. rewrite Hread. fold (read_to rest w). rewrite Hline.
  unfold bind at 1, lift.
  destruct (json_loads (strip line)) as [request|e].
  - unfold bind at 1.
    destruct (handle_request request (read_to rest w)) as [[response|e] w1].
    + reflexivity.
    + unfold handled. destruct (is_JSONDecodeError e); reflexivity.
  - unfold handled. destruct (is_JSONDecodeError e); reflexivity.
Qed.

Lemma run_iteration_unfold (body rest : string) (w : World) :
  no_newline body = true -> w_stdin w = body ++ nl ++ rest ->
  run_iteration w =
  match json_loads (strip (body ++ nl)) with
  | Raise e => (Ok Continue, handled e (read_to rest w))
  | Ok request =>
      match handle_request request (read_to rest w) with
      | (Ok response, w1) => (Ok Continue, snd (print (json_dumps response) w1))
      | (Raise e, w1) => (Ok Continue, handled e w1)
      end
  end.
Proof.
  intros Hb Hin. apply run_iteration_read; [|apply line_not_empty].
  rewrite Hin. now apply readline_line.
Qed.

Lemma run_iteration_line (line rest : string) (w : World) :
  readline (w_stdin w) = (line, rest) ->
  String.eqb line "" = false ->
  exists out w',
    run_iteration w = (Ok Continue, w')
    /\ w_stdin w' = rest
    /\ w_stdout w' = (w_stdout w ++ [out])%list
    /\ answers line out.
Proof.
  intros Hread Hline. rewrite (run_iteration_read _ _ _ Hread Hline).
  unfold answers.
  destruct (json_loads (strip line)) as [request|e].
  - pose proof (keeps_io_handle_request request (read_to rest w)) as [Hi Ho].
    destruct (handle_request request (read_to rest w)) as [[response|e] w1] eqn:E;
      simpl in Hi, Ho.
    + exists (json_dumps response), (snd (print (json_dumps response) w1)).
      repeat split; simpl; try congruence.
      exists (read_to rest w). now rewrite E.
    + exists (json_dumps (error_response (failure_text e))), (handled e w1).
      destruct (handled_io e w1) as [H1 H2].
      repeat split; try congruence.
      exists (read_to rest w). now rewrite E.
  - exists (json_dumps (error_response (failure_text e))), (handled e (read_to rest w)).
    destruct (handled_io e (read_to rest w)) as [H1 H2].
    repeat split; simpl in *; congruence.
Qed.

Lemma run_iteration_eof (w : World) :
  w_stdin w = "" -> run_iteration w = (Ok Break, w).
Proof.
  intros Hin. unfold run_iteration, try_except, bind, stdin_readline.
  rewrite Hin. simpl. destruct w; simpl in *; subst; reflexivity.
Qed.

(** ** The loop over a stream of lines *)

Lemma run_loop_lines (lines : list string) :
  forall (turns : nat) (w : World),
    text_lines (w_stdin w) = lines ->
    (turns <= length lines ->
     exists w' outs,
       run_loop turns w = (Looping, w')
       /\ text_lines (w_stdin w') = skipn turns lines
       /\ w_stdout w' = (w_stdout w ++ outs)%list
       /\ Forall2 answers (firstn turns lines) outs)
    /\ (length lines < turns ->
        exists w' outs,
          run_loop turns w = (Exited, w')
          /\ w_stdin w' = ""
          /\ w_stdout w' = (w_stdout w ++ outs)%list
          /\ Forall2 answers lines outs).
Proof.
  induction lines as [|l ls IH]; intros turns w Hlines.
  - pose proof (text_lines_nil _ Hlines) as Hin.
    split; intros Hturns.
    + assert (turns = 0) by (simpl in Hturns; lia). subst turns.
      exists w, []. simpl. rewrite app_nil_r. repeat split; auto.
    + destruct turns as [|n]; [simpl in Hturns; lia|].
      exists w, []. simpl. rewrite (run_iteration_eof w Hin), app_nil_r.
      repeat split; auto.
  - destruct turns as [|n].
    + split; intros Hturns; [|lia].
      exists w, []. simpl. rewrite app_nil_r. repeat split; auto.
    + destruct (text_lines_readline _ _ _ Hlines) as [Hl (rest & Hread & Hrest)].
      destruct (run_iteration_line l rest w Hread Hl)
        as (out & w1 & Hrun & Hin1 & Hout1 & Hans).
      rewrite <- Hin1 in Hrest.
      destruct (IH n w1 Hrest) as [IHle IHgt].
      simpl run_loop. rewrite Hrun.
      split; intros Hturns; simpl in Hturns.
      * destruct IHle as (w' & outs & Hloop & Hin' & Hout' & Hall); [lia|].
        exists w', (out :: outs). simpl.
        rewrite Hout', Hout1, <- app_assoc. repeat split; auto.
      * destruct IHgt as (w' & outs & Hloop & Hin' & Hout' & Hall); [lia|].
        exists w', (out :: outs). simpl.
        rewrite Hout', Hout1, <- app_assoc. repeat split; auto.
Qed.

(** C1. Whatever text the input stream holds, the loop answers each
    line it has read with one response line, in the order of the lines:
    after [turns] turns it has read the first [turns] lines and written
    [turns] responses, the i-th a response to the i-th line, and it is
    still looping; once the lines are used up it leaves the loop through
    [break], with as many responses as there were lines. No turn ends the
    loop with an exception. *)
Theorem one_response_per_line (w : World) :
  (forall turns, turns <= length (text_lines (w_stdin w)) ->
     exists w' outs,
       run turns w = (Looping, w')
       /\ text_lines (w_stdin w') = skipn turns (text_lines (w_stdin w))
       /\ w_stdout w' = (w_stdout w ++ outs)%list
       /\ length outs = turns
       /\ Forall2 answers (firstn turns (text_lines (w_stdin w))) outs)
  /\ (forall turns, length (text_lines (w_stdin w)) < turns ->
        exists w' outs,
          run turns w = (Exited, w')
          /\ w_stdin w' = ""
          /\ w_stdout w' = (w_stdout w ++ outs)%list
          /\ length outs = length (text_lines (w_stdin w))
          /\ Forall2 answers (text_lines (w_stdin w)) outs).
Proof.
  unfold run, logger.
  set (w0 := mkWorld _ _ _ _ _ _).
  assert (Hin0 : text_lines (w_stdin w0) = text_lines (w_stdin w)) by reflexivity.
  split; intros turns Hturns.
  - destruct (run_loop_lines _ turns w0 Hin0) as [Hle _].
    destruct (Hle Hturns) as (w' & outs & Hloop & Hin' & Hout' & Hall).
    exists w', outs. repeat split; auto.
    apply Forall2_length in Hall. rewrite length_firstn in Hall. lia.
  - destruct (run_loop_lines _ turns w0 Hin0) as [_ Hgt].
    destruct (Hgt Hturns) as (w' & outs & Hloop & Hin' & Hout' & Hall).
    exists w', outs. repeat split; auto.
    apply Forall2_length in Hall. auto.
Qed.

(** ** Requests whose handling raises *)

(** C2, as the code has it. When handling a parsed request raises an
    exception (other than a JSON decoding error), the loop prints the
    response made of success false and the exception's message, and goes
    on; that response has no requestId, whatever the request held. *)
Theorem failed_request_answer_has_no_requestId
  (body rest : string) (request : Value) (e : PyExc) (w w1 : World) :
  no_newline body = true ->
  w_stdin w = body ++ nl ++ rest ->
  json_loads (strip (body ++ nl)) = Ok request ->
  handle_request request (read_to rest w) = (Raise e, w1) ->
  is_JSONDecodeError e = false ->
  let reply := [("success", VBool false); ("error", VStr (exc_str e))] in
  dict_get reply "requestId" = None
  /\ exists w',
      run_iteration w = (Ok Continue, w')
      /\ w_stdin w' = rest
      /\ w_stdout w' = (w_stdout w ++ [json_dumps (VDict reply)])%list.
Proof.
  intros Hb Hin Hparse Hraise Hdec reply. split; [reflexivity|].
  rewrite (run_iteration_unfold _ _ _ Hb Hin), Hparse, Hraise.
  pose proof (keeps_io_handle_request request (read_to rest w)) as [Hi Ho].
  rewrite Hraise in Hi, Ho. simpl in Hi, Ho.
  eexists. split; [reflexivity|].
  unfold handled. rewrite Hdec. simpl. rewrite Hi, Ho. split; reflexivity.
Qed.

(** ** Lines that are not JSON *)

(** C3. A line that [json.loads] rejects is answered with success false
    and an error text that carries the parser's message, with no
    requestId; nothing else changes, and the loop goes on with the next
    line. When the next line is a getApiConfig request and the last, the
    run ends with two responses, the second a success. *)
Theorem malformed_line_answered_and_skipped
  (body rest : string) (e : PyExc) (w : World) :
  no_newline body = true ->
  w_stdin w = body ++ nl ++ rest ->
  json_loads (strip (body ++ nl)) = Raise e ->
  is_JSONDecodeError e = true ->
  let reply := [("success", VBool false);
                ("error", VStr ("Invalid JSON: " ++ exc_str e))] in
  let w' := mkWorld rest (w_stdout w ++ [json_dumps (VDict reply)])%list
              (w_log w) (w_clock w) (w_entropy w) (w_calls w) in
  dict_get reply "requestId" = None
  /\ run_iteration w = (Ok Continue, w')
  /\ (forall turns, run_loop (S turns) w = run_loop turns w')
  /\ (forall good request turns,
        no_newline good = true ->
        rest = good ++ nl ->
        json_loads (strip (good ++ nl)) = Ok (VDict request) ->
        field request "action" = VStr "getApiConfig" ->
        3 <= turns ->
        exists w'',
          run turns w = (Exited, w'')
          /\ w_stdout w'' =
             (w_stdout w ++
                [json_dumps (VDict reply);
                 json_dumps (VDict [("success", VBool true);
                                    ("requestId", field request "requestId");
                                    ("config", api_config)])])%list).
Proof.
  intros Hb Hin Hparse Hdec reply w'.
  assert (Hturn : forall w0, w_stdin w0 = body ++ nl ++ rest ->
            run_iteration w0 =
            (Ok Continue,
             mkWorld rest (w_stdout w0 ++ [json_dumps (VDict reply)])%list
               (w_log w0) (w_clock w0) (w_entropy w0) (w_calls w0))).
  { intros w0 Hin0. rewrite (run_iteration_unfold _ _ _ Hb Hin0), Hparse.
    unfold handled. rewrite Hdec. reflexivity. }
  split; [reflexivity|]. split; [exact (Hturn w Hin)|].
  split; [intros turns; simpl; now rewrite (Hturn w Hin)|].
  intros good request turns Hg Hrest Hgood Haction Hturns.
  destruct turns as [|[|[|n]]]; try lia.
  unfold run, logger. set (w0 := mkWorld _ _ _ _ _ _).
  assert (Hin0 : w_stdin w0 = body ++ nl ++ rest) by exact Hin.
  cbn [run_loop]. rewrite (Hturn w0 Hin0).
  set (w1 := mkWorld rest _ _ _ _ _).
  assert (Hin1 : w_stdin w1 = good ++ nl ++ "") by (simpl; rewrite Hrest; reflexivity).
  rewrite (run_iteration_unfold _ _ _ Hg Hin1), Hgood.
  assert (Hreq : handle_request (VDict request) (read_to "" w1) =
                 (Ok (VDict [("success", VBool true);
                             ("requestId", field request "requestId");
                             ("config", api_config)]), read_to "" w1)).
  { unfold handle_request, bind, lift, ret, py_get.
    fold (field request "action"). fold (field request "requestId").
    rewrite Haction. reflexivity. }
  rewrite Hreq.
  rewrite run_iteration_eof by reflexivity.
  eexists. split; [reflexivity|]. simpl. now rewrite <- app_assoc.
Qed.

(** X12. A line that is JSON but not an object fares the same way, through
    the second [except] clause: [request.get] raises [AttributeError], the
    response is success false with that message and no requestId, and
    the loop goes on. *)
Lemma non_object_line_answered (body rest : string) (v : Value) (w : World) :
  no_newline body = true ->
  w_stdin w = body ++ nl ++ rest ->
  json_loads (strip (body ++ nl)) = Ok v ->
  (forall d, v <> VDict d) ->
  run_iteration w
  = (Ok Continue,
     mkWorld rest
       (w_stdout w ++
        [json_dumps
           (VDict [("success", VBool false);
                   ("error", VStr ("'" ++ type_name v
                                   ++ "' object has no attribute 'get'"))])])%list
       (w_log w ++
        [(ERROR, ("Request handling error: '" ++ type_name v
                  ++ "' object has no attribute 'get'")%string)])%list
       (w_clock w) (w_entropy w) (w_calls w)).
Proof.
  intros Hb Hin Hparse Hnot.
  rewrite (run_iteration_unfold _ _ _ Hb Hin), Hparse.
  destruct v; try reflexivity. exfalso. now apply (Hnot d).
Qed.

(** ** The parameter assembler *)

Lemma build_authenticated_params_unfold (base session : Value) (w : World) :
  build_authenticated_params base session w =
  match assembled base session with
  | Raise e => (Raise e, logged_failure e (ticked w))
  | Ok params =>
      match session_cookies session with
      | Raise e => (Raise e, logged_failure e (ticked w))
      | Ok c =>
          match generate_headers (VStr (urlencode params)) (VStr c)
                  (VStr (token_hex16 (w_entropy w)))
                  (VInt (time_time (w_clock w))) (ticked w) with
          | (Ok headers, w2) => (Ok (dict_update params headers), w2)
          | (Raise e, w2) => (Raise e, logged_failure e w2)
          end
      end
  end.
Proof.
  unfold build_authenticated_params, assembled, try_except, bind, now,
    token_hex, lift, bindR, ret, raise, logged_failure. simpl.
  fold (ticked w).
  destruct (dict_unpack base) as [p0|e]; [|reflexivity].
  destruct (add_device_info session p0) as [p|e]; [|reflexivity].
  destruct (session_cookies session) as [c|e]; [|reflexivity].
  destruct (generate_headers _ _ _ _ (ticked w)) as [[h|e] w2]; reflexivity.
Qed.

Lemma generate_headers_keys (p c s t : Value) (w w' : World) (headers : Dict) :
  generate_headers p c s t w = (Ok headers, w') -> keys headers = header_names.
Proof.
  unfold generate_headers, try_except, bind, call_gorgon, call_argus,
    call_ladon, lift, ret, raise, logger.
  destruct (gorgon_get_value _ _ _ _) as [g|e]; [|discriminate].
  destruct (argus_get_value _ _ _) as [a|e]; [|discriminate].
  destruct (ladon_get_value _) as [l|e]; [|discriminate].
  destruct (py_get g "X-Gorgon" _) as [xg|e]; [|discriminate].
  destruct (py_get g "X-Khronos" _) as [xk|e]; [|discriminate].
  intros [= <- _]. reflexivity.
Qed.

Lemma calls_made_app {A} (m : M A) (w : World) (new : list Call) :
  w_calls (snd (m w)) = (w_calls w ++ new)%list -> calls_made m w = new.
Proof.
  intros E. unfold calls_made. rewrite E.
  rewrite skipn_app, skipn_all, Nat.sub_diag. reflexivity.
Qed.

(** The adapter calls Gorgon, then Argus, then Ladon, and stops at the
    first that raises. *)
Lemma generate_headers_calls (p c s t : Value) (w : World) :
  exists n,
    calls_made (generate_headers p c s t) w =
    firstn (S n)
      [CallGorgon p s (if truthy c then VDict [("cookie", c)] else VDict []) t;
       CallArgus p c t;
       CallLadon p].
Proof.
  set (hd := if truthy c then VDict [("cookie", c)] else VDict []).
  assert (E : exists n,
             w_calls (snd (generate_headers p c s t w)) =
             (w_calls w ++ firstn (S n)
                [CallGorgon p s hd t; CallArgus p c t; CallLadon p])%list).
  { unfold generate_headers, try_except, bind, call_gorgon, call_argus,
      call_ladon, lift, ret, raise, logger, record_call. cbv zeta. fold hd.
    destruct (gorgon_get_value p s hd t) as [g|e]; simpl; [|now exists 0].
    destruct (argus_get_value p c t) as [a|e]; simpl; [|exists 1].
    - destruct (ladon_get_value p) as [l|e]; simpl; exists 2.
      + destruct (py_get g "X-Gorgon" (VStr "")) as [xg|e]; simpl;
          [destruct (py_get g "X-Khronos" t) as [xk|e]; simpl|];
          now rewrite <- !app_assoc.
      + now rewrite <- !app_assoc.
    - now rewrite <- !app_assoc. }
  destruct E as [n E]. exists n. now apply calls_made_app.
Qed.

Lemma build_authenticated_params_calls (base session : Value) (w : World) :
  calls_made (build_authenticated_params base session) w = []
  \/ exists params c n,
       assembled base session = Ok params
       /\ session_cookies session = Ok c
       /\ calls_made (build_authenticated_params base session) w =
          firstn (S n)
            [CallGorgon (VStr (urlencode params))
               (VStr (token_hex16 (w_entropy w)))
               (if truthy (VStr c) then VDict [("cookie", VStr c)] else VDict [])
               (VInt (time_time (w_clock w)));
             CallArgus (VStr (urlencode params)) (VStr c)
               (VInt (time_time (w_clock w)));
             CallLadon (VStr (urlencode params))].
Proof.
  unfold calls_made. rewrite build_authenticated_params_unfold.
  destruct (assembled base session) as [params|e];
    [|left; simpl; apply skipn_all].
  destruct (session_cookies session) as [c|e];
    [|left; simpl; apply skipn_all].
  right. exists params, c.
  destruct (generate_headers_calls (VStr (urlencode params)) (VStr c)
              (VStr (token_hex16 (w_entropy w)))
              (VInt (time_time (w_clock w))) (ticked w)) as [n Hn].
  exists n. repeat split. rewrite <- Hn. unfold calls_made.
  destruct (generate_headers _ _ _ _ (ticked w)) as [[h|e] w2]; reflexivity.
Qed.

(** *** Failure of the signing adapter *)

(** C4, as the code has it. When the signing adapter raises while
    [build_authenticated_params] runs, the exception it raised is the
    exception [build_authenticated_params] raises, message unchanged; no
    parameters are returned; the text "buildAuthenticatedParams failed: "
    followed by the cause goes to the error log. *)
Theorem signing_failure_propagates_unchanged
  (base session : Value) (params : Dict) (c : string) (e : PyExc) (w w2 : World) :
  assembled base session = Ok params ->
  session_cookies session = Ok c ->
  generate_headers (VStr (urlencode params)) (VStr c)
    (VStr (token_hex16 (w_entropy w))) (VInt (time_time (w_clock w)))
    (ticked w) = (Raise e, w2) ->
  build_authenticated_params base session w
  = (Raise e,
     mkWorld (w_stdin w2) (w_stdout w2)
       (w_log w2 ++ [(ERROR, ("buildAuthenticatedParams failed: " ++ exc_str e)%string)])%list
       (w_clock w2) (w_entropy w2) (w_calls w2)).
Proof.
  intros Hasm Hc Hgen. rewrite build_authenticated_params_unfold.
  rewrite Hasm, Hc, Hgen. reflexivity.
Qed.

(** *** The cookie string *)

Lemma cookie_pairs (l : list Value) (pairs : list (Value * Value)) :
  Forall2 cookie_named l pairs ->
  map_result cookie_pair l =
  Ok (map (fun nv => py_str (fst nv) ++ "=" ++ py_str (snd nv)) pairs).
Proof.
  induction 1 as [|c nv l' pairs' (fields & -> & Hn & Hv) _ IH];
    [reflexivity|].
  cbn [map_result map]. rewrite IH.
  unfold cookie_pair, bindR, py_getitem. now rewrite Hn, Hv.
Qed.

(** C5. The cookie string of [build_authenticated_params]: for a list of
    name/value cookies the pairs [name=value] joined by "; " in the order
    of the list; for a string the string itself; the empty string when
    the session has no cookies. It is the cookie material every signing
    call of [build_authenticated_params] receives. *)
Theorem cookie_string_derivation (session : Dict) :
  (forall l pairs,
     dict_get session "cookies" = Some (VList l) ->
     Forall2 cookie_named l pairs ->
     session_cookies (VDict session) = Ok (joined pairs))
  /\ (forall s,
        dict_get session "cookies" = Some (VStr s) ->
        session_cookies (VDict session) = Ok s)
  /\ (dict_get session "cookies" = None ->
      session_cookies (VDict session) = Ok "")
  /\ (forall base w c call seen,
        session_cookies (VDict session) = Ok c ->
        In call (calls_made (build_authenticated_params base (VDict session)) w) ->
        cookie_seen call = Some seen ->
        seen = VStr c).
Proof.
  repeat split.
  - intros l pairs Hget Hpairs.
    unfold session_cookies, bindR, py_contains, py_getitem, dict_has.
    rewrite Hget. destruct Hpairs as [|c nv l' pairs' Hc Hrest]; [reflexivity|].
    cbn [truthy]. now rewrite (cookie_pairs _ _ (Forall2_cons _ _ Hc Hrest)).
  - intros s Hget.
    unfold session_cookies, bindR, py_contains, py_getitem, dict_has.
    rewrite Hget. cbn [truthy].
    destruct (String.eqb_spec s ""); subst; reflexivity.
  - intros Hget.
    unfold session_cookies, bindR, py_contains, dict_has.
    now rewrite Hget.
  - intros base w c call seen Hc Hin Hseen.
    destruct (build_authenticated_params_calls base (VDict session) w)
      as [E|(params & c' & n & _ & Hc' & E)]; rewrite E in Hin; [contradiction|].
    assert (c' = c) by congruence. subst c'.
    apply firstn_In in Hin. simpl in Hin.
    destruct Hin as [<-|[<-|[<-|[]]]]; simpl in Hseen.
    + destruct (String.eqb c ""); simpl in Hseen; [discriminate|].
      congruence.
    + congruence.
    + discriminate.
Qed.

(** *** Device identifiers and the signing input *)


(** *** Headers against base parameters *)

(** C7. When the signing adapter computes its headers,
    [build_authenticated_params] returns a mapping in which every
    header is bound to the value the adapter computed, whatever the base
    parameters held under that name; every other key keeps the value of
    the assembled parameters. *)
Theorem headers_take_precedence
  (base session : Value) (params : Dict) (c : string) (headers : Dict)
  (w w2 : World) :
  assembled base session = Ok params ->
  session_cookies session = Ok c ->
  generate_headers (VStr (urlencode params)) (VStr c)
    (VStr (token_hex16 (w_entropy w))) (VInt (time_time (w_clock w)))
    (ticked w) = (Ok headers, w2) ->
  exists result,
    build_authenticated_params base session w = (Ok result, w2)
    /\ keys headers = header_names
    /\ (forall k v, dict_get headers k = Some v -> dict_get result k = Some v)
    /\ (forall k, dict_get headers k = None ->
                  dict_get result k = dict_get params k).
Proof.
  intros Hasm Hc Hgen. rewrite build_authenticated_params_unfold.
  rewrite Hasm, Hc, Hgen.
  pose proof (generate_headers_keys _ _ _ _ _ _ _ Hgen) as Hkeys.
  exists (dict_update params headers). repeat split; try assumption.
  - intros k v Hget. apply dict_get_update_present; [|assumption].
    rewrite Hkeys. unfold header_names.
    repeat constructor; simpl; intuition discriminate.
  - intros k Hget. now apply dict_get_update_absent.
Qed.

(** ** The router *)

Lemma eq_str_other (v : Value) (s : string) : v <> VStr s -> eq_str v s = false.
Proof.
  destruct v; simpl; try reflexivity.
  intros Hne. apply String.eqb_neq. congruence.
Qed.

(** C8. A request whose action is none of the four known ones is answered
    with success false, its own requestId and the error text
    "Unknown action: " followed by the action. *)
Theorem unknown_action_rejected (request : Dict) (w : World) :
  (forall name, In name known_actions -> field request "action" <> VStr name) ->
  handle_request (VDict request) w =
  (Ok (VDict [("success", VBool false);
              ("requestId", field request "requestId");
              ("error", VStr ("Unknown action: " ++ py_str (field request "action")))]),
   w).
Proof.
  intros Hunknown. unfold handle_request, bind, lift, ret, py_get.
  fold (field request "action"). fold (field request "requestId").
  rewrite !eq_str_other by (apply Hunknown; simpl; auto 6).
  reflexivity.
Qed.

End Loop.

(** ** The theorems on concrete runs *)

Lemma three_lines_ok : Forall (fun b => no_newline b = true) three_lines.
Proof. repeat constructor. Qed.

Lemma three_lines_read :
  text_lines (w_stdin (Doubles.world0 (feed three_lines)))
  = map line_of three_lines.
Proof. exact (text_lines_feed three_lines three_lines_ok). Qed.

Lemma three_lines_counted :
  length (text_lines (w_stdin (Doubles.world0 (feed three_lines)))) < 4.
Proof. rewrite three_lines_read. simpl. lia. Qed.

Lemma one_response_per_line_witness :
  exists w' outs,
    @run three_lines_runtime Doubles.backend_ok 4
      (Doubles.world0 (feed three_lines))
    = (Exited, w')
    /\ w_stdin w' = ""
    /\ w_stdout w' = (w_stdout (Doubles.world0 (feed three_lines)) ++ outs)%list
    /\ length outs
       = length (text_lines (w_stdin (Doubles.world0 (feed three_lines))))
    /\ Forall2 (@answers three_lines_runtime Doubles.backend_ok)
         (text_lines (w_stdin (Doubles.world0 (feed three_lines)))) outs.
Proof.
  exact (proj2 (@one_response_per_line three_lines_runtime Doubles.backend_ok
                  (Doubles.world0 (feed three_lines))) 4 three_lines_counted).
Defined.

Lemma headers_line_ok : no_newline headers_line = true.
Proof. vm_compute. reflexivity. Qed.

Lemma headers_line_parsed :
  @json_loads (runtime_for [VDict headers_fields]) (strip (headers_line ++ nl))
  = Ok (VDict headers_fields).
Proof. vm_compute. reflexivity. Qed.

Lemma headers_request_fails :
  @handle_request (runtime_for [VDict headers_fields])
    Doubles.backend_argus_fails (VDict headers_fields)
    (read_to "" (Doubles.world0 (headers_line ++ nl)))
  = (Raise sign_failed, after_failed_request).
Proof. vm_compute. reflexivity. Qed.

Lemma failed_request_answer_has_no_requestId_witness :
  dict_get headers_fields "requestId" = Some (VInt 7)
  /\ dict_get [("success", VBool false); ("error", VStr (exc_str sign_failed))]
       "requestId" = None
  /\ exists w',
      @run_iteration (runtime_for [VDict headers_fields])
        Doubles.backend_argus_fails (Doubles.world0 (headers_line ++ nl))
      = (Ok Continue, w')
      /\ w_stdin w' = ""
      /\ w_stdout w' =
         (w_stdout (Doubles.world0 (headers_line ++ nl)) ++
          [@json_dumps (runtime_for [VDict headers_fields])
             (VDict [("success", VBool false);
                     ("error", VStr (exc_str sign_failed))])])%list.
Proof.
  split; [reflexivity|].
  exact (@failed_request_answer_has_no_requestId
           (runtime_for [VDict headers_fields]) Doubles.backend_argus_fails
           headers_line "" (VDict headers_fields) sign_failed
           (Doubles.world0 (headers_line ++ nl)) after_failed_request
           headers_line_ok eq_refl headers_line_parsed headers_request_fails
           eq_refl).
Defined.

Lemma not_json_rejected :
  @json_loads (runtime_for [VDict config_fields]) (strip ("not json" ++ nl))
  = Raise not_json.
Proof. vm_compute. reflexivity. Qed.

Lemma config_line_parsed :
  @json_loads (runtime_for [VDict config_fields])
    (strip (dumps (VDict config_fields) ++ nl))
  = Ok (VDict config_fields).
Proof. vm_compute. reflexivity. Qed.

Lemma config_line_ok : no_newline (dumps (VDict config_fields)) = true.
Proof. vm_compute. reflexivity. Qed.

Lemma malformed_line_answered_and_skipped_witness :
  exists w'',
    @run (runtime_for [VDict config_fields]) Doubles.backend_ok 3
      (Doubles.world0 bad_then_config)
    = (Exited, w'')
    /\ w_stdout w'' =
       (w_stdout (Doubles.world0 bad_then_config) ++
        [@json_dumps (runtime_for [VDict config_fields])
           (VDict [("success", VBool false);
                   ("error", VStr ("Invalid JSON: " ++ exc_str not_json))]);
         @json_dumps (runtime_for [VDict config_fields])
           (VDict [("success", VBool true);
                   ("requestId", field config_fields "requestId");
                   ("config", api_config)])])%list.
Proof.
  exact (proj2 (proj2 (proj2
           (@malformed_line_answered_and_skipped (runtime_for [VDict config_fields])
              Doubles.backend_ok "not json" (dumps (VDict config_fields) ++ nl)
              not_json (Doubles.world0 bad_then_config)
              eq_refl eq_refl not_json_rejected eq_refl)))
           (dumps (VDict config_fields)) config_fields 3
           config_line_ok eq_refl config_line_parsed eq_refl (le_n 3)).
Defined.

Lemma ids_are_assembled :
  @assembled (runtime_for []) (VDict base_with_header) (VDict session_with_ids)
  = Ok assembled_params.
Proof. vm_compute. reflexivity. Qed.

Lemma two_cookies_joined :
  @session_cookies (runtime_for []) (VDict session_with_ids) = Ok "a=1; b=2".
Proof. vm_compute. reflexivity. Qed.

Lemma signing_fails :
  @generate_headers (runtime_for []) Doubles.backend_argus_fails
    (VStr (@urlencode (runtime_for []) assembled_params)) (VStr "a=1; b=2")
    (VStr (@token_hex16 (runtime_for []) (w_entropy (Doubles.world0 ""))))
    (VInt (@time_time (runtime_for []) (w_clock (Doubles.world0 ""))))
    (ticked (Doubles.world0 ""))
  = (Raise sign_failed, after_failed_signing).
Proof. vm_compute. reflexivity. Qed.

Lemma signing_failure_propagates_unchanged_witness :
  @build_authenticated_params (runtime_for []) Doubles.backend_argus_fails
    (VDict base_with_header) (VDict session_with_ids) (Doubles.world0 "")
  = (Raise sign_failed,
     mkWorld (w_stdin after_failed_signing) (w_stdout after_failed_signing)
       (w_log after_failed_signing
        ++ [(ERROR, ("buildAuthenticatedParams failed: " ++ exc_str sign_failed)%string)])%list
       (w_clock after_failed_signing) (w_entropy after_failed_signing)
       (w_calls after_failed_signing)).
Proof.
  exact (@signing_failure_propagates_unchanged (runtime_for [])
           Doubles.backend_argus_fails
           (VDict base_with_header) (VDict session_with_ids)
           assembled_params "a=1; b=2" sign_failed (Doubles.world0 "")
           after_failed_signing
           ids_are_assembled two_cookies_joined signing_fails).
Defined.

Lemma failed_signing_run :
  fst (@build_authenticated_params (runtime_for []) Doubles.backend_argus_fails
         (VDict base_with_header) (VDict session_with_ids) (Doubles.world0 ""))
  = Raise sign_failed.
Proof. vm_compute. reflexivity. Qed.

(** C4, as worded, fails: the adapter raises "sign failed" and that is
    the message that reaches the caller. *)
Lemma failure_is_not_named :
  ~ @failure_is_named (runtime_for []) Doubles.backend_argus_fails
      (VDict base_with_header) (VDict session_with_ids) (Doubles.world0 "").
Proof.
  intros Hnamed.
  destruct (Hnamed assembled_params "a=1; b=2" sign_failed after_failed_signing
              ids_are_assembled two_cookies_joined signing_fails)
    as (e' & w' & Hrun & Hstr).
  pose proof failed_signing_run as Hfst. rewrite Hrun in Hfst. simpl in Hfst.
  injection Hfst as ->. discriminate Hstr.
Qed.

Lemma two_cookies_named :
  Forall2 cookie_named
    [VDict [("name", VStr "a"); ("value", VStr "1")];
     VDict [("name", VStr "b"); ("value", VStr "2")]]
    [(VStr "a", VStr "1"); (VStr "b", VStr "2")].
Proof.
  repeat constructor; eexists; repeat split; reflexivity.
Qed.

Lemma cookie_string_derivation_witness :
  @session_cookies (runtime_for []) (VDict session_with_ids) = Ok "a=1; b=2"
  /\ @session_cookies (runtime_for []) (VDict [("cookies", VStr "a=1; b=2")])
     = Ok "a=1; b=2"
  /\ @session_cookies (runtime_for []) (VDict []) = Ok "".
Proof.
  split; [|split].
  - exact (proj1 (@cookie_string_derivation (runtime_for []) Doubles.backend_ok
                    session_with_ids)
             _ _ eq_refl two_cookies_named).
  - exact (proj1 (proj2 (@cookie_string_derivation (runtime_for [])
                           Doubles.backend_ok [("cookies", VStr "a=1; b=2")]))
             "a=1; b=2" eq_refl).
  - exact (proj1 (proj2 (proj2 (@cookie_string_derivation (runtime_for [])
                                  Doubles.backend_ok []))) eq_refl).
Defined.


(** The calls of a successful assembly: the three signing modules are
    given the query string that holds the device identifiers, and the
    cookie string of the session. *)
Example signing_inputs :
  calls_made
    (@build_authenticated_params (runtime_for []) Doubles.backend_ok
       (VDict base_with_header) (VDict session_with_ids))
    (Doubles.world0 "")
  = [CallGorgon (VStr "aid=1233&X-Gorgon=stale&device_id=7001&iid=7002")
       (VStr "000102030405060708090a0b0c0d0e0f")
       (VDict [("cookie", VStr "a=1; b=2")]) (VInt 1700000000);
     CallArgus (VStr "aid=1233&X-Gorgon=stale&device_id=7001&iid=7002")
       (VStr "a=1; b=2") (VInt 1700000000);
     CallLadon (VStr "aid=1233&X-Gorgon=stale&device_id=7001&iid=7002")].
Proof. vm_compute. reflexivity. Qed.

Lemma headers_are_computed :
  @generate_headers (runtime_for []) Doubles.backend_ok
    (VStr (@urlencode (runtime_for []) assembled_params)) (VStr "a=1; b=2")
    (VStr (@token_hex16 (runtime_for []) (w_entropy (Doubles.world0 ""))))
    (VInt (@time_time (runtime_for []) (w_clock (Doubles.world0 ""))))
    (ticked (Doubles.world0 ""))
  = (Ok computed_headers,
     snd (@build_authenticated_params (runtime_for []) Doubles.backend_ok
            (VDict base_with_header) (VDict session_with_ids)
            (Doubles.world0 ""))).
Proof. vm_compute. reflexivity. Qed.

Lemma headers_take_precedence_witness :
  dict_get base_with_header "X-Gorgon" = Some (VStr "stale")
  /\ dict_get computed_headers "X-Gorgon" = Some (VStr "8404c0a10000")
  /\ exists result,
      @build_authenticated_params (runtime_for []) Doubles.backend_ok
        (VDict base_with_header) (VDict session_with_ids) (Doubles.world0 "")
      = (Ok result,
         snd (@build_authenticated_params (runtime_for []) Doubles.backend_ok
                (VDict base_with_header) (VDict session_with_ids)
                (Doubles.world0 "")))
      /\ keys computed_headers = header_names
      /\ (forall k v, dict_get computed_headers k = Some v ->
                      dict_get result k = Some v)
      /\ (forall k, dict_get computed_headers k = None ->
                    dict_get result k = dict_get assembled_params k).
Proof.
  split; [reflexivity|]. split; [reflexivity|].
  exact (@headers_take_precedence (runtime_for []) Doubles.backend_ok
           (VDict base_with_header) (VDict session_with_ids)
           assembled_params "a=1; b=2" computed_headers (Doubles.world0 "") _
           ids_are_assembled two_cookies_joined headers_are_computed).
Defined.

Lemma bogus_is_unknown :
  forall name, In name known_actions ->
               @field bogus_fields "action" <> VStr name.
Proof.
  intros name [<-|[<-|[<-|[<-|[]]]]]; discriminate.
Qed.

Lemma unknown_action_rejected_witness :
  @handle_request (runtime_for []) Doubles.backend_ok (VDict bogus_fields)
    (Doubles.world0 "")
  = (Ok (VDict [("success", VBool false);
                ("requestId", VInt 7);
                ("error", VStr "Unknown action: bogus")]),
     Doubles.world0 "").
Proof.
  exact (@unknown_action_rejected (runtime_for []) Doubles.backend_ok
           bogus_fields (Doubles.world0 "") bogus_is_unknown).
Defined.

End SubprocessProofs.

(** * Properties of [main.py] *)

Module RestWrapperProofs.

Import RestWrapper RestWrapperSpec.

Lemma bind_ok {A B} (m : M A) (k : A -> M B) (w : World) (a : A) (w' : World) :
  m w = (Ok a, w') -> bind m k w = k a w'.
Proof.
  intros E. unfold bind. now rewrite E.
Qed.

Section Degradation.

Context {R : Runtime} {G : Generators}.

Lemma request_timestamp_run (request : HeaderRequest) (w : World) :
  request_timestamp request w
  = (Ok (resolved_timestamp request w),
     mkWorld (w_stdin w) (w_stdout w) (w_log w)
       (match RestWrapper.timestamp request with
        | Some t => if Z.eqb t 0 then S (w_clock w) else w_clock w
        | None => S (w_clock w)
        end)
       (w_entropy w) (w_calls w)).
Proof.
  unfold request_timestamp, resolved_timestamp, epoch_seconds, ret.
  destruct (RestWrapper.timestamp request) as [t|]; [destruct (Z.eqb t 0)|];
    try reflexivity.
  now destruct w.
Qed.

Lemma gorgon_part_value (request : HeaderRequest) (ts : Z) (w : World) :
  fst (gorgon_part request ts w)
  = Ok (gorgon_masked
          (gorgon_calculate (params request) (gorgon_headers request)) ts).
Proof.
  unfold gorgon_part, try_except, bind, lift, ret, gorgon_masked, gorgon_pair.
  destruct (gorgon_calculate (params request) (gorgon_headers request)) as [r|e];
    [destruct r|]; reflexivity.
Qed.

Lemma argus_part_value (request : HeaderRequest) (ts : Z) (w : World) :
  fst (argus_part request ts w)
  = Ok (masked (argus_get_sign (params request) (stub_or_empty request) ts)
          argus_placeholder).
Proof.
  unfold argus_part, try_except, bind, lift, ret, masked, or_placeholder.
  fold (stub_or_empty request).
  destruct (argus_get_sign (params request) (stub_or_empty request) ts) as [r|e];
    [destruct (truthy r)|]; reflexivity.
Qed.

Lemma ladon_part_value (ts : Z) (w : World) :
  fst (ladon_part ts w) = Ok (masked (ladon_encrypt ts) ladon_placeholder).
Proof.
  unfold ladon_part, try_except, bind, lift, ret, masked, or_placeholder.
  destruct (ladon_encrypt ts) as [r|e]; [destruct (truthy r)|]; reflexivity.
Qed.

Lemma bind_value {A B} (m : M A) (k : A -> M B) (w : World) (a : A) :
  fst (m w) = Ok a -> bind m k w = k a (snd (m w)).
Proof.
  unfold bind. destruct (m w) as [[a'|e] w']; simpl; [|discriminate].
  now intros [= ->].
Qed.

(** C9, as the code has it. When the three generators can be
    constructed, the endpoint returns success with the four headers
    X-Gorgon, X-Khronos, X-Argus and X-Ladon, whatever the three signing
    computations do: a computation that raises has its value replaced
    by its placeholder (for X-Gorgon the fallback value, with the
    timestamp as X-Khronos), and each of the other headers holds what
    its own computation returned (the placeholder again where that is
    empty or null). When a constructor raises, the whole request fails
    with a 500 that carries the constructor's message. *)
Theorem each_signing_failure_is_masked (request : HeaderRequest) (w : World) :
  let ts := resolved_timestamp request w in
  let gorgon := gorgon_calculate (params request) (gorgon_headers request) in
  let argus := argus_get_sign (params request) (stub_or_empty request) ts in
  let ladon := ladon_encrypt ts in
  match construction with
  | Ok _ =>
      fst (generate_headers request w)
      = Ok (VDict [("success", VBool true);
                   ("headers",
                    VDict [("X-Gorgon", fst (gorgon_masked gorgon ts));
                           ("X-Khronos", snd (gorgon_masked gorgon ts));
                           ("X-Argus", masked argus argus_placeholder);
                           ("X-Ladon", masked ladon ladon_placeholder)]);
                   ("timestamp", VInt ts)])
  | Raise e =>
      fst (generate_headers request w) = Raise (mkExc HTTPException (exc_str e))
  end.
Proof.
  intros ts gorgon argus ladon.
  unfold generate_headers, try_except.
  rewrite (bind_ok _ _ _ _ _ (request_timestamp_run request w)). fold ts.
  unfold bind at 1. unfold logger at 1. cbv beta iota.
  unfold construction, bindR.
  unfold bind at 1, lift at 1.
  destruct XGorgon_new as [[]|e]; [|reflexivity].
  unfold bind at 1, lift at 1.
  destruct XArgus_new as [[]|e]; [|reflexivity].
  unfold bind at 1, lift at 1.
  destruct XLadon_new as [[]|e]; [|reflexivity].
  rewrite (bind_value _ _ _ _ (gorgon_part_value request ts _)).
  rewrite (bind_value _ _ _ _ (argus_part_value request ts _)).
  rewrite (bind_value _ _ _ _ (ladon_part_value ts _)).
  reflexivity.
Qed.

End Degradation.

Lemma each_signing_failure_is_masked_witness :
  fst (@generate_headers (Doubles.runtime []) two_fail sample_request
         (Doubles.world0 ""))
  = Ok (VDict
          [("success", VBool true);
           ("headers",
            VDict
              [("X-Gorgon",
                fst (@gorgon_masked (Doubles.runtime [])
                       (@gorgon_calculate two_fail (params sample_request)
                          (gorgon_headers sample_request))
                       (@resolved_timestamp (Doubles.runtime []) sample_request
                          (Doubles.world0 ""))));
               ("X-Khronos",
                snd (@gorgon_masked (Doubles.runtime [])
                       (@gorgon_calculate two_fail (params sample_request)
                          (gorgon_headers sample_request))
                       (@resolved_timestamp (Doubles.runtime []) sample_request
                          (Doubles.world0 ""))));
               ("X-Argus",
                masked
                  (@argus_get_sign two_fail (params sample_request)
                     (stub_or_empty sample_request)
                     (@resolved_timestamp (Doubles.runtime []) sample_request
                        (Doubles.world0 "")))
                  argus_placeholder);
               ("X-Ladon",
                masked
                  (@ladon_encrypt two_fail
                     (@resolved_timestamp (Doubles.runtime []) sample_request
                        (Doubles.world0 "")))
                  ladon_placeholder)]);
           ("timestamp",
            VInt (@resolved_timestamp (Doubles.runtime []) sample_request
                    (Doubles.world0 "")))]).
Proof.
  exact (@each_signing_failure_is_masked (Doubles.runtime []) two_fail
           sample_request (Doubles.world0 "")).
Defined.

Lemma unconstructed_gorgon_run :
  fst (@generate_headers (Doubles.runtime []) gorgon_unavailable sample_request
         (Doubles.world0 ""))
  = Raise (mkExc HTTPException "libgorgon.so: cannot open shared object file").
Proof. vm_compute. reflexivity. Qed.

(** C9, as worded, fails: when [XGorgon()] raises, the whole request
    fails and no header is returned. *)
Lemma a_constructor_failure_fails_the_request :
  ~ @failures_never_fail_the_request (Doubles.runtime []) gorgon_unavailable
      sample_request (Doubles.world0 "").
Proof.
  intros (headers & ts & w' & Hrun & _).
  pose proof unconstructed_gorgon_run as Hfst.
  rewrite Hrun in Hfst. discriminate Hfst.
Qed.

(** The same request, run: the two failed headers come back as their
    placeholders beside the X-Gorgon and X-Khronos that were computed. *)
Example two_failures_two_placeholders :
  fst (@generate_headers (Doubles.runtime []) two_fail sample_request
         (Doubles.world0 ""))
  = Ok (VDict [("success", VBool true);
               ("headers", VDict [("X-Gorgon", VStr "8404c0a10000");
                                  ("X-Khronos", VStr "1700000123");
                                  ("X-Argus", VStr "placeholder_argus_value");
                                  ("X-Ladon", VStr "placeholder_ladon_value")]);
               ("timestamp", VInt 1700000123)]).
Proof. vm_compute. reflexivity. Qed.

End RestWrapperProofs.

(** * Properties of [get_compose_hash.py] *)

Module ComposeHashProofs.

Import ComposeHash ComposeHashSpec DictFacts.

(** *** The order on keys *)

Lemma ltb_lt (a b : string) : String.ltb a b = true <-> String_as_OT.lt a b.
Proof.
  unfold String.ltb. rewrite <- String_as_OT.cmp_lt. unfold String_as_OT.cmp.
  destruct (String.compare a b); split; intros E; congruence.
Qed.

Lemma ltb_irrefl (a : string) : String.ltb a a = false.
Proof.
  destruct (String.ltb a a) eqn:E; [|reflexivity].
  apply ltb_lt in E. exfalso. exact (String_as_OT.lt_not_eq _ _ E eq_refl).
Qed.

Lemma ltb_trans (a b c : string) :
  String.ltb a b = true -> String.ltb b c = true -> String.ltb a c = true.
Proof.
  rewrite !ltb_lt. apply String_as_OT.lt_trans.
Qed.

Lemma ltb_total (a b : string) :
  String.ltb a b = false -> String.ltb b a = false -> a = b.
Proof.
  unfold String.ltb. rewrite (String.compare_antisym b a).
  destruct (String.compare a b) eqn:E; simpl; try discriminate.
  intros _ _. now apply String.compare_eq_iff.
Qed.

(** *** [sorted] puts the items in the one increasing order of their keys *)

Lemma insert_item_perm (x : string * Value) (l : Dict) :
  Permutation (x :: l) (insert_item x l).
Proof.
  induction l as [|y t IH]; simpl; [reflexivity|].
  destruct (item_lt y x); [|reflexivity].
  rewrite perm_swap. now apply perm_skip.
Qed.

Lemma sorted_items_perm (d : Dict) : Permutation d (sorted_items d).
Proof.
  induction d as [|x t IH]; simpl; [constructor|].
  rewrite <- insert_item_perm. now apply perm_skip.
Qed.

Lemma insert_item_increasing (x : string * Value) (l : Dict) :
  increasing l -> ~ In (fst x) (keys l) -> increasing (insert_item x l).
Proof.
  induction 1 as [|y t Hy Ht IH]; simpl; intros Hfresh.
  - repeat constructor.
  - unfold item_lt. destruct (String.ltb (fst y) (fst x)) eqn:Eyx.
    + constructor; [|apply IH; tauto].
      eapply Permutation_Forall; [apply insert_item_perm|].
      constructor; assumption.
    + assert (Hxy : above (fst x) y).
      { unfold above. destruct (String.ltb (fst x) (fst y)) eqn:Exy; [reflexivity|].
        exfalso. apply Hfresh. left. symmetry. now apply ltb_total. }
      constructor; [|now constructor].
      constructor; [assumption|].
      eapply Forall_impl; [|exact Hy].
      intros z Hz. unfold above in *. eapply ltb_trans; eassumption.
Qed.

Lemma sorted_items_increasing (d : Dict) :
  NoDup (keys d) -> increasing (sorted_items d).
Proof.
  induction d as [|x t IH]; simpl; intros Hnd; [constructor|].
  inversion Hnd as [|? ? Hfresh Hnd']; subst.
  apply insert_item_increasing; [auto|].
  intros Hin. apply Hfresh.
  eapply Permutation_in; [|exact Hin].
  unfold keys. apply Permutation_map, Permutation_sym, sorted_items_perm.
Qed.

Lemma above_get (k0 : string) (l : Dict) (k : string) (v : Value) :
  Forall (above k0) l -> dict_get l k = Some v -> String.ltb k0 k = true.
Proof.
  intros Hall Hget. apply dict_get_In in Hget.
  rewrite Forall_forall in Hall. exact (Hall _ Hget).
Qed.

Lemma above_absent (k0 : string) (l : Dict) :
  Forall (above k0) l -> dict_get l k0 = None.
Proof.
  intros Hall. destruct (dict_get l k0) as [v|] eqn:E; [|reflexivity].
  pose proof (above_get _ _ _ _ Hall E) as C.
  rewrite ltb_irrefl in C. discriminate.
Qed.

(** Two increasing lists that answer every lookup alike are equal item
    by item. *)
Lemma increasing_pointwise (R : Value -> Value -> Prop) (s1 : Dict) :
  increasing s1 -> forall s2, increasing s2 ->
  (forall k, option_rel R (dict_get s1 k) (dict_get s2 k)) ->
  Forall2 (fun a b => fst a = fst b /\ R (snd a) (snd b)) s1 s2.
Proof.
  induction 1 as [|[k1 v1] t1 H1 Hinc1 IH]; intros s2 Hinc2 Hget.
  - destruct s2 as [|[k2 v2] t2]; [constructor|].
    specialize (Hget k2). simpl in Hget. rewrite String.eqb_refl in Hget.
    inversion Hget.
  - destruct Hinc2 as [|[k2 v2] t2 H2 Hinc2].
    + specialize (Hget k1). simpl in Hget. rewrite String.eqb_refl in Hget.
      inversion Hget.
    + simpl in H1, H2.
      assert (Hk : k1 = k2).
      { pose proof (Hget k1) as Ha. pose proof (Hget k2) as Hb.
        simpl in Ha, Hb. rewrite String.eqb_refl in Ha, Hb.
        destruct (String.eqb k1 k2) eqn:E12; [now apply String.eqb_eq|].
        rewrite String.eqb_sym, E12 in Hb.
        inversion Ha as [|a b _ Ea Eb]. inversion Hb as [|a' b' _ Ea' Eb'].
        symmetry in Eb, Ea'.
        pose proof (above_get _ _ _ _ H2 Eb) as L21.
        pose proof (above_get _ _ _ _ H1 Ea') as L12.
        pose proof (ltb_trans _ _ _ L12 L21) as C.
        rewrite ltb_irrefl in C. discriminate. }
      subst k2. constructor.
      * simpl. split; [reflexivity|].
        specialize (Hget k1). simpl in Hget. rewrite String.eqb_refl in Hget.
        now inversion Hget.
      * apply IH; [assumption|]. intros k. specialize (Hget k). simpl in Hget.
        destruct (String.eqb k k1) eqn:E; [|assumption].
        apply String.eqb_eq in E. subst k.
        rewrite (above_absent k1 t1 H1), (above_absent k1 t2 H2). constructor.
Qed.

(** *** [sort_object] as the source writes it *)

Lemma map_in_map {A B} (f : A -> B) (l : list A) :
  map_in l (fun x _ => f x) = map f l.
Proof.
  induction l as [|x t IH]; simpl; [reflexivity|]. now rewrite IH.
Qed.

Lemma sort_object_list (l : list Value) :
  sort_object (VList l) = VList (map sort_object l).
Proof.
  rewrite sort_object_equation_6. f_equal. apply map_in_map.
Qed.

Lemma sort_object_dict (d : Dict) :
  sort_object (VDict d) =
  VDict (map (fun kv => (fst kv, sort_object (snd kv))) (sorted_items d)).
Proof.
  rewrite sort_object_equation_7. f_equal.
  apply (map_in_map (fun kv => (fst kv, sort_object (snd kv)))).
Qed.

Lemma Forall2_map_eq {A B C} (f : A -> C) (g : B -> C) (l1 : list A) (l2 : list B) :
  Forall2 (fun a b => f a = g b) l1 l2 -> map f l1 = map g l2.
Proof.
  induction 1; simpl; congruence.
Qed.

Lemma Forall2_impl_In {A B} (P Q : A -> B -> Prop) (l1 : list A) (l2 : list B) :
  Forall2 P l1 l2 ->
  (forall a b, In a l1 -> In b l2 -> P a b -> Q a b) ->
  Forall2 Q l1 l2.
Proof.
  induction 1 as [|a b t1 t2 Hab _ IH]; intros Himp; constructor.
  - apply Himp; simpl; auto.
  - apply IH. intros a' b' Ha Hb. apply Himp; simpl; auto.
Qed.

(** Values equal as maps are sorted into the same value. *)
Lemma sort_object_same_map (v1 : Value) :
  forall v2, py_value v1 -> py_value v2 -> same_map v1 v2 ->
  sort_object v1 = sort_object v2.
Proof.
  induction v1 as [| | | | |l IH|d IH] using Value_ind;
    intros v2 Hpy1 Hpy2 Hsame; inversion Hsame; subst; try reflexivity.
  - (* lists *)
    rewrite !sort_object_list. f_equal.
    apply Forall2_map_eq.
    inversion Hpy1 as [| | | | |? Hl1|]; subst.
    inversion Hpy2 as [| | | | |? Hl2|]; subst.
    rewrite Forall_forall in IH, Hl1, Hl2.
    match goal with
    | HF : Forall2 same_map _ _ |- _ =>
        apply (Forall2_impl_In _ _ _ _ HF)
    end.
    intros a b Ha Hb Hab. apply IH; auto.
  - (* dicts *)
    rewrite !sort_object_dict. f_equal.
    apply Forall2_map_eq.
    inversion Hpy1 as [| | | | | |? Hnd1 Hd1]; subst.
    inversion Hpy2 as [| | | | | |? Hnd2 Hd2]; subst.
    rewrite Forall_forall in IH, Hd1, Hd2.
    assert (Hpt : Forall2 (fun a b => fst a = fst b /\ same_map (snd a) (snd b))
                    (sorted_items d) (sorted_items d2)).
    { apply increasing_pointwise; try now apply sorted_items_increasing.
      intros k.
      rewrite <- (dict_get_perm d (sorted_items d) k Hnd1 (sorted_items_perm d)).
      rewrite <- (dict_get_perm d2 (sorted_items d2) k Hnd2 (sorted_items_perm d2)).
      auto. }
    apply (Forall2_impl_In _ _ _ _ Hpt).
    intros a b Ha Hb [Hk Hv].
    apply sorted_items_In in Ha. apply sorted_items_In in Hb.
    rewrite Hk. f_equal. apply IH; auto.
Qed.

Section Determinism.

Context {H : HashRuntime}.

(** C10. Two dictionaries that are equal as maps (the same keys bound to
    the same values at every depth, in whatever order the keys were
    inserted) get the same deterministic JSON text and the same compose
    hash. *)
Theorem equal_maps_same_json_and_hash (d1 d2 : Dict) :
  py_value (VDict d1) -> py_value (VDict d2) ->
  same_map (VDict d1) (VDict d2) ->
  to_deterministic_json (VDict d1) = to_deterministic_json (VDict d2)
  /\ get_compose_hash (VDict d1) = get_compose_hash (VDict d2).
Proof.
  intros Hpy1 Hpy2 Hsame.
  assert (Hjson : to_deterministic_json (VDict d1) = to_deterministic_json (VDict d2)).
  { unfold to_deterministic_json.
    now rewrite (sort_object_same_map _ _ Hpy1 Hpy2 Hsame). }
  split; [exact Hjson|].
  unfold get_compose_hash. now rewrite Hjson.
Qed.

End Determinism.

Lemma manifests_same_map : same_map (VDict manifest_a) (VDict manifest_b).
Proof.
  constructor. intros k. unfold manifest_a, manifest_b. simpl.
  destruct (String.eqb_spec k "runner") as [->|]; simpl; [repeat constructor|].
  destruct (String.eqb_spec k "_audit_metadata") as [->|]; simpl; [|constructor].
  constructor. constructor. intros k. simpl.
  destruct (String.eqb_spec k "ports") as [->|]; simpl.
  - repeat constructor. intros k. simpl.
    destruct (String.eqb_spec k "target") as [->|]; simpl; [repeat constructor|].
    destruct (String.eqb_spec k "published") as [->|]; simpl; repeat constructor.
  - destruct (String.eqb_spec k "context") as [->|]; simpl; repeat constructor.
Qed.

Lemma manifest_a_py : py_value (VDict manifest_a).
Proof.
  repeat (constructor; simpl); intuition discriminate.
Qed.

Lemma manifest_b_py : py_value (VDict manifest_b).
Proof.
  repeat (constructor; simpl); intuition discriminate.
Qed.

Lemma equal_maps_same_json_and_hash_witness :
  manifest_a <> manifest_b
  /\ @to_deterministic_json hash_double (VDict manifest_a)
     = @to_deterministic_json hash_double (VDict manifest_b)
  /\ @get_compose_hash hash_double (VDict manifest_a)
     = @get_compose_hash hash_double (VDict manifest_b).
Proof.
  split; [discriminate|].
  exact (@equal_maps_same_json_and_hash hash_double manifest_a manifest_b
           manifest_a_py manifest_b_py manifests_same_map).
Defined.

End ComposeHashProofs.

(** * More on [get_compose_hash.py]: the canonical form *)

Module CanonicalForm.

Import ComposeHash ComposeHashSpec CanonicalSpec DictFacts ComposeHashProofs.

Lemma ltb_asym (a b : string) : String.ltb a b = true -> String.ltb b a = false.
Proof.
  intros Hab. destruct (String.ltb b a) eqn:Hba; [|reflexivity].
  pose proof (ltb_trans _ _ _ Hab Hba) as C. rewrite ltb_irrefl in C. discriminate.
Qed.

Lemma not_ltb_trans (z y x : string) :
  String.ltb z y = false -> String.ltb y x = false -> String.ltb z x = false.
Proof.
  intros Hzy Hyx. destruct (String.ltb z x) eqn:Hzx; [|reflexivity].
  destruct (String.ltb x y) eqn:Hxy.
  - rewrite (ltb_trans _ _ _ Hzx Hxy) in Hzy. discriminate.
  - assert (y = x) by now apply ltb_total. subst y. congruence.
Qed.

Lemma insert_item_ordered (x : string * Value) (l : Dict) :
  keys_ordered l -> keys_ordered (insert_item x l).
Proof.
  induction 1 as [|y t Hy Ht IH]; simpl.
  - repeat constructor.
  - unfold item_lt. destruct (String.ltb (fst y) (fst x)) eqn:Eyx.
    + constructor; [|exact IH].
      eapply Permutation_Forall; [apply insert_item_perm|].
      constructor; [now apply ltb_asym|assumption].
    + constructor; [|now constructor].
      constructor; [assumption|].
      eapply Forall_impl; [|exact Hy].
      intros z Hz. simpl in Hz. eapply not_ltb_trans; eassumption.
Qed.

Lemma sorted_items_ordered (d : Dict) : keys_ordered (sorted_items d).
Proof.
  induction d as [|x t IH]; simpl; [constructor|].
  now apply insert_item_ordered.
Qed.

Lemma sorted_items_fixed (d : Dict) : keys_ordered d -> sorted_items d = d.
Proof.
  induction 1 as [|x t Hx Ht IH]; simpl; [reflexivity|].
  rewrite IH. destruct Hx as [|y t' Hy _]; simpl; [reflexivity|].
  unfold item_lt. now rewrite Hy.
Qed.

(** Changing the values of a dict and sorting it can be done in either
    order. *)
Lemma sorted_items_map (g : Value -> Value) (d : Dict) :
  sorted_items (map (fun kv => (fst kv, g (snd kv))) d)
  = map (fun kv => (fst kv, g (snd kv))) (sorted_items d).
Proof.
  induction d as [|x t IH]; simpl; [reflexivity|]. rewrite IH.
  generalize (sorted_items t). intros l.
  induction l as [|y l' IHl]; simpl; [reflexivity|].
  unfold item_lt. simpl.
  destruct (String.ltb (fst y) (fst x)); simpl; [now rewrite IHl|reflexivity].
Qed.

Lemma keys_ordered_map (g : Value -> Value) (d : Dict) :
  keys_ordered d -> keys_ordered (map (fun kv => (fst kv, g (snd kv))) d).
Proof.
  induction 1 as [|x t Hx Ht IH]; simpl; constructor; [|exact IH].
  apply Forall_map. eapply Forall_impl; [|exact Hx]. auto.
Qed.

Lemma sort_object_canonical (v : Value) : canonical (sort_object v).
Proof.
  induction v as [| | | | |l IH|d IH] using Value_ind.
  1-5: simp sort_object; constructor.
  - rewrite sort_object_list. constructor.
    apply Forall_map. exact IH.
  - rewrite sort_object_dict. constructor.
    + apply keys_ordered_map, sorted_items_ordered.
    + apply Forall_map. simpl.
      rewrite Forall_forall in IH |- *.
      intros kv Hin. apply IH. now apply sorted_items_In.
Qed.

Lemma map_fixed {A} (f : A -> A) (l : list A) :
  Forall (fun x => f x = x) l -> map f l = l.
Proof.
  induction 1; simpl; congruence.
Qed.

Lemma canonical_fixed (v : Value) : canonical v -> sort_object v = v.
Proof.
  induction v as [| | | | |l IH|d IH] using Value_ind; intros Hc.
  1-5: now simp sort_object.
  - inversion Hc as [| | | | |? Hl|]; subst.
    rewrite sort_object_list. f_equal. apply map_fixed.
    rewrite Forall_forall in IH, Hl |- *. auto.
  - inversion Hc as [| | | | | |? Hord Hd]; subst.
    rewrite sort_object_dict, (sorted_items_fixed _ Hord). f_equal.
    apply map_fixed.
    rewrite Forall_forall in IH, Hd |- *.
    intros [k x] Hin. simpl. f_equal. apply (IH (k, x) Hin). exact (Hd (k, x) Hin).
Qed.

Lemma Forall2_map_right {A B} (P : A -> B -> Prop) (f : A -> B) (l : list A) :
  Forall (fun x => P x (f x)) l -> Forall2 P l (map f l).
Proof.
  induction 1; simpl; constructor; assumption.
Qed.

Lemma sort_object_reordered (v : Value) : reordered v (sort_object v).
Proof.
  induction v as [| | | | |l IH|d IH] using Value_ind.
  1-5: simp sort_object; constructor.
  - rewrite sort_object_list. constructor.
    now apply Forall2_map_right.
  - rewrite sort_object_dict.
    apply (reordered_dict d (sorted_items d)); [apply sorted_items_perm|].
    apply Forall2_map_right. apply Forall_forall. intros kv Hin.
    split; [reflexivity|]. simpl.
    rewrite Forall_forall in IH. apply IH. now apply sorted_items_In.
Qed.

(** X18. [sort_object] changes only the order of the items of dicts:
    scalars are returned as they are, lists keep their items in place,
    and a dict keeps its items, each sorted inside. In the value it
    returns every dict, at every depth, has its keys in order, and
    sorting a second time changes nothing. *)
Theorem sort_object_reaches_canonical_form (v : Value) :
  reordered v (sort_object v)
  /\ canonical (sort_object v)
  /\ sort_object (sort_object v) = sort_object v.
Proof.
  split; [apply sort_object_reordered|].
  split; [apply sort_object_canonical|].
  apply canonical_fixed, sort_object_canonical.
Qed.

(** *** Sorting keeps the content *)

Lemma same_map_refl (v : Value) : same_map v v.
Proof.
  induction v as [| | | | |l IH|d IH] using Value_ind; constructor.
  - induction IH; constructor; assumption.
  - intros k. destruct (dict_get d k) as [x|] eqn:E; constructor.
    rewrite Forall_forall in IH. exact (IH (k, x) (dict_get_In _ _ _ E)).
Qed.

Lemma dict_get_map (g : Value -> Value) (d : Dict) (k : string) :
  dict_get (map (fun kv => (fst kv, g (snd kv))) d) k
  = option_map g (dict_get d k).
Proof.
  induction d as [|[k' x] t IH]; simpl; [reflexivity|].
  destruct (String.eqb k k'); [reflexivity|exact IH].
Qed.

Lemma keys_map (g : Value -> Value) (d : Dict) :
  keys (map (fun kv => (fst kv, g (snd kv))) d) = keys d.
Proof.
  unfold keys. rewrite map_map. reflexivity.
Qed.

(** X19. [sort_object] loses nothing: for a value whose dicts bind each key
    once, every lookup at every depth finds the same value before and
    after sorting, and each key is still bound once. *)
Theorem sort_object_keeps_content (v : Value) :
  py_value v -> same_map v (sort_object v) /\ py_value (sort_object v).
Proof.
  induction v as [| | | | |l IH|d IH] using Value_ind; intros Hpy.
  1-5: simp sort_object; split; [constructor|assumption].
  - inversion Hpy as [| | | | |? Hl|]; subst.
    rewrite sort_object_list.
    rewrite Forall_forall in IH, Hl.
    split; constructor.
    + clear Hpy. induction l as [|x t IHt]; simpl; constructor.
      * apply IH; [now left|]. apply Hl. now left.
      * apply IHt; intros y Hy; [apply IH|apply Hl]; now right.
    + apply Forall_map. apply Forall_forall. intros x Hx. now apply IH; [|apply Hl].
  - inversion Hpy as [| | | | | |? Hnd Hd]; subst.
    rewrite sort_object_dict.
    rewrite Forall_forall in IH, Hd.
    split; constructor.
    + intros k. rewrite dict_get_map.
      rewrite <- (dict_get_perm d (sorted_items d) k Hnd (sorted_items_perm d)).
      destruct (dict_get d k) as [x|] eqn:E; simpl; constructor.
      apply dict_get_In in E. apply (IH (k, x) E). exact (Hd (k, x) E).
    + rewrite keys_map. eapply Permutation_NoDup; [|exact Hnd].
      unfold keys. apply Permutation_map, sorted_items_perm.
    + apply Forall_map. apply Forall_forall. intros kv Hin. simpl.
      apply sorted_items_In in Hin. now apply IH; [|apply Hd].
Qed.

(** *** NaN and infinities *)

Lemma process_data_special_free (v : Value) : special_free (process_data v) = true.
Proof.
  induction v as [| | |f|s|l IH|d IH] using Value_ind; try reflexivity.
  - destruct f as [| [|] | |]; reflexivity.
  - simpl. rewrite forallb_forall. intros x Hx.
    apply in_map_iff in Hx. destruct Hx as (y & <- & Hy).
    rewrite Forall_forall in IH. now apply IH.
  - simpl. rewrite forallb_forall. intros x Hx.
    apply in_map_iff in Hx. destruct Hx as (y & <- & Hy). simpl.
    rewrite Forall_forall in IH. now apply IH.
Qed.

Lemma process_data_fixed (v : Value) :
  special_free v = true -> process_data v = v.
Proof.
  induction v as [| | |f|s|l IH|d IH] using Value_ind; intros Hfree;
    try reflexivity.
  - destruct f as [| [|] | |]; try reflexivity; discriminate.
  - simpl in *. f_equal. apply map_fixed.
    rewrite forallb_forall in Hfree. rewrite Forall_forall in IH |- *. auto.
  - simpl in *. f_equal. apply map_fixed.
    rewrite forallb_forall in Hfree. rewrite Forall_forall in IH |- *.
    intros [k x] Hin. simpl. f_equal. apply (IH (k, x) Hin). exact (Hfree (k, x) Hin).
Qed.

Lemma process_data_nulled (v : Value) : nulled v (process_data v).
Proof.
  induction v as [| | |f|s|l IH|d IH] using Value_ind;
    try (simpl; constructor; fail).
  - destruct f as [| [|] | |]; simpl; constructor; reflexivity.
  - simpl. constructor. now apply Forall2_map_right.
  - simpl. constructor. apply Forall2_map_right.
    apply Forall_forall. intros kv Hin. split; [reflexivity|]. simpl.
    rewrite Forall_forall in IH. now apply IH.
Qed.

(** X20. [process_data] puts [None] in the place of each NaN and each
    infinity and changes nothing else: every other scalar, every list
    item and every dict key stays where it is. So no NaN and no
    infinity is left anywhere in the value, and a value that holds none
    of them is returned unchanged. *)
Theorem process_data_removes_specials (v : Value) :
  nulled v (process_data v)
  /\ special_free (process_data v) = true
  /\ (special_free v = true -> process_data v = v).
Proof.
  split; [apply process_data_nulled|].
  split; [apply process_data_special_free|apply process_data_fixed].
Qed.

Lemma process_sort_commute (v : Value) :
  process_data (sort_object v) = sort_object (process_data v).
Proof.
  induction v as [| | |f|s|l IH|d IH] using Value_ind.
  1-3, 5: now simp sort_object.
  - destruct f as [| [|] | |]; now simp sort_object.
  - rewrite sort_object_list. simpl. rewrite sort_object_list, !map_map.
    f_equal. apply map_ext_in. intros x Hx.
    rewrite Forall_forall in IH. now apply IH.
  - rewrite sort_object_dict. simpl. rewrite sort_object_dict.
    rewrite (sorted_items_map process_data), !map_map. simpl.
    f_equal. apply map_ext_in. intros kv Hin. f_equal.
    rewrite Forall_forall in IH. apply IH. now apply sorted_items_In.
Qed.

Section Hashing.

Context {H : HashRuntime}.

(** X21. Normalising a manifest beforehand changes neither its
    deterministic JSON nor its hash: not sorting its keys, and not
    replacing its NaN and infinities by [None]. So NaN, the infinities
    and [None] are hashed alike. *)
Theorem normalising_first_changes_nothing (v : Value) :
  to_deterministic_json (sort_object v) = to_deterministic_json v
  /\ to_deterministic_json (process_data v) = to_deterministic_json v
  /\ get_compose_hash (sort_object v) = get_compose_hash v
  /\ get_compose_hash (process_data v) = get_compose_hash v.
Proof.
  assert (S : to_deterministic_json (sort_object v) = to_deterministic_json v).
  { unfold to_deterministic_json.
    now rewrite (canonical_fixed _ (sort_object_canonical v)). }
  assert (E : to_deterministic_json (process_data v) = to_deterministic_json v).
  { unfold to_deterministic_json.
    rewrite <- process_sort_commute.
    now rewrite (process_data_fixed _ (process_data_special_free (sort_object v))). }
  split; [exact S|]. split; [exact E|].
  unfold get_compose_hash. now rewrite S, E.
Qed.

End Hashing.

Lemma raw_manifest_py : py_value (VDict raw_manifest).
Proof.
  repeat (constructor; simpl); intuition discriminate.
Qed.

Lemma sort_object_keeps_content_witness :
  same_map (VDict raw_manifest) (sort_object (VDict raw_manifest))
  /\ py_value (sort_object (VDict raw_manifest)).
Proof.
  exact (sort_object_keeps_content (VDict raw_manifest) raw_manifest_py).
Defined.

(** The manifest above, sorted and cleaned. *)
Example raw_manifest_processed :
  process_data (sort_object (VDict raw_manifest))
  = VDict [("allowed_envs", VList [VStr "DOCKER_HOST"; VStr "BROWSER_MANAGER_URL"]);
           ("limits", VDict [("burst", VFloat (S754_finite false 3 (-1)));
                             ("cpu", VNone);
                             ("memory", VNone)]);
           ("runner", VStr "docker-compose")].
Proof. vm_compute. reflexivity. Qed.

End CanonicalForm.

(** * More on [security_service_subprocess.py]: edges and failures *)

Module SubprocessEdges.

Import Subprocess SubprocessSpec SubprocessEdgesSpec DictFacts SubprocessProofs.

Lemma logged_app {A} (m : M A) (w : World) (new : list (LogLevel * string)) :
  w_log (snd (m w)) = (w_log w ++ new)%list -> logged m w = new.
Proof.
  intros E. unfold logged. rewrite E.
  rewrite skipn_app, skipn_all, Nat.sub_diag. reflexivity.
Qed.

Lemma keys_dict_set (d : Dict) (k : string) (v : Value) :
  keys (dict_set d k v) = if dict_has d k then keys d else (keys d ++ [k])%list.
Proof.
  unfold dict_has. induction d as [|[k' v'] t IH]; simpl; [reflexivity|].
  destruct (String.eqb k k') eqn:E; simpl; [reflexivity|].
  rewrite IH. destruct (dict_get t k); reflexivity.
Qed.

Lemma dict_has_set (d : Dict) (k k' : string) (v : Value) :
  dict_has (dict_set d k v) k' = (String.eqb k' k || dict_has d k')%bool.
Proof.
  unfold dict_has. destruct (String.eqb k' k) eqn:E.
  - apply String.eqb_eq in E. subst k'. now rewrite dict_get_set_same.
  - apply String.eqb_neq in E. rewrite dict_get_set_other by congruence.
    reflexivity.
Qed.

(** [d.update(h)] keeps the keys of [d] where they are and appends the
    new keys of [h] in [h]'s order. *)
Lemma keys_dict_update (h d : Dict) :
  NoDup (keys h) ->
  keys (dict_update d h)
  = (keys d ++ filter (fun k => negb (dict_has d k)) (keys h))%list.
Proof.
  unfold dict_update. revert d.
  induction h as [|[k v] t IH]; simpl; intros d Hnd.
  - now rewrite app_nil_r.
  - inversion Hnd as [|? ? Hk Ht]; subst.
    rewrite (IH _ Ht), keys_dict_set.
    assert (F : filter (fun k' => negb (dict_has (dict_set d k v) k')) (keys t)
                = filter (fun k' => negb (dict_has d k')) (keys t)).
    { apply filter_ext_in. intros k' Hin. rewrite dict_has_set.
      destruct (String.eqb k' k) eqn:E; [|reflexivity].
      apply String.eqb_eq in E. subst k'. contradiction. }
    rewrite F. destruct (dict_has d k); simpl; [reflexivity|].
    now rewrite <- app_assoc.
Qed.

Section Service.

Context {R : Runtime} {B : SigningBackend}.

(** ** [handle_request] *)

(** X1. Whatever the action, a response that [handle_request] returns for a
    request object carries the request's own [requestId] ([None] when
    the request has none), and its [success] is true exactly when the
    action is one of the four known ones. *)
Theorem every_response_echoes_requestId
  (request : Dict) (w w' : World) (response : Value) :
  handle_request (VDict request) w = (Ok response, w') ->
  exists fields,
    response = VDict fields
    /\ dict_get fields "requestId" = Some (field request "requestId")
    /\ dict_get fields "success" = Some (VBool (is_known (field request "action"))).
Proof.
  unfold handle_request, bind, lift, ret, py_get, is_known, known_actions.
  fold (field request "action"). fold (field request "requestId").
  simpl existsb.
  destruct (eq_str (field request "action") "getApiConfig");
    [intros [= <- _]; eexists; repeat split|].
  destruct (eq_str (field request "action") "generateDeviceAuth");
    [intros [= <- _]; eexists; repeat split|].
  destruct (eq_str (field request "action") "buildAuthenticatedParams").
  { destruct (build_authenticated_params _ _ w) as [[p|e] w1]; [|discriminate].
    intros [= <- _]. eexists. repeat split. }
  destruct (eq_str (field request "action") "generateHeaders").
  { unfold token_hex, now.
    destruct (generate_headers _ _ _ _ _) as [[h|e] w1]; [|discriminate].
    intros [= <- _]. eexists. repeat split. }
  intros [= <- _]. eexists. repeat split.
Qed.

Lemma generate_headers_counters (p c s t : Value) (w : World) :
  w_clock (snd (generate_headers p c s t w)) = w_clock w
  /\ w_entropy (snd (generate_headers p c s t w)) = w_entropy w.
Proof.
  unfold generate_headers, try_except, bind, call_gorgon, call_argus,
    call_ladon, lift, ret, raise, logger, record_call.
  destruct (gorgon_get_value _ _ _ _) as [g|e]; simpl; [|now split].
  destruct (argus_get_value _ _ _) as [a|e]; simpl; [|now split].
  destruct (ladon_get_value _) as [l|e]; simpl; [|now split].
  destruct (py_get g "X-Gorgon" _) as [xg|e]; simpl; [|now split].
  destruct (py_get g "X-Khronos" _) as [xk|e]; simpl; now split.
Qed.

(** X3. A [generateHeaders] request draws one random token and reads the
    clock once whether or not it supplies [stub] and [timestamp]; the
    signing modules get the request's [stub] and [timestamp] whenever
    the keys are present (a null included) and the drawn token and the
    clock reading only when they are absent. *)
Theorem supplied_stub_and_timestamp_are_used (request : Dict) (w : World) :
  field request "action" = VStr "generateHeaders" ->
  let stub := field_or request "stub" (VStr (token_hex16 (w_entropy w))) in
  let timestamp := field_or request "timestamp" (VInt (time_time (w_clock w))) in
  let w' := snd (handle_request (VDict request) w) in
  w_entropy w' = S (w_entropy w)
  /\ w_clock w' = S (w_clock w)
  /\ exists n,
       calls_made (handle_request (VDict request)) w
       = firstn (S n)
           (signing_calls (field_or request "params" (VStr ""))
              (field_or request "cookies" (VStr "")) stub timestamp).
Proof.
  intros Haction stub timestamp.
  assert (E : handle_request (VDict request) w =
              match generate_headers (field_or request "params" (VStr ""))
                      (field_or request "cookies" (VStr "")) stub timestamp
                      (ticked w) with
              | (Ok headers, w1) =>
                  (Ok (VDict [("success", VBool true);
                              ("requestId", field request "requestId");
                              ("headers", VDict headers)]), w1)
              | (Raise e, w1) => (Raise e, w1)
              end).
  { unfold handle_request, bind, lift, ret, py_get.
    fold (field request "action"). rewrite Haction. simpl.
    fold (field request "requestId").
    fold (field_or request "params" (VStr "")).
    fold (field_or request "cookies" (VStr "")).
    fold (field_or request "stub" (VStr (token_hex16 (w_entropy w)))).
    fold (field_or request "timestamp" (VInt (time_time (w_clock w)))).
    fold stub timestamp. fold (ticked w).
    destruct (generate_headers _ _ _ _ (ticked w)) as [[h|e] w1]; reflexivity. }
  set (p := field_or request "params" (VStr "")) in *.
  set (c := field_or request "cookies" (VStr "")) in *.
  assert (S1 : snd (handle_request (VDict request) w)
               = snd (generate_headers p c stub timestamp (ticked w))).
  { rewrite E. now destruct (generate_headers p c stub timestamp (ticked w)) as [[h|e] w1]. }
  cbv zeta. rewrite S1.
  destruct (generate_headers_counters p c stub timestamp (ticked w)) as [Hc He].
  split; [exact He|]. split; [exact Hc|].
  destruct (generate_headers_calls p c stub timestamp (ticked w)) as [n Hn].
  exists n. unfold calls_made in *. rewrite S1. exact Hn.
Qed.

(** ** [generate_headers] *)

Lemma generate_headers_run (p c s t : Value) (w : World) :
  let hd := if truthy c then VDict [("cookie", c)] else VDict [] in
  let failed n e :=
    (Raise e,
     mkWorld (w_stdin w) (w_stdout w)
       (w_log w ++ [(ERROR, ("Header generation failed: " ++ exc_str e)%string)])%list
       (w_clock w) (w_entropy w)
       (w_calls w ++ firstn n (signing_calls p c s t))%list) in
  generate_headers p c s t w =
  match gorgon_get_value p s hd t with
  | Raise e => failed 1 e
  | Ok g =>
      match argus_get_value p c t with
      | Raise e => failed 2 e
      | Ok a =>
          match ladon_get_value p with
          | Raise e => failed 3 e
          | Ok l =>
              match py_get g "X-Gorgon" (VStr "") with
              | Raise e => failed 3 e
              | Ok xg =>
                  match py_get g "X-Khronos" t with
                  | Raise e => failed 3 e
                  | Ok xk =>
                      (Ok [("X-Gorgon", xg); ("X-Khronos", VStr (py_str xk));
                           ("X-Argus", a); ("X-Ladon", l)],
                       mkWorld (w_stdin w) (w_stdout w) (w_log w)
                         (w_clock w) (w_entropy w)
                         (w_calls w ++ signing_calls p c s t)%list)
                  end
              end
          end
      end
  end.
Proof.
  cbv zeta.
  unfold generate_headers, try_except, bind, call_gorgon, call_argus,
    call_ladon, lift, ret, raise, logger, record_call, signing_calls.
  cbv zeta.
  destruct (gorgon_get_value _ _ _ _) as [g|e]; simpl; [|reflexivity].
  destruct (argus_get_value _ _ _) as [a|e]; simpl;
    [|now rewrite <- !app_assoc].
  destruct (ladon_get_value _) as [l|e]; simpl;
    [|now rewrite <- !app_assoc].
  destruct (py_get g "X-Gorgon" _) as [xg|e]; simpl;
    [|now rewrite <- !app_assoc].
  destruct (py_get g "X-Khronos" _) as [xk|e]; simpl;
    now rewrite <- !app_assoc.
Qed.

(** X4. The adapter stops at the first signing module that raises: the
    modules after it are not called, the exception is the one raised
    (message unchanged), and one error record is logged. *)
Theorem first_signing_failure_stops_the_adapter
  (p c s t : Value) (w : World) (n : nat) (e : PyExc) :
  first_raise (signing_answers p c s t) = Some (n, e) ->
  fst (generate_headers p c s t w) = Raise e
  /\ calls_made (generate_headers p c s t) w
     = firstn (S n) (signing_calls p c s t)
  /\ logged (generate_headers p c s t) w
     = [(ERROR, "Header generation failed: " ++ exc_str e)].
Proof.
  unfold signing_answers, first_raise. intros Hfirst.
  pose proof (generate_headers_run p c s t w) as E. cbv zeta in E.
  destruct (gorgon_get_value _ _ _ _) as [g|e1].
  2:{ injection Hfirst as <- <-. repeat split.
      - now rewrite E.
      - apply calls_made_app. now rewrite E.
      - apply logged_app. now rewrite E. }
  destruct (argus_get_value _ _ _) as [a|e1].
  2:{ injection Hfirst as <- <-. repeat split.
      - now rewrite E.
      - apply calls_made_app. now rewrite E.
      - apply logged_app. now rewrite E. }
  destruct (ladon_get_value _) as [l|e1]; [discriminate|].
  injection Hfirst as <- <-. repeat split.
  - now rewrite E.
  - apply calls_made_app. now rewrite E.
  - apply logged_app. now rewrite E.
Qed.

(** X5. When the adapter returns headers, all three modules answered and
    the Gorgon answer was a dict. X-Argus and X-Ladon are the modules'
    answers as they are, empty or null ones included; X-Gorgon is the
    dict's entry or the empty string; X-Khronos is always a string, the
    dict's entry or else the timestamp, formatted with [str]. Nothing is
    logged. *)
Theorem returned_headers_are_the_modules_answers
  (p c s t : Value) (w w' : World) (headers : Dict) :
  generate_headers p c s t w = (Ok headers, w') ->
  exists d a l,
    signing_answers p c s t = [Ok (VDict d); Ok a; Ok l]
    /\ headers = [("X-Gorgon", field_or d "X-Gorgon" (VStr ""));
                  ("X-Khronos", VStr (py_str (field_or d "X-Khronos" t)));
                  ("X-Argus", a);
                  ("X-Ladon", l)]
    /\ w_log w' = w_log w
    /\ w_calls w' = (w_calls w ++ signing_calls p c s t)%list.
Proof.
  pose proof (generate_headers_run p c s t w) as E. cbv zeta in E.
  rewrite E. unfold signing_answers.
  destruct (gorgon_get_value _ _ _ _) as [g|e]; [|discriminate].
  destruct (argus_get_value _ _ _) as [a|e]; [|discriminate].
  destruct (ladon_get_value _) as [l|e]; [|discriminate].
  destruct g as [| | | | | |d]; try discriminate.
  simpl. intros [= <- <-]. exists d, a, l. repeat split.
Qed.

(** X6. A Gorgon answer that is not a dict is an error, found only after
    Argus and Ladon were computed: the adapter raises [AttributeError]
    for the missing [get], all three calls made. *)
Theorem gorgon_answer_must_be_a_dict
  (p c s t : Value) (w : World) (g a l : Value) :
  signing_answers p c s t = [Ok g; Ok a; Ok l] ->
  is_dict g = false ->
  fst (generate_headers p c s t w)
  = Raise (mkExc AttributeError
             ("'" ++ type_name g ++ "' object has no attribute 'get'"))
  /\ calls_made (generate_headers p c s t) w = signing_calls p c s t.
Proof.
  unfold signing_answers. intros [= Hg Ha Hl] Hnot.
  pose proof (generate_headers_run p c s t w) as E. cbv zeta in E.
  rewrite Hg, Ha, Hl in E.
  split; [|apply calls_made_app]; rewrite E;
    destruct g; try discriminate; reflexivity.
Qed.

(** ** [build_authenticated_params] *)

(** X7. Base parameters that are not a mapping are refused with a
    [TypeError] before any signing module is called; the clock and the
    token source have been read by then and the failure is logged. *)
Theorem base_params_must_be_a_mapping (base session : Value) (w : World) :
  is_dict base = false ->
  build_authenticated_params base session w
  = (Raise (mkExc TypeError ("'" ++ type_name base ++ "' object is not a mapping")),
     logged_failure
       (mkExc TypeError ("'" ++ type_name base ++ "' object is not a mapping"))
       (ticked w))
  /\ calls_made (build_authenticated_params base session) w = [].
Proof.
  intros Hnot.
  assert (E : build_authenticated_params base session w
              = (Raise (mkExc TypeError
                          ("'" ++ type_name base ++ "' object is not a mapping")),
                 logged_failure
                   (mkExc TypeError
                      ("'" ++ type_name base ++ "' object is not a mapping"))
                   (ticked w))).
  { rewrite build_authenticated_params_unfold. unfold assembled.
    destruct base; try discriminate; reflexivity. }
  split; [exact E|]. unfold calls_made. rewrite E. simpl. apply skipn_all.
Qed.

Lemma cookie_pair_missing (c : Value) :
  is_dict c = true ->
  match missing_key c with
  | Some key => cookie_pair c = Raise (mkExc KeyError (repr (VStr key)))
  | None => exists pair, cookie_pair c = Ok pair
  end.
Proof.
  destruct c as [| | | | | |fields]; try discriminate. intros _.
  unfold cookie_pair, bindR, py_getitem, missing_key, dict_has.
  destruct (dict_get fields "name"); [|reflexivity].
  destruct (dict_get fields "value"); [|reflexivity].
  eexists. reflexivity.
Qed.

Lemma first_missing_key_raises (l : list Value) (key : string) :
  forallb is_dict l = true ->
  first_missing_key l = Some key ->
  map_result cookie_pair l = Raise (mkExc KeyError (repr (VStr key)))
  /\ In key ["name"; "value"].
Proof.
  induction l as [|c t IH]; simpl; [discriminate|].
  intros Hd Hkey. apply andb_prop in Hd. destruct Hd as [Hd Ht].
  pose proof (cookie_pair_missing c Hd) as Hp.
  destruct (missing_key c) as [k|] eqn:Ek.
  - injection Hkey as ->. rewrite Hp. split; [reflexivity|].
    destruct c as [| | | | | |fields]; try discriminate.
    unfold missing_key in Ek.
    destruct (dict_has fields "name"); [destruct (dict_has fields "value")|];
      try discriminate; injection Ek as <-; simpl; auto.
  - destruct Hp as (pair & ->).
    destruct (IH Ht Hkey) as (-> & Hin). split; [reflexivity|exact Hin].
Qed.

(** X8. One cookie of the session without a name or without a value fails
    the whole call: [build_authenticated_params] raises the [KeyError]
    of the key that the first such cookie lacks (its name when it lacks
    both), no cookie string is built from the other cookies and no
    signing module is called. *)
Theorem incomplete_cookie_fails_the_call
  (base session : Dict) (l : list Value) (params : Dict) (key : string)
  (w : World) :
  dict_get session "cookies" = Some (VList l) ->
  forallb is_dict l = true ->
  first_missing_key l = Some key ->
  assembled (VDict base) (VDict session) = Ok params ->
  In key ["name"; "value"]
  /\ build_authenticated_params (VDict base) (VDict session) w
     = (Raise (mkExc KeyError (repr (VStr key))),
        logged_failure (mkExc KeyError (repr (VStr key))) (ticked w))
  /\ calls_made (build_authenticated_params (VDict base) (VDict session)) w = [].
Proof.
  intros Hcookies Hd Hkey Hparams.
  destruct (first_missing_key_raises l key Hd Hkey) as (Hraise & Hin).
  assert (Hl : l <> []) by (intros ->; discriminate).
  assert (Hs : session_cookies (VDict session)
               = Raise (mkExc KeyError (repr (VStr key)))).
  { unfold session_cookies, py_contains, py_getitem, dict_has, bindR.
    rewrite Hcookies. simpl. destruct l; [contradiction|].
    now rewrite Hraise. }
  assert (E : build_authenticated_params (VDict base) (VDict session) w
              = (Raise (mkExc KeyError (repr (VStr key))),
                 logged_failure (mkExc KeyError (repr (VStr key))) (ticked w))).
  { now rewrite build_authenticated_params_unfold, Hparams, Hs. }
  split; [exact Hin|]. split; [exact E|].
  unfold calls_made. rewrite E. simpl. apply skipn_all.
Qed.

Lemma add_device_info_keys (session : Value) (base params : Dict) :
  add_device_info session base = Ok params ->
  keys params
  = (keys base
     ++ filter (fun k => negb (dict_has base k)) (injected_keys session))%list.
Proof.
  unfold add_device_info, injected_keys, bindR, py_contains, py_getitem.
  destruct session as [| | | |text|items|fields]; try discriminate.
  - destruct (substringb "tokens" text); [discriminate|].
    intros [= <-]. simpl. now rewrite app_nil_r.
  - destruct (existsb (fun x => eq_str x "tokens") items); [discriminate|].
    intros [= <-]. simpl. now rewrite app_nil_r.
  - unfold dict_has at 1.
    destruct (dict_get fields "tokens") as [tokens|];
      [|intros [= <-]; simpl; now rewrite app_nil_r].
    destruct tokens as [| | | |text|items|tokens]; try discriminate.
    + destruct (substringb "device_id" text); [discriminate|].
      destruct (substringb "install_id" text); [discriminate|].
      intros [= <-]. simpl. now rewrite app_nil_r.
    + destruct (existsb (fun x => eq_str x "device_id") items); [discriminate|].
      destruct (existsb (fun x => eq_str x "install_id") items); [discriminate|].
      intros [= <-]. simpl. now rewrite app_nil_r.
    + destruct (dict_has tokens "device_id") eqn:Hd;
        destruct (dict_has tokens "install_id") eqn:Hi;
        unfold dict_has in Hd, Hi;
        destruct (dict_get tokens "device_id") as [device_id|];
        try discriminate Hd;
        destruct (dict_get tokens "install_id") as [install_id|];
        try discriminate Hi;
        intros [= <-]; rewrite ?keys_dict_set, ?dict_has_set; simpl;
        destruct (dict_has base "device_id"); destruct (dict_has base "iid");
        simpl; rewrite ?app_nil_r, <- ?app_assoc; reflexivity.
Qed.

Lemma injected_keys_incl (session : Value) :
  incl (injected_keys session) ["device_id"; "iid"].
Proof.
  unfold injected_keys.
  destruct session as [| | | | | |fields]; try (intros x []).
  destruct (dict_get fields "tokens") as [[| | | | | |tokens]|];
    try (intros x []).
  destruct (dict_has tokens "device_id"); destruct (dict_has tokens "install_id");
    intros x Hx; simpl in *; tauto.
Qed.

(** X9. The result keeps the order of the base parameters. The signed
    parameters are the base parameters in their own order, followed by
    [device_id] and [iid] where they were added as new keys; the result
    has the same keys in the same order, followed by those of the four
    header names the parameters did not hold already. The keys added
    are, in this order, [device_id] when the tokens have a [device_id]
    and the base has none, and [iid] when the tokens have an
    [install_id] and the base has no [iid]. *)
Theorem result_keeps_parameter_order
  (base : Dict) (session : Value) (w w' : World) (result : Dict) :
  build_authenticated_params (VDict base) session w = (Ok result, w') ->
  exists params extra,
    assembled (VDict base) session = Ok params
    /\ keys params = (keys base ++ extra)%list
    /\ incl extra ["device_id"; "iid"]
    /\ keys result
       = (keys params
          ++ filter (fun k => negb (dict_has params k)) header_names)%list
    /\ extra = filter (fun k => negb (dict_has base k)) (injected_keys session).
Proof.
  rewrite build_authenticated_params_unfold.
  destruct (assembled (VDict base) session) as [params|e] eqn:Ea; [|discriminate].
  destruct (session_cookies session) as [c|e]; [|discriminate].
  destruct (generate_headers _ _ _ _ (ticked w)) as [[headers|e] w2] eqn:Eh;
    [|discriminate].
  intros [= <- _].
  unfold assembled in Ea. simpl in Ea.
  exists params, (filter (fun k => negb (dict_has base k)) (injected_keys session)).
  split; [reflexivity|].
  split; [exact (add_device_info_keys session base params Ea)|].
  split.
  { intros x Hx. apply filter_In in Hx.
    exact (injected_keys_incl session x (proj1 Hx)). }
  split; [|reflexivity].
  pose proof (generate_headers_keys _ _ _ _ _ _ _ Eh) as Hh.
  rewrite keys_dict_update, Hh; [reflexivity|].
  rewrite Hh. unfold header_names.
  repeat constructor; simpl; intuition discriminate.
Qed.

(** ** What a request costs *)

Lemma eq_str_true (v : Value) (s : string) : eq_str v s = true -> v = VStr s.
Proof.
  destruct v; simpl; try discriminate.
  intros E. apply String.eqb_eq in E. now subst.
Qed.

Lemma build_authenticated_params_cost (base session : Value) (w : World) :
  let w' := snd (build_authenticated_params base session w) in
  w_clock w' = S (w_clock w) /\ w_entropy w' = S (w_entropy w)
  /\ length (calls_made (build_authenticated_params base session) w) <= 3.
Proof.
  cbv zeta. split; [|split].
  1-2: rewrite build_authenticated_params_unfold;
    destruct (assembled base session) as [params|e]; [|reflexivity];
    destruct (session_cookies session) as [c|e]; [|reflexivity];
    match goal with
    | |- context [generate_headers ?p ?c ?s ?t ?w0] =>
        destruct (generate_headers_counters p c s t w0) as [Hc He];
        destruct (generate_headers p c s t w0) as [[h|e] w2]
    end; simpl in *; congruence.
  destruct (build_authenticated_params_calls base session w)
    as [->|(params & c & n & _ & _ & ->)]; [simpl; lia|].
  rewrite length_firstn. simpl length. lia.
Qed.

(** X2. A request costs at most one reading of the clock, one random token
    and three signing calls, and only the two signing actions cost
    anything: the clock and the token source are read exactly once for
    them, also when the request fails, and never for the other
    requests. No request reads standard input or prints. *)
Theorem request_cost_is_bounded (request : Dict) (w : World) :
  let w' := snd (handle_request (VDict request) w) in
  let cost := if signs (field request "action") then 1 else 0 in
  w_clock w' = cost + w_clock w
  /\ w_entropy w' = cost + w_entropy w
  /\ length (calls_made (handle_request (VDict request)) w) <= 3 * cost
  /\ same_io w w'.
Proof.
  cbv zeta.
  assert (Hio : same_io w (snd (handle_request (VDict request) w)))
    by apply keeps_io_handle_request.
  unfold calls_made.
  unfold handle_request, bind, lift, ret, py_get in *.
  fold (field request "action") in *. fold (field request "requestId") in *.
  destruct (eq_str (field request "action") "getApiConfig") eqn:E1.
  { apply eq_str_true in E1. rewrite E1. simpl. rewrite skipn_all. simpl.
    repeat split; auto. }
  destruct (eq_str (field request "action") "generateDeviceAuth") eqn:E2.
  { apply eq_str_true in E2. rewrite E2. simpl. rewrite skipn_all. simpl.
    repeat split; auto. }
  unfold signs.
  destruct (eq_str (field request "action") "buildAuthenticatedParams") eqn:E3.
  { simpl orb. cbv iota.
    match goal with
    | |- context [build_authenticated_params ?b ?s w] =>
        pose proof (build_authenticated_params_cost b s w) as (Hc & He & Hn);
        unfold calls_made in Hn;
        destruct (build_authenticated_params b s w) as [[p|e] w1]
    end; simpl in *; (repeat (split; [assumption|])); assumption. }
  destruct (eq_str (field request "action") "generateHeaders") eqn:E4.
  { simpl orb. cbv iota. unfold token_hex, now in *. cbn [w_entropy w_clock] in *.
    match goal with
    | |- context [generate_headers ?p ?c ?s ?t ?w0] =>
        destruct (generate_headers_counters p c s t w0) as [Hc He];
        destruct (generate_headers_calls p c s t w0) as [n Hn];
        unfold calls_made in Hn;
        destruct (generate_headers p c s t w0) as [[h|e] w1]
    end; cbn [fst snd w_calls w_clock w_entropy] in *;
      rewrite Hn, length_firstn; simpl length;
      (split; [assumption|]); (split; [assumption|]); (split; [lia|assumption]). }
  simpl. rewrite skipn_all. simpl. repeat split; auto.
Qed.

(** ** Failures seen from the loop *)

Lemma handle_build_request (request : Dict) (w : World) :
  field request "action" = VStr "buildAuthenticatedParams" ->
  handle_request (VDict request) w =
  match build_authenticated_params (field_or request "baseParams" (VDict []))
          (field_or request "sessionData" (VDict [])) w with
  | (Ok authenticated_params, w1) =>
      (Ok (VDict [("success", VBool true);
                  ("requestId", field request "requestId");
                  ("params", VDict authenticated_params)]), w1)
  | (Raise e, w1) => (Raise e, w1)
  end.
Proof.
  intros Haction. unfold handle_request, bind, lift, ret, py_get.
  fold (field request "action"). rewrite Haction. simpl.
  fold (field request "requestId").
  fold (field_or request "baseParams" (VDict [])).
  fold (field_or request "sessionData" (VDict [])).
  destruct (build_authenticated_params _ _ w) as [[p|e] w1]; reflexivity.
Qed.

(** X10. A signing failure is answered once and logged three times. When a
    signing module raises while a [buildAuthenticatedParams] request is
    handled, the loop prints one response, success false with the
    module's message, and goes on; the error log receives the same
    message from the adapter, from the assembler and from the loop, in
    that order; the modules after the failing one are not called. *)
Theorem signing_failure_is_logged_at_every_layer
  (body rest : string) (request params : Dict) (c : string)
  (n : nat) (e : PyExc) (w : World) :
  no_newline body = true ->
  w_stdin w = body ++ nl ++ rest ->
  json_loads (strip (body ++ nl)) = Ok (VDict request) ->
  field request "action" = VStr "buildAuthenticatedParams" ->
  assembled (field_or request "baseParams" (VDict []))
    (field_or request "sessionData" (VDict [])) = Ok params ->
  session_cookies (field_or request "sessionData" (VDict [])) = Ok c ->
  first_raise
    (signing_answers (VStr (urlencode params)) (VStr c)
       (VStr (token_hex16 (w_entropy w))) (VInt (time_time (w_clock w))))
  = Some (n, e) ->
  is_JSONDecodeError e = false ->
  run_iteration w
  = (Ok Continue,
     mkWorld rest
       (w_stdout w ++ [json_dumps (error_response (exc_str e))])%list
       (w_log w ++
        [(ERROR, ("Header generation failed: " ++ exc_str e)%string);
         (ERROR, ("buildAuthenticatedParams failed: " ++ exc_str e)%string);
         (ERROR, ("Request handling error: " ++ exc_str e)%string)])%list
       (S (w_clock w)) (S (w_entropy w))
       (w_calls w ++
        firstn (S n)
          (signing_calls (VStr (urlencode params)) (VStr c)
             (VStr (token_hex16 (w_entropy w)))
             (VInt (time_time (w_clock w)))))%list).
Proof.
  intros Hb Hin Hparse Haction Hparams Hcookies Hfirst Hdec.
  rewrite (run_iteration_unfold _ _ _ Hb Hin), Hparse.
  rewrite (handle_build_request _ _ Haction).
  rewrite build_authenticated_params_unfold, Hparams, Hcookies.
  cbn [w_entropy w_clock read_to].
  pose proof (generate_headers_run (VStr (urlencode params)) (VStr c)
                (VStr (token_hex16 (w_entropy w)))
                (VInt (time_time (w_clock w))) (ticked (read_to rest w))) as E.
  cbv zeta in E. rewrite E. clear E.
  unfold signing_answers, first_raise in Hfirst.
  unfold handled, logged_failure, logger, print.
  destruct (gorgon_get_value _ _ _ _) as [g|e1].
  2:{ injection Hfirst as <- <-. rewrite Hdec. simpl.
      now rewrite <- !app_assoc. }
  destruct (argus_get_value _ _ _) as [a|e1].
  2:{ injection Hfirst as <- <-. rewrite Hdec. simpl.
      now rewrite <- !app_assoc. }
  destruct (ladon_get_value _) as [l|e1]; [discriminate|].
  injection Hfirst as <- <-. rewrite Hdec. simpl.
  now rewrite <- !app_assoc.
Qed.

(** X11. The answer "Invalid JSON" does not mean that the line was invalid.
    A request that parsed, but whose handling raised an exception of
    the class of JSON decoding errors, is answered by the first
    [except] clause: success false with "Invalid JSON: " and the
    message, and the loop writes nothing to the error log. *)
Theorem decode_error_while_handling_is_called_invalid_json
  (body rest : string) (request : Value) (e : PyExc) (w w1 : World) :
  no_newline body = true ->
  w_stdin w = body ++ nl ++ rest ->
  json_loads (strip (body ++ nl)) = Ok request ->
  handle_request request (read_to rest w) = (Raise e, w1) ->
  is_JSONDecodeError e = true ->
  run_iteration w
  = (Ok Continue,
     mkWorld rest
       (w_stdout w
        ++ [json_dumps (error_response ("Invalid JSON: " ++ exc_str e))])%list
       (w_log w1) (w_clock w1) (w_entropy w1) (w_calls w1)).
Proof.
  intros Hb Hin Hparse Hraise Hdec.
  rewrite (run_iteration_unfold _ _ _ Hb Hin), Hparse, Hraise.
  pose proof (keeps_io_handle_request request (read_to rest w)) as [Hi Ho].
  rewrite Hraise in Hi, Ho. simpl in Hi, Ho.
  unfold handled. rewrite Hdec. unfold print. simpl. now rewrite Hi, Ho.
Qed.

End Service.

(** ** The theorems on concrete requests *)

Lemma device_auth_answered :
  @handle_request quiet Doubles.backend_ok (VDict device_auth_fields)
    (Doubles.world0 "")
  = (Ok (VDict [("success", VBool true);
                ("requestId", VStr "r-3");
                ("deviceAuth", VDict [("sec_user_id", VStr "MS4wLjABAAAA")])]),
     Doubles.world0 "").
Proof. vm_compute. reflexivity. Qed.

Lemma every_response_echoes_requestId_witness :
  exists fields,
    VDict [("success", VBool true);
           ("requestId", VStr "r-3");
           ("deviceAuth", VDict [("sec_user_id", VStr "MS4wLjABAAAA")])]
    = VDict fields
    /\ dict_get fields "requestId" = Some (field device_auth_fields "requestId")
    /\ dict_get fields "success"
       = Some (VBool (is_known (field device_auth_fields "action"))).
Proof.
  exact (@every_response_echoes_requestId quiet Doubles.backend_ok
           device_auth_fields _ _ _ device_auth_answered).
Defined.

Lemma null_stub_is_a_headers_request :
  field headers_with_null_stub "action" = VStr "generateHeaders".
Proof. reflexivity. Qed.

Lemma supplied_stub_and_timestamp_are_used_witness :
  w_entropy (snd (@handle_request quiet Doubles.backend_ok
                    (VDict headers_with_null_stub) (Doubles.world0 "")))
  = S (w_entropy (Doubles.world0 ""))
  /\ w_clock (snd (@handle_request quiet Doubles.backend_ok
                     (VDict headers_with_null_stub) (Doubles.world0 "")))
     = S (w_clock (Doubles.world0 ""))
  /\ exists n,
       calls_made (@handle_request quiet Doubles.backend_ok
                     (VDict headers_with_null_stub)) (Doubles.world0 "")
       = firstn (S n)
           (signing_calls (field_or headers_with_null_stub "params" (VStr ""))
              (field_or headers_with_null_stub "cookies" (VStr ""))
              (field_or headers_with_null_stub "stub"
                 (VStr (@token_hex16 quiet (w_entropy (Doubles.world0 "")))))
              (field_or headers_with_null_stub "timestamp"
                 (VInt (@time_time quiet (w_clock (Doubles.world0 "")))))).
Proof.
  exact (@supplied_stub_and_timestamp_are_used quiet Doubles.backend_ok
           headers_with_null_stub (Doubles.world0 "")
           null_stub_is_a_headers_request).
Defined.

(** The request above, run: the null stub and the old timestamp of the
    request reach the signing modules, and the token drawn and the clock
    reading are dropped. *)
Example null_stub_reaches_the_signers :
  w_calls (snd (@handle_request quiet Doubles.backend_ok
                  (VDict headers_with_null_stub) (Doubles.world0 "")))
  = [CallGorgon (VStr "aid=1233") VNone
       (VDict [("cookie", VStr "sid=abc")]) (VInt 1650000000);
     CallArgus (VStr "aid=1233") (VStr "sid=abc") (VInt 1650000000);
     CallLadon (VStr "aid=1233")].
Proof. vm_compute. reflexivity. Qed.

Lemma argus_raises_first :
  first_raise
    (@signing_answers Doubles.backend_argus_fails (VStr "aid=1233")
       (VStr "sid=abc") (VStr "00ff") (VInt 1700000000))
  = Some (1, sign_failed).
Proof. reflexivity. Qed.

Lemma first_signing_failure_stops_the_adapter_witness :
  fst (@generate_headers quiet Doubles.backend_argus_fails (VStr "aid=1233")
         (VStr "sid=abc") (VStr "00ff") (VInt 1700000000) (Doubles.world0 ""))
  = Raise sign_failed
  /\ calls_made (@generate_headers quiet Doubles.backend_argus_fails
                   (VStr "aid=1233") (VStr "sid=abc") (VStr "00ff")
                   (VInt 1700000000)) (Doubles.world0 "")
     = firstn 2 (signing_calls (VStr "aid=1233") (VStr "sid=abc") (VStr "00ff")
                   (VInt 1700000000))
  /\ logged (@generate_headers quiet Doubles.backend_argus_fails
               (VStr "aid=1233") (VStr "sid=abc") (VStr "00ff")
               (VInt 1700000000)) (Doubles.world0 "")
     = [(ERROR, "Header generation failed: " ++ exc_str sign_failed)].
Proof.
  exact (@first_signing_failure_stops_the_adapter quiet
           Doubles.backend_argus_fails (VStr "aid=1233") (VStr "sid=abc")
           (VStr "00ff") (VInt 1700000000) (Doubles.world0 "") 1 sign_failed
           argus_raises_first).
Defined.

Lemma sparse_headers_returned :
  @generate_headers quiet backend_sparse (VStr "aid=1233") (VStr "")
    (VStr "00ff") (VInt 1700000000) (Doubles.world0 "")
  = (Ok sparse_headers, after_sparse_signing).
Proof. vm_compute. reflexivity. Qed.

Lemma returned_headers_are_the_modules_answers_witness :
  exists d a l,
    @signing_answers backend_sparse (VStr "aid=1233") (VStr "") (VStr "00ff")
      (VInt 1700000000)
    = [Ok (VDict d); Ok a; Ok l]
    /\ sparse_headers
       = [("X-Gorgon", field_or d "X-Gorgon" (VStr ""));
          ("X-Khronos",
           VStr (@py_str quiet (field_or d "X-Khronos" (VInt 1700000000))));
          ("X-Argus", a);
          ("X-Ladon", l)]
    /\ w_log after_sparse_signing = w_log (Doubles.world0 "")
    /\ w_calls after_sparse_signing
       = (w_calls (Doubles.world0 "")
          ++ signing_calls (VStr "aid=1233") (VStr "") (VStr "00ff")
               (VInt 1700000000))%list.
Proof.
  exact (@returned_headers_are_the_modules_answers quiet backend_sparse
           (VStr "aid=1233") (VStr "") (VStr "00ff") (VInt 1700000000)
           (Doubles.world0 "") after_sparse_signing sparse_headers
           sparse_headers_returned).
Defined.

Lemma gorgon_answers_a_string :
  @signing_answers backend_gorgon_string (VStr "aid=1233") (VStr "")
    (VStr "00ff") (VInt 1700000000)
  = [Ok (VStr "8404c0a10000"); Ok (VStr "argus-signature"); Ok (VStr "ladon-token")].
Proof. reflexivity. Qed.

Lemma gorgon_answer_must_be_a_dict_witness :
  fst (@generate_headers quiet backend_gorgon_string (VStr "aid=1233") (VStr "")
         (VStr "00ff") (VInt 1700000000) (Doubles.world0 ""))
  = Raise (mkExc AttributeError
             ("'" ++ type_name (VStr "8404c0a10000")
              ++ "' object has no attribute 'get'"))
  /\ calls_made (@generate_headers quiet backend_gorgon_string (VStr "aid=1233")
                   (VStr "") (VStr "00ff") (VInt 1700000000)) (Doubles.world0 "")
     = signing_calls (VStr "aid=1233") (VStr "") (VStr "00ff") (VInt 1700000000).
Proof.
  exact (@gorgon_answer_must_be_a_dict quiet backend_gorgon_string
           (VStr "aid=1233") (VStr "") (VStr "00ff") (VInt 1700000000)
           (Doubles.world0 "") _ _ _ gorgon_answers_a_string eq_refl).
Defined.

Lemma base_params_must_be_a_mapping_witness :
  @build_authenticated_params quiet Doubles.backend_ok VNone
    (VDict session_with_ids) (Doubles.world0 "")
  = (Raise not_a_mapping,
     logged_failure not_a_mapping (ticked (Doubles.world0 "")))
  /\ calls_made (@build_authenticated_params quiet Doubles.backend_ok VNone
                   (VDict session_with_ids)) (Doubles.world0 "")
     = [].
Proof.
  exact (@base_params_must_be_a_mapping quiet Doubles.backend_ok VNone
           (VDict session_with_ids) (Doubles.world0 "") eq_refl).
Defined.

Lemma bad_cookie_listed :
  dict_get session_with_bad_cookie "cookies"
  = Some (VList [VDict [("name", VStr "a"); ("value", VStr "1")];
                 VDict [("name", VStr "b")]]).
Proof. reflexivity. Qed.

Lemma bad_cookie_params :
  @assembled quiet (VDict base_with_header) (VDict session_with_bad_cookie)
  = Ok base_with_header.
Proof. reflexivity. Qed.

Lemma value_is_missing :
  first_missing_key [VDict [("name", VStr "a"); ("value", VStr "1")];
                     VDict [("name", VStr "b")]]
  = Some "value".
Proof. reflexivity. Qed.

Lemma incomplete_cookie_fails_the_call_witness :
  In "value" ["name"; "value"]
  /\ @build_authenticated_params quiet Doubles.backend_ok
       (VDict base_with_header) (VDict session_with_bad_cookie)
       (Doubles.world0 "")
     = (Raise (mkExc KeyError (@repr quiet (VStr "value"))),
        logged_failure (mkExc KeyError (@repr quiet (VStr "value")))
          (ticked (Doubles.world0 "")))
  /\ calls_made (@build_authenticated_params quiet Doubles.backend_ok
                   (VDict base_with_header) (VDict session_with_bad_cookie))
       (Doubles.world0 "")
     = [].
Proof.
  exact (@incomplete_cookie_fails_the_call quiet Doubles.backend_ok
           base_with_header session_with_bad_cookie _ base_with_header
           "value" (Doubles.world0 "") bad_cookie_listed eq_refl
           value_is_missing bad_cookie_params).
Defined.

(** The call above, run: the exception names the missing key. *)
Example missing_value_is_named :
  fst (@build_authenticated_params quiet Doubles.backend_ok
         (VDict base_with_header) (VDict session_with_bad_cookie)
         (Doubles.world0 ""))
  = Raise (mkExc KeyError "'value'").
Proof. vm_compute. reflexivity. Qed.

Lemma ordered_result_returned :
  @build_authenticated_params quiet Doubles.backend_ok
    (VDict base_with_iid) (VDict session_with_ids) (Doubles.world0 "")
  = (Ok ordered_result, after_ordered_call).
Proof. vm_compute. reflexivity. Qed.

Lemma result_keeps_parameter_order_witness :
  exists params extra,
    @assembled quiet (VDict base_with_iid) (VDict session_with_ids) = Ok params
    /\ keys params = (keys base_with_iid ++ extra)%list
    /\ incl extra ["device_id"; "iid"]
    /\ keys ordered_result
       = (keys params
          ++ filter (fun k => negb (dict_has params k)) header_names)%list
    /\ extra = filter (fun k => negb (dict_has base_with_iid k))
                 (injected_keys (VDict session_with_ids)).
Proof.
  exact (@result_keeps_parameter_order quiet Doubles.backend_ok base_with_iid
           (VDict session_with_ids) (Doubles.world0 "") after_ordered_call
           ordered_result ordered_result_returned).
Defined.

(** A request that passes through none of the signing actions. *)
Example device_auth_costs_nothing :
  snd (@handle_request quiet Doubles.backend_ok (VDict device_auth_fields)
         (Doubles.world0 ""))
  = Doubles.world0 "".
Proof. reflexivity. Qed.

Lemma build_line_ok : no_newline build_line = true.
Proof. vm_compute. reflexivity. Qed.

Lemma build_line_parsed :
  @json_loads build_runtime (strip (build_line ++ nl)) = Ok (VDict build_fields).
Proof. vm_compute. reflexivity. Qed.

Lemma build_params_assembled :
  @assembled build_runtime (field_or build_fields "baseParams" (VDict []))
    (field_or build_fields "sessionData" (VDict []))
  = Ok assembled_params.
Proof. vm_compute. reflexivity. Qed.

Lemma build_cookies_joined :
  @session_cookies build_runtime (field_or build_fields "sessionData" (VDict []))
  = Ok "a=1; b=2".
Proof. vm_compute. reflexivity. Qed.

Lemma build_signing_fails :
  first_raise
    (@signing_answers Doubles.backend_argus_fails
       (VStr (@urlencode build_runtime assembled_params)) (VStr "a=1; b=2")
       (VStr (@token_hex16 build_runtime
                (w_entropy (Doubles.world0 (build_line ++ nl)))))
       (VInt (@time_time build_runtime
                (w_clock (Doubles.world0 (build_line ++ nl))))))
  = Some (1, sign_failed).
Proof. reflexivity. Qed.

Lemma signing_failure_is_logged_at_every_layer_witness :
  @run_iteration build_runtime Doubles.backend_argus_fails
    (Doubles.world0 (build_line ++ nl))
  = (Ok Continue,
     mkWorld ""
       (w_stdout (Doubles.world0 (build_line ++ nl))
        ++ [@json_dumps build_runtime (error_response (exc_str sign_failed))])%list
       (w_log (Doubles.world0 (build_line ++ nl)) ++
        [(ERROR, ("Header generation failed: " ++ exc_str sign_failed)%string);
         (ERROR, ("buildAuthenticatedParams failed: " ++ exc_str sign_failed)%string);
         (ERROR, ("Request handling error: " ++ exc_str sign_failed)%string)])%list
       (S (w_clock (Doubles.world0 (build_line ++ nl))))
       (S (w_entropy (Doubles.world0 (build_line ++ nl))))
       (w_calls (Doubles.world0 (build_line ++ nl)) ++
        firstn 2
          (signing_calls (VStr (@urlencode build_runtime assembled_params))
             (VStr "a=1; b=2")
             (VStr (@token_hex16 build_runtime
                      (w_entropy (Doubles.world0 (build_line ++ nl)))))
             (VInt (@time_time build_runtime
                      (w_clock (Doubles.world0 (build_line ++ nl)))))))%list).
Proof.
  exact (@signing_failure_is_logged_at_every_layer build_runtime
           Doubles.backend_argus_fails build_line "" build_fields
           assembled_params "a=1; b=2" 1 sign_failed
           (Doubles.world0 (build_line ++ nl))
           build_line_ok eq_refl build_line_parsed eq_refl
           build_params_assembled build_cookies_joined build_signing_fails
           eq_refl).
Defined.

Lemma ladon_decode_error_raised :
  @handle_request headers_runtime backend_ladon_decode_error
    (VDict headers_fields) (read_to "" (Doubles.world0 (headers_line ++ nl)))
  = (Raise not_json, after_decode_error).
Proof. vm_compute. reflexivity. Qed.

Lemma decode_error_while_handling_is_called_invalid_json_witness :
  @run_iteration headers_runtime backend_ladon_decode_error
    (Doubles.world0 (headers_line ++ nl))
  = (Ok Continue,
     mkWorld ""
       (w_stdout (Doubles.world0 (headers_line ++ nl))
        ++ [@json_dumps headers_runtime
              (error_response ("Invalid JSON: " ++ exc_str not_json))])%list
       (w_log after_decode_error) (w_clock after_decode_error)
       (w_entropy after_decode_error) (w_calls after_decode_error)).
Proof.
  exact (@decode_error_while_handling_is_called_invalid_json headers_runtime
           backend_ladon_decode_error headers_line "" (VDict headers_fields)
           not_json (Doubles.world0 (headers_line ++ nl)) after_decode_error
           headers_line_ok eq_refl headers_line_parsed
           ladon_decode_error_raised eq_refl).
Defined.

Lemma list_line_ok : no_newline list_line = true.
Proof. vm_compute. reflexivity. Qed.

Lemma list_line_parsed :
  @json_loads list_runtime (strip (list_line ++ nl)) = Ok (VList [VInt 1; VInt 2]).
Proof. vm_compute. reflexivity. Qed.

Lemma a_list_is_no_object : forall d, VList [VInt 1; VInt 2] <> VDict d.
Proof. discriminate. Qed.

Lemma non_object_line_answered_witness :
  @run_iteration list_runtime Doubles.backend_ok
    (Doubles.world0 (list_line ++ nl))
  = (Ok Continue,
     mkWorld ""
       (w_stdout (Doubles.world0 (list_line ++ nl)) ++
        [@json_dumps list_runtime
           (VDict [("success", VBool false);
                   ("error", VStr ("'" ++ type_name (VList [VInt 1; VInt 2])
                                   ++ "' object has no attribute 'get'"))])])%list
       (w_log (Doubles.world0 (list_line ++ nl)) ++
        [(ERROR, ("Request handling error: '"
                  ++ type_name (VList [VInt 1; VInt 2])
                  ++ "' object has no attribute 'get'")%string)])%list
       (w_clock (Doubles.world0 (list_line ++ nl)))
       (w_entropy (Doubles.world0 (list_line ++ nl)))
       (w_calls (Doubles.world0 (list_line ++ nl)))).
Proof.
  exact (@non_object_line_answered list_runtime Doubles.backend_ok list_line ""
           (VList [VInt 1; VInt 2]) (Doubles.world0 (list_line ++ nl))
           list_line_ok eq_refl list_line_parsed a_list_is_no_object).
Defined.

End SubprocessEdges.

(** * More on [main.py]: what the endpoints return and when they fail *)

Module RestEdges.

Import RestWrapper RestWrapperSpec DeviceEndpoints RestEdgesSpec.
Import SubprocessEdgesSpec SubprocessEdges RestWrapperProofs.

Section Endpoint.

Context {R : Runtime} {G : Generators}.

(** X13. The endpoint fails when one of the three generators cannot be
    constructed, and then with a 500 whose detail is the message of the
    constructor's exception; no header is computed and the failure is
    logged after the announcement of the request. *)
Theorem constructor_failure_is_a_500
  (request : HeaderRequest) (w : World) (e : PyExc) :
  construction = Raise e ->
  fst (generate_headers request w) = Raise (mkExc HTTPException (exc_str e))
  /\ logged (generate_headers request) w
     = [announcement request;
        (ERROR, "Header generation failed: " ++ exc_str e)].
Proof.
  unfold construction, bindR. intros Hc.
  assert (E : generate_headers request w
              = (Raise (mkExc HTTPException (exc_str e)),
                 mkWorld (w_stdin w) (w_stdout w)
                   (w_log w ++ [announcement request;
                                (ERROR, ("Header generation failed: " ++ exc_str e)%string)])%list
                   (match RestWrapper.timestamp request with
                    | Some t => if Z.eqb t 0 then S (w_clock w) else w_clock w
                    | None => S (w_clock w)
                    end)
                   (w_entropy w) (w_calls w))).
  { unfold generate_headers, try_except.
    rewrite (bind_ok _ _ _ _ _ (request_timestamp_run request w)).
    unfold bind, logger, lift, raise, announcement. simpl.
    destruct XGorgon_new as [[]|e1];
      [destruct XArgus_new as [[]|e1]; [destruct XLadon_new as [[]|e1]|]|];
      try discriminate; injection Hc as ->; simpl;
      now rewrite <- app_assoc. }
  split; [now rewrite E|]. apply logged_app. now rewrite E.
Qed.

(** X14. When the three signing computations return, the endpoint returns
    what they returned, with these replacements, none of them logged:
    an X-Argus or X-Ladon that is empty, null or zero becomes its
    placeholder; a Gorgon result that is not a dict is formatted with
    [str] as X-Gorgon; an X-Gorgon or X-Khronos missing from the dict
    becomes the fallback value or the timestamp. An X-Khronos found in
    the dict is returned as it is, not formatted. *)
Theorem returned_answers_and_silent_replacements
  (request : HeaderRequest) (w : World) (r a l : Value) :
  let ts := resolved_timestamp request w in
  construction = Ok tt ->
  gorgon_calculate (params request) (gorgon_headers request) = Ok r ->
  argus_get_sign (params request) (stub_or_empty request) ts = Ok a ->
  ladon_encrypt ts = Ok l ->
  fst (generate_headers request w)
  = Ok (VDict [("success", VBool true);
               ("headers",
                VDict [("X-Gorgon", fst (gorgon_pair r ts));
                       ("X-Khronos", snd (gorgon_pair r ts));
                       ("X-Argus", or_placeholder a argus_placeholder);
                       ("X-Ladon", or_placeholder l ladon_placeholder)]);
               ("timestamp", VInt ts)])
  /\ logged (generate_headers request) w
     = [announcement request; (INFO, "Headers generated successfully")].
Proof.
  intros ts Hc Hg Ha Hl.
  unfold construction, bindR in Hc.
  destruct XGorgon_new as [[]|e1] eqn:HG; [|discriminate].
  destruct XArgus_new as [[]|e1] eqn:HA; [|discriminate].
  destruct XLadon_new as [[]|e1] eqn:HL; [|discriminate].
  assert (E : generate_headers request w
              = (Ok (VDict [("success", VBool true);
                            ("headers",
                             VDict [("X-Gorgon", fst (gorgon_pair r ts));
                                    ("X-Khronos", snd (gorgon_pair r ts));
                                    ("X-Argus", or_placeholder a argus_placeholder);
                                    ("X-Ladon", or_placeholder l ladon_placeholder)]);
                            ("timestamp", VInt ts)]),
                 mkWorld (w_stdin w) (w_stdout w)
                   (w_log w ++ [announcement request;
                                (INFO, "Headers generated successfully")])%list
                   (match RestWrapper.timestamp request with
                    | Some t => if Z.eqb t 0 then S (w_clock w) else w_clock w
                    | None => S (w_clock w)
                    end)
                   (w_entropy w) (w_calls w))).
  { unfold generate_headers, try_except.
    rewrite (bind_ok _ _ _ _ _ (request_timestamp_run request w)). fold ts.
    unfold bind at 1. unfold logger at 1. cbv beta iota.
    rewrite HG, HA, HL.
    unfold gorgon_part, argus_part, ladon_part, try_except.
    fold (stub_or_empty request).
    unfold bind, lift, ret, logger, announcement, or_placeholder, gorgon_pair.
    rewrite Hg, Ha, Hl. simpl.
    destruct r; simpl; destruct (truthy a); simpl; destruct (truthy l); simpl;
      now rewrite <- app_assoc. }
  split; [now rewrite E|]. apply logged_app. now rewrite E.
Qed.

(** X15. The endpoint reads four things of a request: [params], [cookies],
    a non-empty [stub] and a non-zero [timestamp]. An empty stub and a
    zero timestamp are handled as absent ones, and [device_id] and
    [install_id] are never looked at. *)
Theorem endpoint_reads_only_effective_fields
  (request : HeaderRequest) (w : World) :
  generate_headers request w = generate_headers (effective request) w.
Proof.
  destruct request as [p c s t d i].
  unfold generate_headers, request_timestamp, gorgon_part, argus_part,
    gorgon_headers, effective. simpl.
  destruct s as [s|]; [destruct (String.eqb s "") eqn:Es|];
    (destruct t as [t|]; [destruct (Z.eqb t 0) eqn:Et|]); simpl;
    rewrite ?Es, ?Et; simpl;
    try (apply String.eqb_eq in Es; subst s); reflexivity.
Qed.

End Endpoint.

Section Devices.

Context {G : Generators} {E : Encryptor}.

(** X16. [register_device] answers in one of two ways. It returns success
    with the device that the registration returned, logging nothing; or,
    when the constructor or the registration raises, it raises a 500
    whose detail is the message of that exception and logs "Device
    registration failed". It never returns a response with success
    false. *)
Theorem register_device_succeeds_or_raises_500
  (request : DeviceRegistrationRequest) (w : World) :
  let attempt :=
    bindR TTEncrypt_new (fun _ =>
      tt_register_device (DeviceEndpoints.device_id request)
        (DeviceEndpoints.install_id request)) in
  match attempt with
  | Ok device =>
      register_device request w
      = (Ok (VDict [("success", VBool true); ("device", device)]), w)
  | Raise e =>
      fst (register_device request w) = Raise (mkExc HTTPException (exc_str e))
      /\ logged (register_device request) w
         = [(ERROR, "Device registration failed: " ++ exc_str e)]
  end.
Proof.
  cbv zeta. unfold bindR, register_device, try_except, bind, lift, ret, raise,
    logger, logged.
  destruct TTEncrypt_new as [[]|e]; simpl.
  - destruct (tt_register_device _ _) as [device|e]; simpl; [reflexivity|].
    split; [reflexivity|].
    now rewrite skipn_app, skipn_all, Nat.sub_diag.
  - split; [reflexivity|].
    now rewrite skipn_app, skipn_all, Nat.sub_diag.
Qed.

(** X17. [test_modules] never fails and never answers with status "error":
    it constructs each of the four modules, the later ones also after an
    earlier one failed, and reports them in the order XGorgon, XArgus,
    XLadon, TTEncrypt, each as loaded or as failed with the message of
    its exception. It logs nothing. *)
Theorem test_modules_reports_every_module (w : World) :
  test_modules w
  = (Ok (VDict [("status", VStr "test_complete");
                ("modules",
                 VDict [("XGorgon", module_report XGorgon_new);
                        ("XArgus", module_report XArgus_new);
                        ("XLadon", module_report XLadon_new);
                        ("TTEncrypt", module_report TTEncrypt_new)])]),
     w).
Proof.
  unfold test_modules, try_except, bind, lift, ret, module_report.
  destruct XGorgon_new as [[]|e1], XArgus_new as [[]|e2],
    XLadon_new as [[]|e3], TTEncrypt_new as [[]|e4]; reflexivity.
Qed.

End Devices.

(** ** The theorems on concrete requests *)

Lemma argus_cannot_be_constructed :
  @construction argus_missing
  = Raise (mkExc (OtherException "FileNotFoundError") "libargus.so not found").
Proof. reflexivity. Qed.

Lemma constructor_failure_is_a_500_witness :
  fst (@generate_headers quiet argus_missing sample_request (Doubles.world0 ""))
  = Raise (mkExc HTTPException "libargus.so not found")
  /\ logged (@generate_headers quiet argus_missing sample_request)
       (Doubles.world0 "")
     = [announcement sample_request;
        (ERROR, "Header generation failed: libargus.so not found")].
Proof.
  exact (@constructor_failure_is_a_500 quiet argus_missing sample_request
           (Doubles.world0 "") _ argus_cannot_be_constructed).
Defined.

Lemma quiet_generators_constructed : @construction quiet_generators = Ok tt.
Proof. reflexivity. Qed.

Lemma returned_answers_and_silent_replacements_witness :
  fst (@generate_headers quiet quiet_generators zero_request (Doubles.world0 ""))
  = Ok (VDict [("success", VBool true);
               ("headers",
                VDict [("X-Gorgon",
                        fst (@gorgon_pair quiet (VStr "8404c0a10000")
                               (@resolved_timestamp quiet zero_request
                                  (Doubles.world0 ""))));
                       ("X-Khronos",
                        snd (@gorgon_pair quiet (VStr "8404c0a10000")
                               (@resolved_timestamp quiet zero_request
                                  (Doubles.world0 ""))));
                       ("X-Argus", or_placeholder (VStr "") argus_placeholder);
                       ("X-Ladon", or_placeholder VNone ladon_placeholder)]);
               ("timestamp",
                VInt (@resolved_timestamp quiet zero_request (Doubles.world0 "")))])
  /\ logged (@generate_headers quiet quiet_generators zero_request)
       (Doubles.world0 "")
     = [announcement zero_request; (INFO, "Headers generated successfully")].
Proof.
  exact (@returned_answers_and_silent_replacements quiet quiet_generators
           zero_request (Doubles.world0 "") _ _ _
           quiet_generators_constructed eq_refl eq_refl eq_refl).
Defined.

(** The request above, run: its zero timestamp is replaced by the
    clock's time, the bare Gorgon string becomes X-Gorgon, and the empty
    X-Argus and the null X-Ladon come back as placeholders. *)
Example zero_request_answered :
  fst (@generate_headers quiet quiet_generators zero_request (Doubles.world0 ""))
  = Ok (VDict [("success", VBool true);
               ("headers", VDict [("X-Gorgon", VStr "8404c0a10000");
                                  ("X-Khronos", VStr "1700000000");
                                  ("X-Argus", VStr "placeholder_argus_value");
                                  ("X-Ladon", VStr "placeholder_ladon_value")]);
               ("timestamp", VInt 1700000000)]).
Proof. vm_compute. reflexivity. Qed.

(** A registration that cannot reach the server: the endpoint raises a
    500 with the message of the failure. *)
Example unreachable_registration :
  fst (@register_device registration_fails
         (mkDeviceRegistrationRequest (Some "7001") None) (Doubles.world0 ""))
  = Raise (mkExc HTTPException "log-va.tiktokv.com unreachable").
Proof. reflexivity. Qed.

(** The report of [test_modules] when [XArgus()] fails. *)
Example argus_reported_as_failed :
  fst (@test_modules argus_missing registration_fails (Doubles.world0 ""))
  = Ok (VDict [("status", VStr "test_complete");
               ("modules",
                VDict [("XGorgon", VStr "✅ Loaded");
                       ("XArgus", VStr "❌ Failed: libargus.so not found");
                       ("XLadon", VStr "✅ Loaded");
                       ("TTEncrypt", VStr "✅ Loaded")])]).
Proof. reflexivity. Qed.

End RestEdges.

(** * More on [get_compose_hash.py]: the manifest and the files of [main] *)

Module ComposeToolProofs.

Import ComposeHash ComposeTool ComposeHashSpec ComposeToolSpec.
Import SubprocessEdgesSpec DictFacts ComposeHashProofs CanonicalForm.

Lemma keys_length (d1 d2 : Dict) : keys d1 = keys d2 -> length d1 = length d2.
Proof.
  unfold keys. intros E. now rewrite <- (length_map fst d1), E, length_map.
Qed.

Section Tool.

Context {R : Runtime} {H : HashRuntime} {T : ToolRuntime}.

(** The manifest for a compose file whose services are a non-empty dict
    with a dict as first entry. *)
Lemma app_compose_of_primary
  (path : string) (top : Dict) (first : string) (config rest : Dict) :
  dict_get top "services" = Some (VDict ((first, VDict config) :: rest)) ->
  app_compose_of path (VDict top) =
  (build <~ Ok (field_or config "build" (VDict [])) ;;
   dockerfile <~ py_get build "dockerfile" VNone ;;
   context <~ py_get build "context" VNone ;;
   networks <~ py_keys (field_or top "networks" (VDict [])) ;;
   Ok (VDict
         [("runner", VStr "docker-compose");
          ("manifest_version", VInt 1);
          ("name", VStr ("xordi-audit-" ++ first));
          ("docker_compose_file", VStr path);
          ("public_logs", VBool false);
          ("public_sysinfo", VBool false);
          ("public_tcbinfo", VBool true);
          ("kms_enabled", VBool true);
          ("gateway_enabled", VBool true);
          ("key_provider", VStr "kms");
          ("key_provider_id", VStr "kms-base-prod7");
          ("no_instance_id", VBool false);
          ("secure_time", VBool true);
          ("allowed_envs", VList [VStr "BROWSER_MANAGER_URL"; VStr "DOCKER_HOST"]);
          ("_audit_metadata",
           VDict [("dockerfile", dockerfile);
                  ("context", context);
                  ("ports", field_or config "ports" (VList []));
                  ("environment", field_or config "environment" (VList []));
                  ("volumes", field_or config "volumes" (VList []));
                  ("networks", VList (map VStr networks));
                  ("services_count", VInt (Z.of_nat (S (length rest))));
                  ("service_names", VList (map VStr (first :: keys rest)))])]))%py.
Proof.
  intros Hs. unfold app_compose_of, py_get at 1, bindR at 1. rewrite Hs.
  cbn [truthy negb py_keys bindR keys map fst first_item py_getitem dict_get].
  rewrite String.eqb_refl. cbn [bindR py_get py_len length].
  unfold field_or.
  destruct (match dict_get config "build" with Some v => v | None => VDict [] end);
    try reflexivity.
Qed.

(** X22. The manifest, and with it the compose hash, covers little of the
    compose file. Two files convert to the same manifest as soon as
    they name their services alike, in the same order, declare the same
    networks, and their first services agree on [build], [ports],
    [environment] and [volumes]: the image and the command of the first
    service and everything in the other services can differ. *)
Theorem manifest_ignores_most_of_the_compose_file
  (path : string) (top1 top2 : Dict) (first : string)
  (config1 config2 rest1 rest2 : Dict) :
  dict_get top1 "services" = Some (VDict ((first, VDict config1) :: rest1)) ->
  dict_get top2 "services" = Some (VDict ((first, VDict config2) :: rest2)) ->
  (forall k, In k audited_keys -> dict_get config1 k = dict_get config2 k) ->
  keys rest1 = keys rest2 ->
  dict_get top1 "networks" = dict_get top2 "networks" ->
  app_compose_of path (VDict top1) = app_compose_of path (VDict top2)
  /\ (forall manifest1 manifest2,
        app_compose_of path (VDict top1) = Ok manifest1 ->
        app_compose_of path (VDict top2) = Ok manifest2 ->
        get_compose_hash manifest1 = get_compose_hash manifest2).
Proof.
  intros H1 H2 Hconfig Hrest Hnet.
  assert (E : app_compose_of path (VDict top1) = app_compose_of path (VDict top2)).
  { rewrite (app_compose_of_primary path top1 first config1 rest1 H1).
    rewrite (app_compose_of_primary path top2 first config2 rest2 H2).
    unfold field_or.
    rewrite !(Hconfig "build"), !(Hconfig "ports"), !(Hconfig "environment"),
      !(Hconfig "volumes") by (unfold audited_keys; simpl; auto).
    now rewrite Hnet, Hrest, (keys_length _ _ Hrest). }
  split; [exact E|]. rewrite E. intros m1 m2 -> [= ->]. reflexivity.
Qed.

(** X23. A [build] entry that is not a mapping, such as the short form that
    gives only the context directory, makes the conversion fail with
    [AttributeError]. *)
Theorem build_must_be_a_mapping
  (path : string) (top : Dict) (first : string) (config rest : Dict) (b : Value) :
  dict_get top "services" = Some (VDict ((first, VDict config) :: rest)) ->
  dict_get config "build" = Some b ->
  is_dict b = false ->
  app_compose_of path (VDict top)
  = Raise (mkExc AttributeError
             ("'" ++ type_name b ++ "' object has no attribute 'get'")).
Proof.
  intros Hs Hb Hnot.
  rewrite (app_compose_of_primary path top first config rest Hs).
  unfold field_or. rewrite Hb.
  destruct b; try discriminate; reflexivity.
Qed.

(** X24. A compose file whose first service is a mapping, whose [build] and
    [networks] are mappings where given, converts. The manifest is
    named after the first service, records the path it was given, the
    number of services and their names in the order of the file. *)
Theorem well_formed_compose_file_converts
  (path : string) (top : Dict) (first : string) (config rest : Dict) :
  dict_get top "services" = Some (VDict ((first, VDict config) :: rest)) ->
  is_dict (field_or config "build" (VDict [])) = true ->
  is_dict (field_or top "networks" (VDict [])) = true ->
  exists manifest metadata,
    app_compose_of path (VDict top) = Ok (VDict manifest)
    /\ dict_get manifest "name" = Some (VStr ("xordi-audit-" ++ first))
    /\ dict_get manifest "docker_compose_file" = Some (VStr path)
    /\ dict_get manifest "_audit_metadata" = Some (VDict metadata)
    /\ dict_get metadata "services_count"
       = Some (VInt (Z.of_nat (length (first :: keys rest))))
    /\ dict_get metadata "service_names"
       = Some (VList (map VStr (first :: keys rest))).
Proof.
  intros Hs Hb Hn.
  rewrite (app_compose_of_primary path top first config rest Hs).
  destruct (field_or config "build" (VDict [])); try discriminate.
  destruct (field_or top "networks" (VDict [])); try discriminate.
  simpl. do 2 eexists. split; [reflexivity|].
  repeat split. simpl. unfold keys. now rewrite length_map.
Qed.

Lemma canonical_entry (d : Dict) (k : string) :
  NoDup (keys d) ->
  entry (process_data (sort_object (VDict d))) k
  = option_map (fun v => process_data (sort_object v)) (dict_get d k).
Proof.
  intros Hnd. unfold entry. rewrite sort_object_dict. simpl.
  rewrite (dict_get_map process_data), (dict_get_map sort_object).
  rewrite <- (dict_get_perm d (sorted_items d) k Hnd (sorted_items_perm d)).
  now destruct (dict_get d k).
Qed.

Lemma app_compose_of_name
  (path : string) (top : Dict) (first : string) (config rest : Dict)
  (manifest : Value) :
  dict_get top "services" = Some (VDict ((first, VDict config) :: rest)) ->
  app_compose_of path (VDict top) = Ok manifest ->
  entry (process_data (sort_object manifest)) "name"
  = Some (VStr ("xordi-audit-" ++ first)).
Proof.
  intros Hs. rewrite (app_compose_of_primary path top first config rest Hs).
  unfold bindR.
  destruct (py_get _ "dockerfile" _); [|discriminate].
  destruct (py_get _ "context" _); [|discriminate].
  destruct (py_keys _); [|discriminate].
  intros [= <-]. rewrite canonical_entry.
  - simpl. now simp sort_object.
  - repeat constructor; simpl; intuition discriminate.
Qed.

(** X25. The manifest depends on the order in which the compose file lists
    its services: it is named after the first one. Two files whose
    first services have different names get manifests whose canonical
    values, the values serialized for hashing, differ, even when the
    two files hold the same services. *)
Theorem service_order_changes_the_manifest
  (path : string) (top1 top2 : Dict) (a b : string)
  (config1 config2 rest1 rest2 : Dict) (manifest1 manifest2 : Value) :
  dict_get top1 "services" = Some (VDict ((a, VDict config1) :: rest1)) ->
  dict_get top2 "services" = Some (VDict ((b, VDict config2) :: rest2)) ->
  a <> b ->
  app_compose_of path (VDict top1) = Ok manifest1 ->
  app_compose_of path (VDict top2) = Ok manifest2 ->
  entry (process_data (sort_object manifest1)) "name"
  = Some (VStr ("xordi-audit-" ++ a))
  /\ entry (process_data (sort_object manifest2)) "name"
     = Some (VStr ("xordi-audit-" ++ b))
  /\ process_data (sort_object manifest1) <> process_data (sort_object manifest2).
Proof.
  intros H1 H2 Hab E1 E2.
  pose proof (app_compose_of_name path top1 a config1 rest1 manifest1 H1 E1) as N1.
  pose proof (app_compose_of_name path top2 b config2 rest2 manifest2 H2 E2) as N2.
  split; [exact N1|]. split; [exact N2|]. intros Heq.
  rewrite Heq, N2 in N1. simpl in N1. injection N1 as N1. congruence.
Qed.

(** ** [main] *)

Lemma file_content_store_same (fs : list (string * string)) (name content : string) :
  file_content (store_file fs name content) name = Some content.
Proof.
  induction fs as [|[n c] t IH]; simpl.
  - now rewrite String.eqb_refl.
  - destruct (String.eqb name n) eqn:E; simpl; now rewrite E.
Qed.

Lemma file_content_store_other
  (fs : list (string * string)) (name other content : string) :
  other <> name ->
  file_content (store_file fs name content) other = file_content fs other.
Proof.
  intros Hne. apply String.eqb_neq in Hne.
  induction fs as [|[n c] t IH]; simpl.
  - now rewrite Hne.
  - destruct (String.eqb name n) eqn:E; simpl.
    + apply String.eqb_eq in E. subst n. now rewrite Hne.
    + now rewrite IH.
Qed.

(** X26. When the compose file has no services (the key is missing, or its
    value is empty or null), [main] stops with [ValueError] after its
    first line of output: it writes no file and prints no hash. *)
Theorem compose_file_without_services_is_refused (top : Dict) (d : Disk) :
  yaml_safe_load_file compose_path = Ok (VDict top) ->
  truthy (field_or top "services" (VDict [])) = false ->
  main d
  = (Raise no_services,
     mkDisk (files d) (printed d ++ ["=== Generating App Compose Hash ==="])%list).
Proof.
  intros Hload Hnone.
  unfold main, tool_bind, tool_print, tool_lift, docker_compose_to_app_compose.
  fold compose_path. rewrite Hload.
  unfold bindR at 1. unfold app_compose_of, py_get at 1, bindR at 1.
  fold (field_or top "services" (VDict [])). now rewrite Hnone.
Qed.

(** X27. A run of [main] that can read and convert the compose file and open
    its three files writes what it hashes: the hash it returns, prints
    and stores in [compose-hash.txt] is the digest of the text it stores
    in [app-compose-deterministic.json], which is the deterministic
    JSON of the manifest stored in [app-compose.json]. Files of other
    names are left as they were. *)
Theorem main_writes_what_it_hashes (manifest : Value) (d : Disk) :
  docker_compose_to_app_compose compose_path = Ok manifest ->
  (forall name, In name ["app-compose.json"; "app-compose-deterministic.json";
                         "compose-hash.txt"] ->
                open_for_writing name = Ok tt) ->
  let canonical := to_deterministic_json manifest in
  let h := sha256_hexdigest canonical in
  let d' := snd (main d) in
  fst (main d) = Ok h
  /\ printed d' = (printed d ++ report h)%list
  /\ file_content (files d') "compose-hash.txt" = Some h
  /\ file_content (files d') "app-compose-deterministic.json" = Some canonical
  /\ file_content (files d') "app-compose.json" = Some (json_dump_indent2 manifest)
  /\ (forall name,
        ~ In name ["app-compose.json"; "app-compose-deterministic.json";
                   "compose-hash.txt"] ->
        file_content (files d') name = file_content (files d) name).
Proof.
  intros Hconv Hopen canonical h.
  assert (E : main d
              = (Ok h,
                 mkDisk (outputs (files d) (json_dump_indent2 manifest) canonical h)
                   (printed d ++ report h)%list)).
  { unfold main, tool_bind, tool_print, tool_lift, tool_ret, write_file.
    fold compose_path. rewrite Hconv. cbn [files printed].
    rewrite !Hopen by (simpl; auto). cbn [files printed].
    unfold get_compose_hash. fold canonical. fold h.
    unfold outputs, report. now rewrite <- !app_assoc. }
  cbv zeta. rewrite E. cbn [fst snd files printed]. unfold outputs.
  split; [reflexivity|]. split; [reflexivity|].
  split; [apply file_content_store_same|].
  split; [rewrite file_content_store_other by discriminate;
          apply file_content_store_same|].
  split; [rewrite !file_content_store_other by discriminate;
          apply file_content_store_same|].
  intros name Hname.
  rewrite !file_content_store_other; [reflexivity| | |];
    intros ->; apply Hname; simpl; auto.
Qed.

End Tool.

(** ** The theorems on concrete compose files *)

Lemma audit_services :
  dict_get audit_compose "services"
  = Some (VDict (("tokscope-enclave", VDict enclave_service)
                 :: [("browser-manager", VDict browser_service)])).
Proof. reflexivity. Qed.

Lemma altered_services :
  dict_get altered_compose "services"
  = Some (VDict (("tokscope-enclave", VDict altered_enclave_service)
                 :: [("browser-manager", VDict altered_browser_service)])).
Proof. reflexivity. Qed.

Lemma reordered_services :
  dict_get reordered_compose "services"
  = Some (VDict (("browser-manager", VDict browser_service)
                 :: [("tokscope-enclave", VDict enclave_service)])).
Proof. reflexivity. Qed.

Lemma altered_agrees_on_audited_keys :
  forall k, In k audited_keys ->
    dict_get enclave_service k = dict_get altered_enclave_service k.
Proof.
  intros k [<-|[<-|[<-|[<-|[]]]]]; reflexivity.
Qed.

Lemma manifest_ignores_most_of_the_compose_file_witness :
  @app_compose_of quiet compose_path (VDict audit_compose)
  = @app_compose_of quiet compose_path (VDict altered_compose)
  /\ (forall manifest1 manifest2,
        @app_compose_of quiet compose_path (VDict audit_compose) = Ok manifest1 ->
        @app_compose_of quiet compose_path (VDict altered_compose) = Ok manifest2 ->
        @get_compose_hash hash_double manifest1
        = @get_compose_hash hash_double manifest2).
Proof.
  exact (@manifest_ignores_most_of_the_compose_file quiet hash_double
           compose_path audit_compose altered_compose _ _ _ _ _
           audit_services altered_services altered_agrees_on_audited_keys
           eq_refl eq_refl).
Defined.

Lemma short_build_services :
  dict_get short_build_compose "services"
  = Some (VDict (("tokscope-enclave", VDict [("build", VStr ".")]) :: [])).
Proof. reflexivity. Qed.

Lemma build_must_be_a_mapping_witness :
  @app_compose_of quiet compose_path (VDict short_build_compose)
  = Raise (mkExc AttributeError
             ("'" ++ type_name (VStr ".") ++ "' object has no attribute 'get'")).
Proof.
  exact (@build_must_be_a_mapping quiet compose_path short_build_compose
           _ _ _ (VStr ".") short_build_services eq_refl eq_refl).
Defined.

Lemma well_formed_compose_file_converts_witness :
  exists manifest metadata,
    @app_compose_of quiet compose_path (VDict audit_compose) = Ok (VDict manifest)
    /\ dict_get manifest "name" = Some (VStr ("xordi-audit-" ++ "tokscope-enclave"))
    /\ dict_get manifest "docker_compose_file" = Some (VStr compose_path)
    /\ dict_get manifest "_audit_metadata" = Some (VDict metadata)
    /\ dict_get metadata "services_count"
       = Some (VInt (Z.of_nat
                       (length ("tokscope-enclave"
                                :: keys [("browser-manager", VDict browser_service)]))))
    /\ dict_get metadata "service_names"
       = Some (VList (map VStr
                        ("tokscope-enclave"
                         :: keys [("browser-manager", VDict browser_service)]))).
Proof.
  exact (@well_formed_compose_file_converts quiet compose_path audit_compose
           _ _ _ audit_services eq_refl eq_refl).
Defined.

Lemma enclave_is_not_browser : "tokscope-enclave" <> "browser-manager".
Proof. discriminate. Qed.

Lemma audit_manifest_built :
  @app_compose_of quiet compose_path (VDict audit_compose) = Ok audit_manifest.
Proof. vm_compute. reflexivity. Qed.

Lemma reordered_manifest_built :
  @app_compose_of quiet compose_path (VDict reordered_compose)
  = Ok reordered_manifest.
Proof. vm_compute. reflexivity. Qed.

Lemma service_order_changes_the_manifest_witness :
  entry (process_data (sort_object audit_manifest)) "name"
  = Some (VStr ("xordi-audit-" ++ "tokscope-enclave"))
  /\ entry (process_data (sort_object reordered_manifest)) "name"
     = Some (VStr ("xordi-audit-" ++ "browser-manager"))
  /\ process_data (sort_object audit_manifest)
     <> process_data (sort_object reordered_manifest).
Proof.
  exact (@service_order_changes_the_manifest quiet compose_path audit_compose
           reordered_compose _ _ _ _ _ _ audit_manifest reordered_manifest
           audit_services reordered_services enclave_is_not_browser
           audit_manifest_built reordered_manifest_built).
Defined.

(** The two compose files compared above are equal as maps: they hold
    the same services under the same names. *)
Example reordered_is_the_same_map :
  same_map (VDict audit_compose) (VDict reordered_compose).
Proof.
  constructor. intros k. unfold audit_compose, reordered_compose. simpl.
  destruct (String.eqb k "services"); [|destruct (String.eqb k "networks")].
  - do 2 constructor. intros k'. simpl.
    destruct (String.eqb k' "tokscope-enclave") eqn:E1;
      destruct (String.eqb k' "browser-manager") eqn:E2.
    + apply String.eqb_eq in E1, E2. congruence.
    + constructor. apply same_map_refl.
    + constructor. apply same_map_refl.
    + constructor.
  - constructor. apply same_map_refl.
  - constructor.
Qed.

Lemma empty_compose_loaded :
  @yaml_safe_load_file (tool_double (Ok (VDict empty_compose))) compose_path
  = Ok (VDict empty_compose).
Proof. reflexivity. Qed.

Lemma compose_file_without_services_is_refused_witness :
  @main quiet hash_double (tool_double (Ok (VDict empty_compose))) disk0
  = (Raise no_services,
     mkDisk (files disk0)
       (printed disk0 ++ ["=== Generating App Compose Hash ==="])%list).
Proof.
  exact (@compose_file_without_services_is_refused quiet hash_double
           (tool_double (Ok (VDict empty_compose))) empty_compose disk0
           empty_compose_loaded eq_refl).
Defined.

Lemma audit_compose_converted :
  @docker_compose_to_app_compose quiet (tool_double (Ok (VDict audit_compose)))
    compose_path
  = Ok audit_manifest.
Proof. vm_compute. reflexivity. Qed.

Lemma outputs_can_be_opened :
  forall name,
    In name ["app-compose.json"; "app-compose-deterministic.json";
             "compose-hash.txt"] ->
    @open_for_writing (tool_double (Ok (VDict audit_compose))) name = Ok tt.
Proof. reflexivity. Qed.

Lemma main_writes_what_it_hashes_witness :
  fst (audit_run disk0)
  = Ok (@sha256_hexdigest hash_double
          (@to_deterministic_json hash_double audit_manifest))
  /\ printed (snd (audit_run disk0))
     = (printed disk0
        ++ report (@sha256_hexdigest hash_double
                     (@to_deterministic_json hash_double audit_manifest)))%list
  /\ file_content (files (snd (audit_run disk0))) "compose-hash.txt"
     = Some (@sha256_hexdigest hash_double
               (@to_deterministic_json hash_double audit_manifest))
  /\ file_content (files (snd (audit_run disk0))) "app-compose-deterministic.json"
     = Some (@to_deterministic_json hash_double audit_manifest)
  /\ file_content (files (snd (audit_run disk0))) "app-compose.json"
     = Some (@json_dump_indent2 (tool_double (Ok (VDict audit_compose)))
               audit_manifest)
  /\ (forall name,
        ~ In name ["app-compose.json"; "app-compose-deterministic.json";
                   "compose-hash.txt"] ->
        file_content (files (snd (audit_run disk0))) name
        = file_content (files disk0) name).
Proof.
  exact (@main_writes_what_it_hashes quiet hash_double
           (tool_double (Ok (VDict audit_compose))) audit_manifest disk0
           audit_compose_converted outputs_can_be_opened).
Defined.

End ComposeToolProofs.
